(** * Riyadlul Huda Treasurer API: authentication and summary engine

    A shallow embedding of [backend/main.py] (FastAPI handlers over a MongoDB
    store, PyJWT tokens and a passlib password context), followed by the
    properties of the token service, the auth middleware and the [/summary]
    aggregation that the specification states.

    Conventions.
    - A Python [dict] (a BSON document, a JWT payload, a Mongo filter) is an
      association list in insertion order with unique keys.
    - The module-level [db] and the collections behind it are threaded
      explicitly through a small state-and-error monad [M].
    - [datetime.now(timezone.utc)] is the parameter [now], in whole seconds
      since the epoch (the resolution PyJWT keeps for [exp]).
    - A number held in a document or in a token (BSON int32, int64 or
      double, Python [int] or [float]) is modelled by its value, a whole
      number; MongoDB compares numbers by value whatever their type.  A
      double that is not a whole number is outside the model, and so is the
      rounding of double addition: what is proved of a sum is stated for
      amounts whose magnitudes add up to less than 2^53 ([amounts_exact]),
      where Python's [sum] is exact on [int] and [float] alike.
    - A value is a scalar: a JSON object or array held by a document or by
      a token's claim is outside the model.  The properties of tokens with
      arbitrary claims say which claims they read as strings. *)

From Stdlib Require Import ZArith List String Ascii Bool Lia Permutation.
From Stdlib Require Import DecimalString HexadecimalString HexadecimalN FinFun.
Import ListNotations.

Open Scope string_scope.
Open Scope Z_scope.

Set Warnings "-register-all".

(* ================================================================== *)
(** ** Python and BSON values *)

(** A string that is the compact serialisation of a JWS is kept symbolic, as
    the payload it signs and the key it was signed with ([VJws]); every other
    string is [VStr]. *)
Inductive value : Type :=
| VNone
| VBool (b : bool)
| VNum (n : Z)
| VStr (s : string)
| VOid (hex : string)
| VTime (t : Z)
| VJws (payload : list (string * value)) (key : string).

Definition dict := list (string * value).

Section ValueInd.
Variable P : value -> Prop.
Hypothesis HNone : P VNone.
Hypothesis HBool : forall b, P (VBool b).
Hypothesis HNum : forall n, P (VNum n).
Hypothesis HStr : forall s, P (VStr s).
Hypothesis HOid : forall h, P (VOid h).
Hypothesis HTime : forall t, P (VTime t).
Hypothesis HJws : forall p k, Forall (fun kv => P (snd kv)) p -> P (VJws p k).

Fixpoint value_nested_ind (v : value) : P v :=
  match v with
  | VNone => HNone
  | VBool b => HBool b
  | VNum n => HNum n
  | VStr s => HStr s
  | VOid h => HOid h
  | VTime t => HTime t
  | VJws p k =>
      HJws p k
        ((fix go (l : list (string * value)) : Forall (fun kv => P (snd kv)) l :=
            match l with
            | [] => Forall_nil _
            | kv :: t => Forall_cons kv (value_nested_ind (snd kv)) (go t)
            end) p)
  end.
End ValueInd.

Fixpoint value_eqb (a b : value) : bool :=
  match a, b with
  | VNone, VNone => true
  | VBool x, VBool y => Bool.eqb x y
  | VNum x, VNum y => Z.eqb x y
  | VStr x, VStr y => String.eqb x y
  | VOid x, VOid y => String.eqb x y
  | VTime x, VTime y => Z.eqb x y
  | VJws p k, VJws q k' =>
      String.eqb k k' &&
      (fix go (l m : list (string * value)) : bool :=
         match l, m with
         | [], [] => true
         | (f, v) :: l', (g, w) :: m' => String.eqb f g && value_eqb v w && go l' m'
         | _, _ => false
         end) p q
  | _, _ => false
  end.

(** ** Dictionaries *)

Fixpoint get {A : Type} (d : list (string * A)) (k : string) : option A :=
  match d with
  | [] => None
  | (k', v) :: d' => if String.eqb k' k then Some v else get d' k
  end.

(** [d.get(k, dflt)] *)
Definition get_default (d : dict) (k : string) (dflt : value) : value :=
  match get d k with Some v => v | None => dflt end.

(** [d.get(k)] *)
Definition py_get (d : dict) (k : string) : value := get_default d k VNone.

(** [d[k] = v] and [d.update({k: v})]: overwrite in place or append. *)
Fixpoint update {A : Type} (d : list (string * A)) (k : string) (v : A)
  : list (string * A) :=
  match d with
  | [] => [(k, v)]
  | (k', v') :: d' =>
      if String.eqb k' k then (k', v) :: d' else (k', v') :: update d' k v
  end.

(** Truth value of a Python object in a condition. *)
Definition truthy (v : value) : bool :=
  match v with
  | VNone => false
  | VBool b => b
  | VNum n => negb (n =? 0)
  | VStr s => negb (String.eqb s "")
  | VOid _ | VTime _ | VJws _ _ => true
  end.

(** Truth value of what [find_one] returns: [None] and the empty dict are
    false. *)
Definition doc_truthy (o : option dict) : bool :=
  match o with
  | Some (_ :: _) => true
  | _ => false
  end.

Definition decimal (n : Z) : string := DecimalString.NilZero.string_of_int (Z.to_int n).

(** [str(v)].  The result is a Python string, hence again a [value] ([VStr],
    or the token itself when [v] is one).  The printed form of a datetime is
    never inspected by the handlers; it is rendered from its timestamp. *)
Definition py_str (v : value) : value :=
  match v with
  | VNone => VStr "None"
  | VBool true => VStr "True"
  | VBool false => VStr "False"
  | VNum n => VStr (decimal n)
  | VStr s => VStr s
  | VOid h => VStr h
  | VTime t => VStr ("datetime@" ++ decimal t)
  | VJws p k => VJws p k
  end.

(** [sum(xs)]: accumulate from the integer 0, left to right; adding a
    non-numeric element raises [TypeError] ([None] here).  [bool] is a
    subclass of [int].  The sum is the exact one: it is what Python computes
    on [int]s, and on [float]s of whole value as long as no partial sum
    reaches 2^53. *)
Definition py_add (acc : option Z) (x : value) : option Z :=
  match acc, x with
  | Some s, VNum n => Some (s + n)
  | Some s, VBool b => Some (s + Z.b2z b)
  | _, _ => None
  end.

Definition py_sum (xs : list value) : option Z := fold_left py_add xs (Some 0).

(** [l[i]] on a Python list: negative indices count from the end, anything
    else out of range raises [IndexError] ([None] here). *)
Definition py_index {A : Type} (l : list A) (i : Z) : option A :=
  let n := Z.of_nat (List.length l) in
  if (0 <=? i) && (i <? n) then nth_error l (Z.to_nat i)
  else if (- n <=? i) && (i <? 0) then nth_error l (Z.to_nat (i + n))
  else None.

(* ================================================================== *)
(** ** The MongoDB store *)

(** A filter maps a field to an equality test or to [{"$in": [...]}]. *)
Inductive cond : Type :=
| Eq (v : value)
| In_ (vs : list value).

Definition query := list (string * cond).

(** Equality in a filter is by BSON type and value; a [null] operand also
    matches a document that lacks the field. *)
Definition cond_match (c : cond) (field : option value) : bool :=
  match c, field with
  | Eq v, Some x => value_eqb x v
  | Eq v, None => value_eqb VNone v
  | In_ vs, Some x => existsb (value_eqb x) vs
  | In_ vs, None => existsb (value_eqb VNone) vs
  end.

Definition matches (q : query) (d : dict) : bool :=
  forallb (fun kc => cond_match (snd kc) (get d (fst kc))) q.

Definition find (q : query) (c : list dict) : list dict := filter (matches q) c.

Definition find_one (q : query) (c : list dict) : option dict :=
  List.find (matches q) c.

Definition count_documents (q : query) (c : list dict) : Z :=
  Z.of_nat (List.length (find q c)).

(** Projection [{"_id": 1}]. *)
Definition project_id (d : dict) : dict :=
  match get d "_id" with
  | Some v => [("_id", v)]
  | None => []
  end.

(** The database behind [db]: its collections by name (a collection that was
    never written is empty), whether the client's URI names a default
    database, and the counter from which fresh ObjectIds are drawn. *)
Record database : Type := {
  collections : list (string * list dict);
  default_database : bool;
  oid_counter : N
}.

Definition coll (d : database) (name : string) : list dict :=
  match get (collections d) name with
  | Some c => c
  | None => []
  end.

Definition set_coll (d : database) (name : string) (c : list dict) : database :=
  {| collections := update (collections d) name c;
     default_database := default_database d;
     oid_counter := oid_counter d |}.

Fixpoint pad_left (n : nat) (s : string) : string :=
  match n with
  | O => s
  | S n' => if (String.length s <? 24)%nat then pad_left n' ("0" ++ s) else s
  end.

(** The 24 hexadecimal digits of an ObjectId. *)
Definition hex24 (n : N) : string :=
  pad_left 24 (HexadecimalString.NilZero.string_of_uint (N.to_hex_uint n)).

(** The [_id]s that a collection holds. *)
Definition stored_ids (c : list dict) : list value :=
  flat_map (fun d => match get d "_id" with Some v => [v] | None => [] end) c.

(** [ObjectId()]: the generator never hands out an id that is in use.  From
    the counter on, the first number whose ObjectId is no stored [_id] of
    the collection; among [length used + 1] candidates one is free. *)
Fixpoint next_oid (fuel : nat) (n : N) (used : list value) : N :=
  match fuel with
  | O => n
  | S fuel' =>
      if existsb (value_eqb (VOid (hex24 n))) used
      then next_oid fuel' (N.succ n) used
      else n
  end.

Definition fresh_counter (d : database) (name : string) : N :=
  let used := stored_ids (coll d name) in
  next_oid (List.length used) (oid_counter d) used.

Definition fresh_oid (d : database) (name : string) : string :=
  hex24 (fresh_counter d name).

(* ================================================================== *)
(** ** Errors and the handler monad *)

(** What a handler raises: an [HTTPException], or an exception nobody
    catches (FastAPI answers 500). *)
Inductive error : Type :=
| HTTPException (status_code : Z) (detail : string)
| Uncaught (exc : string).

Inductive result (A : Type) : Type :=
| Ok (a : A)
| Err (e : error).
Arguments Ok {A} a.
Arguments Err {A} e.

(** The state is the module-level [db]: [None] when no database is
    configured. *)
Definition M (A : Type) : Type := option database -> result A * option database.

Definition ret {A : Type} (a : A) : M A := fun w => (Ok a, w).

Definition raise {A : Type} (e : error) : M A := fun w => (Err e, w).

Definition bind {A B : Type} (m : M A) (k : A -> M B) : M B :=
  fun w =>
    match m w with
    | (Ok a, w') => k a w'
    | (Err e, w') => (Err e, w')
    end.

Definition lift {A : Type} (r : result A) : M A := fun w => (r, w).

Notation "x <- m ;; k" := (bind m (fun x => k))
  (at level 61, m at next level, right associativity).

(** [collection(name)], read at the point of use. *)
Definition collection (name : string) : M (list dict) :=
  fun w =>
    match w with
    | None => (Err (HTTPException 500 "Database not available"), w)
    | Some d => (Ok (coll d name), w)
    end.

(** [collection(name).insert_one(doc)]: a document without [_id] receives a
    fresh ObjectId and is appended; a document that brings an [_id] which is
    in use is refused by the index on [_id]. *)
Definition insert_one (name : string) (doc : dict) : M value :=
  fun w =>
    match w with
    | None => (Err (HTTPException 500 "Database not available"), w)
    | Some d =>
        match get doc "_id" with
        | Some id =>
            if existsb (value_eqb id) (stored_ids (coll d name))
            then (Err (Uncaught "DuplicateKeyError"), w)
            else (Ok id, Some (set_coll d name (coll d name ++ [doc])))
        | None =>
            let id := VOid (fresh_oid d name) in
            let d' := set_coll d name (coll d name ++ [update doc "_id" id]) in
            (Ok id,
             Some {| collections := collections d';
                     default_database := default_database d';
                     oid_counter := N.succ (fresh_counter d name) |})
        end
    end.

(** [db.client.get_default_database()] raises when the URI names none. *)
Definition get_default_database : M unit :=
  fun w =>
    match w with
    | None => (Err (Uncaught "AttributeError"), w)
    | Some d =>
        if default_database d then (Ok tt, w)
        else (Err (Uncaught "ConfigurationError"), w)
    end.

(* ================================================================== *)
(** ** PyJWT, symbolically *)

(** What [json.dumps] accepts among the values of a payload. *)
Definition json_ok (v : value) : bool :=
  match v with
  | VOid _ | VTime _ => false
  | _ => true
  end.

Definition time_claims : list string := ["exp"; "iat"; "nbf"].

Definition is_time_claim (k : string) : bool := existsb (String.eqb k) time_claims.

(** [jwt.encode(payload, key, algorithm="HS256")]: datetimes under the time
    claims become integer timestamps; any other value that JSON cannot hold
    raises [TypeError]. *)
Definition jwt_encode (payload : dict) (key : string) : result value :=
  let p :=
    map (fun kv =>
           match snd kv with
           | VTime t => if is_time_claim (fst kv) then (fst kv, VNum t) else kv
           | _ => kv
           end) payload in
  if forallb (fun kv => json_ok (snd kv)) p then Ok (VJws p key)
  else Err (Uncaught "TypeError").

Inductive jwt_result : Type :=
| Decoded (payload : dict)
| ExpiredSignatureError
| InvalidTokenError.

(** The audience check of a decoder that was given no audience: a token
    that names one is refused ([InvalidAudienceError], an
    [InvalidTokenError]). *)
Definition audience_ok (p : dict) : bool := negb (truthy (py_get p "aud")).

(** [jwt.decode(token, key, algorithms=["HS256"])] at time [now]: the
    signature must verify under [key]; an [exp] claim, when present, must be
    an integer in the future; then the audience is checked.  A term whose
    payload JSON could not hold is the serialisation of no token and is
    refused like any other string.  The checks that PyJWT makes of the
    claims [iat] and [nbf] (and, in its later versions, of [sub] and [jti])
    are not modelled: no token that [main.py] mints carries these claims,
    and what is proved of tokens with arbitrary claims excludes them
    ([plain_claims]). *)
Definition jwt_decode (token : value) (key : string) (now : Z) : jwt_result :=
  match token with
  | VJws p k =>
      if negb (String.eqb k key) then InvalidTokenError
      else if negb (forallb (fun kv => json_ok (snd kv)) p) then InvalidTokenError
      else
        match get p "exp" with
        | None => if audience_ok p then Decoded p else InvalidTokenError
        | Some (VNum e) =>
            if e <=? now then ExpiredSignatureError
            else if audience_ok p then Decoded p else InvalidTokenError
        | Some _ => InvalidTokenError
        end
  | _ => InvalidTokenError
  end.

(* ================================================================== *)
(** ** Configuration *)

(** The environment variables read at import time ([int(...)] already
    applied to the two lifetimes). *)
Record environ : Type := {
  env_JWT_SECRET : option string;
  env_ACCESS_EXPIRES_MIN : option Z;
  env_REFRESH_EXPIRES_DAYS : option Z
}.

Definition getenv {A : Type} (v : option A) (dflt : A) : A :=
  match v with Some x => x | None => dflt end.

Definition JWT_SECRET (e : environ) : string :=
  getenv (env_JWT_SECRET e) "dev-secret-change-me".

Definition ACCESS_EXPIRES_MIN (e : environ) : Z :=
  getenv (env_ACCESS_EXPIRES_MIN e) 30.

Definition REFRESH_EXPIRES_DAYS (e : environ) : Z :=
  getenv (env_REFRESH_EXPIRES_DAYS e) 7.

(** [timedelta(minutes=m)] and [timedelta(days=d)], in seconds. *)
Definition minutes (m : Z) : Z := 60 * m.
Definition days (d : Z) : Z := 86400 * d.

(** Truthiness of an [Optional[str]] and of an [Optional[int]] argument:
    the value when it counts as supplied. *)
Definition supplied_str (o : option string) : option string :=
  match o with
  | Some s => if String.eqb s "" then None else Some s
  | None => None
  end.

Definition str_supplied (o : option string) : bool :=
  match supplied_str o with Some _ => true | None => false end.

Definition opt_str (o : option string) : value :=
  match o with Some s => VStr s | None => VNone end.

Definition supplied_int (o : option Z) : option Z :=
  match o with
  | Some n => if n =? 0 then None else Some n
  | None => None
  end.

(* ================================================================== *)
(** ** Helpers of [main.py] *)

Definition MONTHS : list string :=
  [ "Januari"; "Februari"; "Maret"; "April"; "Mei"; "Juni";
    "Juli"; "Agustus"; "September"; "Oktober"; "November"; "Desember" ].

Definition month_name (m : Z) : result string :=
  if (1 <=? m) && (m <=? 12) then
    match py_index MONTHS (m - 1) with
    | Some s => Ok s
    | None => Err (Uncaught "IndexError")
    end
  else Ok "".

(** The answer of [login]; [refresh_token_] is its ["refresh_token"] entry
    and [user_summary] its ["user"] entry. *)
Record LoginResponse : Type := {
  access_token : value;
  refresh_token_ : value;
  user_summary : dict
}.

Record SummaryReport : Type := {
  total_santri_aktif : Z;
  total_pemasukan : Z;
  total_pengeluaran : Z;
  pembayaran_syariah_lunas : Z;
  pembayaran_syariah_belum : Z;
  jumlah_tunggakan : Z;
  total_gaji_bulan_ini : Z;
  total_gaji_tertunda : Z
}.

(** [sum([...])] inside a handler. *)
Definition sum_of (xs : list value) : M Z :=
  match py_sum xs with
  | Some s => ret s
  | None => raise (Uncaught "TypeError")
  end.

Definition status_is (s : string) (d : dict) : bool :=
  value_eqb (py_get d "status") (VStr s).

Section Handlers.

(** The process environment, and passlib's [pwd_context.verify]: [None]
    when it raises (a stored hash that is not a string or that no scheme
    identifies). *)
Variable env : environ.
Variable pwd_context_verify : string -> value -> option bool.

Definition verify_password (password : string) (password_hash : value) : M bool :=
  match pwd_context_verify password password_hash with
  | Some b => ret b
  | None => raise (Uncaught "UnknownHashError")
  end.

Definition create_token (payload : dict) (expires_delta : Z) (now : Z)
  : result value :=
  let to_encode := payload in
  let exp := VTime (now + expires_delta) in
  let to_encode := update to_encode "exp" exp in
  jwt_encode to_encode (JWT_SECRET env).

Definition decode_token (token : value) (now : Z) : result dict :=
  match jwt_decode token (JWT_SECRET env) now with
  | Decoded payload => Ok payload
  | ExpiredSignatureError => Err (HTTPException 401 "Token expired")
  | InvalidTokenError => Err (HTTPException 401 "Invalid token")
  end.

(** [credentials] is the bearer credential of the request, when there is
    one.  The first lookup of the source (a placeholder whose result is
    overwritten at once) is kept for the exception it can raise. *)
Definition get_current_user (credentials : option value) (now : Z) : M dict :=
  match credentials with
  | None => raise (HTTPException 401 "Not authenticated")
  | Some token =>
      payload <- lift (decode_token token now) ;;
      let uid := py_get payload "uid" in
      if negb (truthy uid) then raise (HTTPException 401 "Invalid token payload")
      else
        _ <- collection "user" ;;
        _ <- get_default_database ;;
        users <- collection "user" ;;
        let user := find_one [("_id", Eq (py_get payload "uid"))] users in
        user <-
          (if negb (doc_truthy user) then
             let username := py_get payload "username" in
             if truthy username then
               users <- collection "user" ;;
               ret (find_one [("username", Eq username)] users)
             else ret user
           else ret user) ;;
        match user with
        | Some (f :: u) => ret (f :: u)
        | _ => raise (HTTPException 401 "User not found")
        end
  end.

(** [q] of [login]: by username when one is supplied, else by email. *)
Definition login_query (username email : option string) : query :=
  match supplied_str username with
  | Some u => [("username", Eq (VStr u))]
  | None => [("email", Eq (opt_str email))]
  end.

Definition login (username email : option string) (password : string) (now : Z)
  : M LoginResponse :=
  if negb (str_supplied username) && negb (str_supplied email) then
    raise (HTTPException 400 "Provide username or email")
  else
    let q := login_query username email in
    users <- collection "user" ;;
    let user := find_one q users in
    match user with
    | Some (f :: u') =>
        let user := f :: u' in
        ok <- verify_password password (get_default user "password_hash" (VStr "")) ;;
        if negb ok then raise (HTTPException 401 "Invalid credentials")
        else
          access <- lift (create_token
                            [ ("uid", py_str (py_get user "_id"));
                              ("username", py_get user "username");
                              ("role", get_default user "role" (VStr "admin")) ]
                            (minutes (ACCESS_EXPIRES_MIN env)) now) ;;
          refresh <- lift (create_token
                             [ ("uid", py_str (py_get user "_id"));
                               ("type", VStr "refresh") ]
                             (days (REFRESH_EXPIRES_DAYS env)) now) ;;
          _ <- insert_one "refreshtoken"
                 [ ("user_id", py_str (py_get user "_id"));
                   ("token", refresh);
                   ("expires_at", VTime (now + days (REFRESH_EXPIRES_DAYS env)));
                   ("created_at", VTime now) ] ;;
          ret {| access_token := access;
                 refresh_token_ := refresh;
                 user_summary :=
                   [ ("username", py_get user "username");
                     ("email", py_get user "email");
                     ("role", get_default user "role" (VStr "admin")) ] |}
    | _ => raise (HTTPException 401 "Invalid credentials")
    end.

Definition refresh_token (refresh_token : value) (now : Z) : M value :=
  payload <- lift (decode_token refresh_token now) ;;
  if negb (value_eqb (py_get payload "type") (VStr "refresh")) then
    raise (HTTPException 400 "Invalid refresh token")
  else
    tokens <- collection "refreshtoken" ;;
    let token_doc := find_one [("token", Eq refresh_token)] tokens in
    if negb (doc_truthy token_doc) then
      raise (HTTPException 401 "Refresh token not recognized")
    else
      let uid := py_get payload "uid" in
      access <- lift (create_token [("uid", uid)]
                        (minutes (ACCESS_EXPIRES_MIN env)) now) ;;
      ret access.

End Handlers.

(* ================================================================== *)
(** ** The summary *)

(** The filter on [santri] built from the gender, dormitory and class
    arguments that are supplied. *)
Definition summary_s_filt (asrama kelas gender : option string) : query :=
  let s_filt : query := [] in
  let s_filt :=
    match supplied_str gender with
    | Some g => update s_filt "gender" (Eq (VStr g))
    | None => s_filt
    end in
  let s_filt :=
    match supplied_str asrama with
    | Some a => update s_filt "asrama" (Eq (VStr a))
    | None => s_filt
    end in
  match supplied_str kelas with
  | Some k => update s_filt "kelas" (Eq (VStr k))
  | None => s_filt
  end.

(** [ids] of the source: the printed [_id] of every matching santri. *)
Definition santri_ids (s_filt : query) (santri : list dict) : list value :=
  map (fun s => py_str (py_get s "_id")) (map project_id (find s_filt santri)).

(** [sy_filt] of the source: the filter on [pembayaransyariah]. *)
Definition summary_sy_filt (tahun bulan : option Z) (asrama kelas gender : option string)
  : M query :=
  let sy_filt : query := [] in
  let sy_filt :=
    match supplied_int tahun with
    | Some t => update sy_filt "tahun" (Eq (VNum t))
    | None => sy_filt
    end in
  sy_filt <-
    match supplied_int bulan with
    | Some b =>
        name <- lift (month_name b) ;;
        ret (update sy_filt "bulan" (Eq (VStr name)))
    | None => ret sy_filt
    end ;;
  if str_supplied gender || str_supplied asrama || str_supplied kelas then
    let s_filt := summary_s_filt asrama kelas gender in
    santri <- collection "santri" ;;
    let ids := santri_ids s_filt santri in
    ret (update sy_filt "santri_id"
           (match ids with
            | [] => Eq (VStr "__none__")
            | _ :: _ => In_ ids
            end))
  else ret sy_filt.

(** [gaji_filt] of the source: the filter on [gajipegawai]. *)
Definition summary_gaji_filt (tahun bulan : option Z) : query :=
  let gaji_filt : query := [] in
  let gaji_filt :=
    match supplied_int tahun with
    | Some t => update gaji_filt "tahun" (Eq (VNum t))
    | None => gaji_filt
    end in
  match supplied_int bulan with
  | Some b => update gaji_filt "bulan" (Eq (VNum b))
  | None => gaji_filt
  end.

Definition nominal (x : dict) : value := get_default x "nominal" (VNum 0).
Definition total_bersih (g : dict) : value := get_default g "total_bersih" (VNum 0).

(** The body of [summary].  Its [user] argument, resolved beforehand by
    [get_current_user], is not read. *)
Definition summary (tahun bulan : option Z) (asrama kelas gender : option string)
  : M SummaryReport :=
  santri <- collection "santri" ;;
  let total_santri := count_documents [("aktif", Eq (VBool true))] santri in
  sy_filt <- summary_sy_filt tahun bulan asrama kelas gender ;;
  transaksi <- collection "transaksi" ;;
  pemasukan <- sum_of (map nominal (find [("jenis", Eq (VStr "pemasukan"))] transaksi)) ;;
  transaksi <- collection "transaksi" ;;
  pengeluaran <- sum_of (map nominal (find [("jenis", Eq (VStr "pengeluaran"))] transaksi)) ;;
  syariah <- collection "pembayaransyariah" ;;
  let pembayaran := find sy_filt syariah in
  let pembayaran_lunas := filter (status_is "Lunas") pembayaran in
  let pembayaran_belum := filter (fun p => negb (status_is "Lunas" p)) pembayaran in
  let gaji_filt := summary_gaji_filt tahun bulan in
  gaji <- collection "gajipegawai" ;;
  let gaji_items := find gaji_filt gaji in
  gaji_bulan_ini <-
    sum_of (map total_bersih (filter (status_is "Dibayar") gaji_items)) ;;
  gaji_tertunda <-
    sum_of (map total_bersih (filter (fun g => negb (status_is "Dibayar" g)) gaji_items)) ;;
  tunggakan <- sum_of (map nominal pembayaran_belum) ;;
  ret {| total_santri_aktif := total_santri;
         total_pemasukan := pemasukan;
         total_pengeluaran := pengeluaran;
         pembayaran_syariah_lunas := Z.of_nat (List.length pembayaran_lunas);
         pembayaran_syariah_belum := Z.of_nat (List.length pembayaran_belum);
         jumlah_tunggakan := tunggakan;
         total_gaji_bulan_ini := gaji_bulan_ini;
         total_gaji_tertunda := gaji_tertunda |}.

(* ================================================================== *)
(** ** The other routes of [main.py] *)

(** [GET /me]: what the handler builds from the user that the dependency
    [get_current_user] resolved. *)
Definition me (user : dict) : dict :=
  [ ("username", py_get user "username");
    ("email", py_get user "email");
    ("role", get_default user "role" (VStr "admin")) ].

(** The route as FastAPI runs it: the dependency, then the handler. *)
Definition me_route (env : environ) (credentials : option value) (now : Z) : M dict :=
  user <- get_current_user env credentials now ;;
  ret (me user).

(** [cursor.skip(s)]: a negative skip raises [ValueError]. *)
Definition cursor_skip (s : Z) : result nat :=
  if s <? 0 then Err (Uncaught "ValueError") else Ok (Z.to_nat s).

(** [cursor.limit(l)]: 0 means no limit; a negative limit asks for a single
    batch of at most [- l] documents (the server's own cap on the size of a
    batch is not modelled). *)
Definition cursor_limit (l : Z) (c : list dict) : list dict :=
  if l =? 0 then c else firstn (Z.to_nat (Z.abs l)) c.

(** [list(cursor.skip((page - 1) * page_size).limit(page_size))], over the
    documents the cursor's filter matches, in their stored order. *)
Definition page_of (found : list dict) (page page_size : Z) : result (list dict) :=
  match cursor_skip ((page - 1) * page_size) with
  | Ok s => Ok (cursor_limit page_size (skipn s found))
  | Err e => Err e
  end.

(** The answer of a list route: [{"items", "page", "page_size", "total"}]. *)
Record Page : Type := {
  pg_items : list dict;
  pg_page : Z;
  pg_page_size : Z;
  pg_total : Z
}.

(** [filt] of [list_syariah]. *)
Definition list_syariah_filt (santri_id : option string) (tahun : option Z)
           (bulan status : option string) : query :=
  let filt : query := [] in
  let filt :=
    match supplied_str santri_id with
    | Some s => update filt "santri_id" (Eq (VStr s))
    | None => filt
    end in
  let filt :=
    match supplied_int tahun with
    | Some t => update filt "tahun" (Eq (VNum t))
    | None => filt
    end in
  let filt :=
    match supplied_str bulan with
    | Some b => update filt "bulan" (Eq (VStr b))
    | None => filt
    end in
  match supplied_str status with
  | Some s => update filt "status" (Eq (VStr s))
  | None => filt
  end.

Definition list_syariah (santri_id : option string) (tahun : option Z)
           (bulan status : option string) (page page_size : Z) : M Page :=
  let filt := list_syariah_filt santri_id tahun bulan status in
  c <- collection "pembayaransyariah" ;;
  let total := count_documents filt c in
  c <- collection "pembayaransyariah" ;;
  items <- lift (page_of (find filt c) page page_size) ;;
  ret {| pg_items := items; pg_page := page; pg_page_size := page_size;
         pg_total := total |}.

(** [p_filt] of [list_gaji]: the filter on [pegawai]. *)
Definition list_gaji_p_filt (department role : option string) : query :=
  let p_filt : query := [] in
  let p_filt :=
    match supplied_str department with
    | Some dep => update p_filt "department" (Eq (VStr dep))
    | None => p_filt
    end in
  match supplied_str role with
  | Some r => update p_filt "role" (Eq (VStr r))
  | None => p_filt
  end.

(** [ids] of [list_gaji]: the printed [_id] of every matching pegawai. *)
Definition pegawai_ids (p_filt : query) (pegawai : list dict) : list value :=
  map (fun p => py_str (py_get p "_id")) (map project_id (find p_filt pegawai)).

(** [filt] of [list_gaji]. *)
Definition list_gaji_filt (pegawai_id department role : option string)
           (tahun bulan : option Z) (status : option string) : M query :=
  let filt : query := [] in
  let filt :=
    match supplied_str pegawai_id with
    | Some p => update filt "pegawai_id" (Eq (VStr p))
    | None => filt
    end in
  let filt :=
    match supplied_int tahun with
    | Some t => update filt "tahun" (Eq (VNum t))
    | None => filt
    end in
  let filt :=
    match supplied_int bulan with
    | Some b => update filt "bulan" (Eq (VNum b))
    | None => filt
    end in
  let filt :=
    match supplied_str status with
    | Some s => update filt "status" (Eq (VStr s))
    | None => filt
    end in
  if str_supplied department || str_supplied role then
    let p_filt := list_gaji_p_filt department role in
    pegawai <- collection "pegawai" ;;
    let ids := pegawai_ids p_filt pegawai in
    ret (update filt "pegawai_id"
           (match ids with
            | [] => Eq (VStr "__none__")
            | _ :: _ => In_ ids
            end))
  else ret filt.

Definition list_gaji (pegawai_id department role : option string)
           (tahun bulan : option Z) (status : option string)
           (page page_size : Z) : M Page :=
  filt <- list_gaji_filt pegawai_id department role tahun bulan status ;;
  c <- collection "gajipegawai" ;;
  let total := count_documents filt c in
  c <- collection "gajipegawai" ;;
  items <- lift (page_of (find filt c) page page_size) ;;
  ret {| pg_items := items; pg_page := page; pg_page_size := page_size;
         pg_total := total |}.

(** The equality part of [filt] in [list_santri]; [aktif] counts as supplied
    whenever it is not [None]. *)
Definition list_santri_filt (kelas asrama kobong gender kabupaten : option string)
           (aktif : option bool) : query :=
  let filt : query := [] in
  let filt :=
    match supplied_str kelas with
    | Some v => update filt "kelas" (Eq (VStr v))
    | None => filt
    end in
  let filt :=
    match supplied_str asrama with
    | Some v => update filt "asrama" (Eq (VStr v))
    | None => filt
    end in
  let filt :=
    match supplied_str kobong with
    | Some v => update filt "kobong" (Eq (VStr v))
    | None => filt
    end in
  let filt :=
    match supplied_str gender with
    | Some v => update filt "gender" (Eq (VStr v))
    | None => filt
    end in
  let filt :=
    match supplied_str kabupaten with
    | Some v => update filt "kabupaten" (Eq (VStr v))
    | None => filt
    end in
  match aktif with
  | Some b => update filt "aktif" (Eq (VBool b))
  | None => filt
  end.

(** The equality part of [filt] in [list_pegawai]. *)
Definition list_pegawai_filt (department role : option string) (aktif : option bool)
  : query :=
  let filt : query := [] in
  let filt :=
    match supplied_str department with
    | Some v => update filt "department" (Eq (VStr v))
    | None => filt
    end in
  let filt :=
    match supplied_str role with
    | Some v => update filt "role" (Eq (VStr v))
    | None => filt
    end in
  match aktif with
  | Some b => update filt "aktif" (Eq (VBool b))
  | None => filt
  end.

Section Search.

(** MongoDB's [{"$regex": q, "$options": "i"}]: the test that the pattern
    [q] stands for on a field's value, or [None] when the server refuses
    the pattern. *)
Variable regex : string -> option (value -> bool).

(** The clause [filt["$or"] = [{f: {"$regex": q, "$options": "i"}} ...]]
    that a supplied [q] adds, as the test it makes on a document; the
    server raises when it runs a query whose pattern it refuses. *)
Definition regex_or (q : option string) (fields : list string)
  : result (dict -> bool) :=
  match supplied_str q with
  | None => Ok (fun _ => true)
  | Some pat =>
      match regex pat with
      | None => Err (Uncaught "OperationFailure")
      | Some m =>
          Ok (fun d =>
                existsb (fun f => match get d f with
                                  | Some v => m v
                                  | None => false
                                  end) fields)
      end
  end.

(** The cursor is built and skipped before any query runs; the count comes
    last. *)
Definition list_santri (q kelas asrama kobong gender kabupaten : option string)
           (aktif : option bool) (page page_size : Z) : M Page :=
  let filt := list_santri_filt kelas asrama kobong gender kabupaten aktif in
  c <- collection "santri" ;;
  s <- lift (cursor_skip ((page - 1) * page_size)) ;;
  sel <- lift (regex_or q ["nama"; "nis"]) ;;
  let items :=
    cursor_limit page_size (skipn s (filter (fun d => sel d && matches filt d) c)) in
  c <- collection "santri" ;;
  let total := Z.of_nat (List.length (filter (fun d => sel d && matches filt d) c)) in
  ret {| pg_items := items; pg_page := page; pg_page_size := page_size;
         pg_total := total |}.

(** Here the count runs first. *)
Definition list_pegawai (q department role : option string) (aktif : option bool)
           (page page_size : Z) : M Page :=
  let filt := list_pegawai_filt department role aktif in
  c <- collection "pegawai" ;;
  sel <- lift (regex_or q ["nama"; "email"]) ;;
  let total := Z.of_nat (List.length (filter (fun d => sel d && matches filt d) c)) in
  c <- collection "pegawai" ;;
  s <- lift (cursor_skip ((page - 1) * page_size)) ;;
  let items :=
    cursor_limit page_size (skipn s (filter (fun d => sel d && matches filt d) c)) in
  ret {| pg_items := items; pg_page := page; pg_page_size := page_size;
         pg_total := total |}.

End Search.

(** An integer that fits a C [int]. *)
Definition c_int (n : Z) : bool := (- 2147483648 <=? n) && (n <=? 2147483647).

(** The bounds on [tanggal] that [list_transaksi] computes, as the first
    days of two months, each a pair (year, month).  [datetime(y, m, 1)]
    converts its arguments to C [int]s, raising [OverflowError] for one
    that does not fit, and then raises [ValueError] outside the years
    1..9999 and the months 1..12. *)
Definition datetime_first (y m : Z) : result (Z * Z) :=
  if negb (c_int y && c_int m) then Err (Uncaught "OverflowError")
  else if (1 <=? y) && (y <=? 9999) && (1 <=? m) && (m <=? 12) then Ok (y, m)
  else Err (Uncaught "ValueError").

(** [n or dflt] on an [Optional[int]]. *)
Definition int_or (o : option Z) (dflt : Z) : Z :=
  match supplied_int o with
  | Some n => n
  | None => dflt
  end.

(** [None] when neither [tahun] nor [bulan] is supplied (no bound is set);
    otherwise [start] and [end], or the error of the first [datetime] that
    fails. *)
Definition transaksi_range (tahun bulan : option Z)
  : option (result ((Z * Z) * (Z * Z))) :=
  match supplied_int tahun, supplied_int bulan with
  | None, None => None
  | _, _ =>
      Some
        match datetime_first (int_or tahun 2000) (int_or bulan 1) with
        | Err e => Err e
        | Ok start =>
            let end_year := int_or tahun 2100 in
            let stop :=
              match supplied_int bulan with
              | Some b =>
                  if b =? 12 then datetime_first (int_or tahun 2100 + 1) 1
                  else datetime_first (int_or tahun 2100) (b + 1)
              | None => datetime_first (end_year + 1) 1
              end in
            match stop with
            | Err e => Err e
            | Ok e => Ok (start, e)
            end
        end
  end.

(** The months elapsed up to the first day of a month. *)
Definition month_index (ym : Z * Z) : Z := 12 * fst ym + snd ym.

(* ================================================================== *)
(** ** Indexes, the startup seed and [POST /santri] *)

Module Schemas.

Inductive Gender : Type := Putra | Putri.

(** A validated body of [POST /santri] ([schemas.Santri]). *)
Record Santri : Type := {
  nis : string;
  nama : string;
  kelas : string;
  asrama : string;
  kobong : string;
  gender : Gender;
  alamat : option string;
  kabupaten : option string;
  aktif : bool
}.

End Schemas.

(** [payload.model_dump()]. *)
Definition model_dump (s : Schemas.Santri) : dict :=
  [ ("nis", VStr (Schemas.nis s));
    ("nama", VStr (Schemas.nama s));
    ("kelas", VStr (Schemas.kelas s));
    ("asrama", VStr (Schemas.asrama s));
    ("kobong", VStr (Schemas.kobong s));
    ("gender", VStr match Schemas.gender s with
                    | Schemas.Putra => "Putra"
                    | Schemas.Putri => "Putri"
                    end);
    ("alamat", opt_str (Schemas.alamat s));
    ("kabupaten", opt_str (Schemas.kabupaten s));
    ("aktif", VBool (Schemas.aktif s)) ].

(** An index of the database: its collection, its keys, and whether it is
    unique. *)
Record index : Type := {
  ix_collection : string;
  ix_keys : list string;
  ix_unique : bool
}.

(** The module-level [db] together with the indexes the database holds. *)
Record app : Type := {
  app_db : option database;
  app_indexes : list index
}.

(** Two documents agree on the keys of an index (a missing field counts as
    [null]). *)
Definition same_keys (keys : list string) (d d' : dict) : bool :=
  forallb (fun k => value_eqb (py_get d k) (py_get d' k)) keys.

Fixpoint has_dup (keys : list string) (c : list dict) : bool :=
  match c with
  | [] => false
  | d :: c' => existsb (same_keys keys d) c' || has_dup keys c'
  end.

Definition same_index_keys (name : string) (keys : list string) (ix : index) : bool :=
  String.eqb (ix_collection ix) name
  && (if list_eq_dec string_dec (ix_keys ix) keys then true else false).

(** [collection(name).create_index(keys, unique=...)]: nothing to do when
    the index exists; an index on the same keys with the other uniqueness is
    a conflict; a unique index cannot be built over duplicates. *)
Definition create_index (name : string) (keys : list string) (unique : bool)
           (a : app) : result unit * app :=
  match app_db a with
  | None => (Err (HTTPException 500 "Database not available"), a)
  | Some d =>
      match List.find (same_index_keys name keys) (app_indexes a) with
      | Some old =>
          if Bool.eqb (ix_unique old) unique then (Ok tt, a)
          else (Err (Uncaught "OperationFailure"), a)
      | None =>
          if unique && has_dup keys (coll d name)
          then (Err (Uncaught "DuplicateKeyError"), a)
          else (Ok tt,
                {| app_db := app_db a;
                   app_indexes :=
                     app_indexes a
                       ++ [ {| ix_collection := name; ix_keys := keys;
                               ix_unique := unique |} ] |})
      end
  end.

(** A document would repeat, under a unique index of its collection, the
    keys of a stored document. *)
Definition violates (ixs : list index) (name : string) (doc : dict) (c : list dict)
  : bool :=
  existsb (fun ix =>
             ix_unique ix && String.eqb (ix_collection ix) name
             && existsb (same_keys (ix_keys ix) doc) c) ixs.

(** [collection(name).insert_one(doc)] on a database with indexes. *)
Definition insert_one_indexed (name : string) (doc : dict) (a : app)
  : result value * app :=
  match app_db a with
  | None => (Err (HTTPException 500 "Database not available"), a)
  | Some d =>
      if violates (app_indexes a) name doc (coll d name)
      then (Err (Uncaught "DuplicateKeyError"), a)
      else
        let '(r, w) := insert_one name doc (Some d) in
        (r, {| app_db := w; app_indexes := app_indexes a |})
  end.

(** [find_one({"$or": [q1, q2, ...]})]. *)
Definition find_one_or (qs : list query) (c : list dict) : option dict :=
  List.find (fun d => existsb (fun q => matches q d) qs) c.

(** The body of a [try: ... except Exception: pass]: the steps run in turn
    until one raises; the exception is dropped. *)
Fixpoint try_pass (steps : list (app -> result unit * app)) (a : app) : app :=
  match steps with
  | [] => a
  | step :: rest =>
      match step a with
      | (Ok _, a') => try_pass rest a'
      | (Err _, a') => a'
      end
  end.

Definition create_santri (payload : Schemas.Santri) (now : Z) (a : app)
  : result dict * app :=
  let doc := model_dump payload in
  let doc := update (update doc "created_at" (VTime now)) "updated_at" (VTime now) in
  match insert_one_indexed "santri" doc a with
  | (Ok inserted_id, a') => (Ok [("id", py_str inserted_id)], a')
  | (Err e, a') => (Err e, a')
  end.

Section Startup.

(** passlib's [pwd_context.hash], with the salt it draws. *)
Variable pwd_context_hash : string -> string.

Definition hash_password (password : string) : value :=
  VStr (pwd_context_hash password).

Definition seed_admin (now : Z) (a : app) : result unit * app :=
  match app_db a with
  | None => (Ok tt, a)
  | Some d =>
      let users := coll d "user" in
      let admin :=
        find_one_or [ [("username", Eq (VStr "admin"))];
                      [("email", Eq (VStr "bendahara@gmail.com"))] ] users in
      let seeded :=
        if negb (doc_truthy admin) then
          let password_hash := hash_password "bendahara" in
          let doc :=
            [ ("username", VStr "admin");
              ("email", VStr "bendahara@gmail.com");
              ("password_hash", password_hash);
              ("role", VStr "admin");
              ("created_at", VTime now) ] in
          match insert_one_indexed "user" doc a with
          | (Ok _, a') => create_index "refreshtoken" ["user_id"] false a'
          | (Err e, a') => (Err e, a')
          end
        else (Ok tt, a) in
      match seeded with
      | (Err e, a') => (Err e, a')
      | (Ok _, a') =>
          (Ok tt,
           try_pass
             [ create_index "santri" ["nis"] true;
               create_index "pembayaransyariah" ["santri_id"; "tahun"; "bulan"] false;
               create_index "pegawai" ["nama"] false;
               create_index "gajipegawai" ["pegawai_id"; "tahun"; "bulan"] false ]
             a')
      end
  end.

End Startup.

(* ================================================================== *)
(** ** Vocabulary of the specification *)

(** The error kinds of the specification's taxonomy, and the kind each
    exception of [main.py] stands for: a token of the wrong type is an
    invalid token, like one whose signature fails. *)
Inductive error_kind : Type :=
| InvalidCredentials
| TokenExpired
| InvalidToken
| InvalidTokenPayload
| TokenNotRecognized
| UserNotFound
| Unauthenticated
| StoreUnavailable
| BadRequest
| InternalError.

Definition kind_of (e : error) : error_kind :=
  match e with
  | HTTPException code detail =>
      if String.eqb detail "Invalid credentials" then InvalidCredentials
      else if String.eqb detail "Token expired" then TokenExpired
      else if String.eqb detail "Invalid token" then InvalidToken
      else if String.eqb detail "Invalid refresh token" then InvalidToken
      else if String.eqb detail "Invalid token payload" then InvalidTokenPayload
      else if String.eqb detail "Refresh token not recognized" then TokenNotRecognized
      else if String.eqb detail "User not found" then UserNotFound
      else if String.eqb detail "Not authenticated" then Unauthenticated
      else if String.eqb detail "Database not available" then StoreUnavailable
      else BadRequest
  | Uncaught _ => InternalError
  end.

(** The registered claims, besides [exp], that PyJWT examines when it
    decodes; no payload that [main.py] hands to [create_token] holds one. *)
Definition registered_claims : list string :=
  ["iat"; "nbf"; "aud"; "iss"; "sub"; "jti"].

Definition plain_claims (payload : dict) : bool :=
  forallb (fun k => match get payload k with None => true | Some _ => false end)
    registered_claims.

(** The month name the specification expects of [month_name]. *)
Definition month_string (m : Z) : string :=
  if (1 <=? m) && (m <=? 12) then nth (Z.to_nat (m - 1)) MONTHS "" else "".

(** A number as [sum] reads it, and the exact sum of a list of them. *)
Definition numeric (v : value) : bool :=
  match v with
  | VNum _ | VBool _ => true
  | _ => false
  end.

Definition amount (v : value) : Z :=
  match v with
  | VNum n => n
  | VBool b => Z.b2z b
  | _ => 0
  end.

Definition total (xs : list value) : Z :=
  fold_right (fun x s => amount x + s) 0 xs.

(** Every amount that [summary] may add up is a number. *)
Definition amounts_numeric (d : database) : bool :=
  forallb (fun x => numeric (nominal x)) (coll d "transaksi")
  && forallb (fun x => numeric (nominal x)) (coll d "pembayaransyariah")
  && forallb (fun g => numeric (total_bersih g)) (coll d "gajipegawai").




(** The [user] collection obeys its data model: [_id] is the primary key,
    [username] is a string of at least three characters that no two users
    share, and the printed form of an ObjectId is nobody's string [_id]. *)
Definition users_wf (users : list dict) : Prop :=
  (forall u u', In u users -> In u' users -> get u "_id" = get u' "_id" -> u = u')
  /\ (forall u u', In u users -> In u' users ->
                   get u "username" = get u' "username" -> u = u')
  /\ (forall u, In u users ->
                exists n, get u "username" = Some (VStr n) /\ (3 <= String.length n)%nat)
  /\ (forall u u' h, In u users -> In u' users ->
                     get u "_id" = Some (VOid h) -> get u' "_id" <> Some (VStr h)).

(** A valid stored id: a non-empty string, or an ObjectId. *)
Definition valid_stored_id (u : dict) : Prop :=
  (exists s, get u "_id" = Some (VStr s) /\ s <> "")
  \/ (exists h, get u "_id" = Some (VOid h) /\ h <> "").

(** What a login that gets through for the stored user [u] at [now] hands
    out and leaves in the store. *)
Section Issued.

Variable env : environ.

Definition access_claims (u : dict) (now : Z) : dict :=
  [ ("uid", py_str (py_get u "_id"));
    ("username", py_get u "username");
    ("role", get_default u "role" (VStr "admin"));
    ("exp", VNum (now + minutes (ACCESS_EXPIRES_MIN env))) ].

Definition refresh_claims (u : dict) (now : Z) : dict :=
  [ ("uid", py_str (py_get u "_id"));
    ("type", VStr "refresh");
    ("exp", VNum (now + days (REFRESH_EXPIRES_DAYS env))) ].

Definition refresh_record (u : dict) (now : Z) : dict :=
  [ ("user_id", py_str (py_get u "_id"));
    ("token", VJws (refresh_claims u now) (JWT_SECRET env));
    ("expires_at", VTime (now + days (REFRESH_EXPIRES_DAYS env)));
    ("created_at", VTime now) ].

Definition login_response (u : dict) (now : Z) : LoginResponse :=
  {| access_token := VJws (access_claims u now) (JWT_SECRET env);
     refresh_token_ := VJws (refresh_claims u now) (JWT_SECRET env);
     user_summary :=
       [ ("username", py_get u "username");
         ("email", py_get u "email");
         ("role", get_default u "role" (VStr "admin")) ] |}.

Definition after_login (d : database) (u : dict) (now : Z) : database :=
  {| collections :=
       update (collections d) "refreshtoken"
         (coll d "refreshtoken"
            ++ [refresh_record u now
                  ++ [("_id", VOid (fresh_oid d "refreshtoken"))]])%list;
     default_database := default_database d;
     oid_counter := N.succ (fresh_counter d "refreshtoken") |}.

End Issued.

(** The items of the answer of a list route; none when it raised. *)
Definition answered_items (r : result Page * option database) : list dict :=
  match fst r with
  | Ok pg => pg_items pg
  | Err _ => []
  end.

(** [b] holds the database of [a] and the indexes of [a], then more. *)
Definition extends (a b : app) : Prop :=
  app_db b = app_db a
  /\ exists more, app_indexes b = (app_indexes a ++ more)%list.

(** A run of [create_index] steps, as in the [try] block of [seed_admin]. *)
Definition index_steps (specs : list (string * list string * bool))
  : list (app -> result unit * app) :=
  map (fun s => create_index (fst (fst s)) (snd (fst s)) (snd s)) specs.

(** The indexes that [seed_admin] asks for in its [try] block. *)
Definition startup_indexes : list (string * list string * bool) :=
  [ ("santri", ["nis"], true);
    ("pembayaransyariah", ["santri_id"; "tahun"; "bulan"], false);
    ("pegawai", ["nama"], false);
    ("gajipegawai", ["pegawai_id"; "tahun"; "bulan"], false) ].

(** The document that [seed_admin] inserts, before it receives its [_id]. *)
Definition admin_doc (password_hash : value) (now : Z) : dict :=
  [ ("username", VStr "admin");
    ("email", VStr "bendahara@gmail.com");
    ("password_hash", password_hash);
    ("role", VStr "admin");
    ("created_at", VTime now) ].

(** The two alternatives of the [$or] lookup of [seed_admin]. *)
Definition admin_queries : list query :=
  [ [("username", Eq (VStr "admin"))];
    [("email", Eq (VStr "bendahara@gmail.com"))] ].

(** The document that [create_santri] hands to [insert_one], and the
    document stored once it has received its [_id]. *)
Definition santri_new (payload : Schemas.Santri) (now : Z) : dict :=
  update (update (model_dump payload) "created_at" (VTime now))
    "updated_at" (VTime now).

Definition santri_doc (payload : Schemas.Santri) (now : Z) (id : value) : dict :=
  update (santri_new payload now) "_id" id.

(** The unique index on [santri.nis] that the startup asks for. *)
Definition nis_index : index :=
  {| ix_collection := "santri"; ix_keys := ["nis"]; ix_unique := true |}.

(* ================================================================== *)
(** ** Sample stores *)

Definition env0 : environ :=
  {| env_JWT_SECRET := None;
     env_ACCESS_EXPIRES_MIN := None;
     env_REFRESH_EXPIRES_DAYS := None |}.

(** A stand-in for passlib: the hash of [p] is ["$2b$" ++ p]; the empty
    string and non-strings are not identified as hashes. *)
Definition sample_verify (password : string) (password_hash : value) : option bool :=
  match password_hash with
  | VStr h => if String.eqb h "" then None else Some (String.eqb h ("$2b$" ++ password))
  | _ => None
  end.

(** A user keyed by a string [_id], and one keyed by an ObjectId. *)
Definition user_str : dict :=
  [ ("_id", VStr "u1"); ("username", VStr "admin");
    ("email", VStr "bendahara@gmail.com");
    ("password_hash", VStr "$2b$bendahara"); ("role", VStr "admin") ].

Definition user_oid : dict :=
  [ ("_id", VOid "65f000000000000000000001"); ("username", VStr "kasir");
    ("email", VStr "kasir@example.org");
    ("password_hash", VStr "$2b$rahasia"); ("role", VStr "staff") ].

Definition db_users : database :=
  {| collections := [("user", [user_str; user_oid])];
     default_database := true;
     oid_counter := 0 |}.

(** The tokens that a login of [user_str] at second 1000 hands out, a
    refresh token nobody was issued, and the store after that login. *)
Definition sample_access_token : value :=
  VJws (access_claims env0 user_str 1000) (JWT_SECRET env0).

Definition sample_refresh_token : value :=
  VJws (refresh_claims env0 user_str 1000) (JWT_SECRET env0).

Definition forged_refresh_token : value :=
  VJws [ ("uid", VStr "u1"); ("type", VStr "refresh"); ("exp", VNum 999999) ]
       (JWT_SECRET env0).

Definition db_after_login : database := after_login env0 db_users user_str 1000.

(** A store for the summary: two santri, the two payments of the first,
    three payroll records (one without a status) and two transactions. *)
Definition santri_putra : dict :=
  [ ("_id", VOid "65f0000000000000000000a1"); ("nis", VStr "1001");
    ("nama", VStr "Ahmad"); ("kelas", VStr "1A"); ("asrama", VStr "Al-Fatih");
    ("gender", VStr "Putra"); ("aktif", VBool true) ].

Definition santri_putra2 : dict :=
  [ ("_id", VOid "65f0000000000000000000a2"); ("nis", VStr "1002");
    ("nama", VStr "Bilal"); ("kelas", VStr "2A"); ("asrama", VStr "Al-Fatih");
    ("gender", VStr "Putra"); ("aktif", VBool false) ].

Definition bayar_lunas : dict :=
  [ ("santri_id", VStr "65f0000000000000000000a1"); ("bulan", VStr "Maret");
    ("tahun", VNum 2024); ("nominal", VNum 500000); ("status", VStr "Lunas") ].

Definition bayar_belum : dict :=
  [ ("santri_id", VStr "65f0000000000000000000a1"); ("bulan", VStr "April");
    ("tahun", VNum 2024); ("nominal", VNum 300000); ("status", VStr "Belum") ].

Definition gaji_dibayar : dict :=
  [ ("pegawai_id", VStr "p1"); ("bulan", VNum 3); ("tahun", VNum 2024);
    ("total_bersih", VNum 2000000); ("status", VStr "Dibayar") ].

Definition gaji_belum : dict :=
  [ ("pegawai_id", VStr "p2"); ("bulan", VNum 3); ("tahun", VNum 2024);
    ("total_bersih", VNum 1500000); ("status", VStr "Belum") ].

Definition gaji_tanpa_status : dict :=
  [ ("pegawai_id", VStr "p3"); ("bulan", VNum 3); ("tahun", VNum 2024);
    ("total_bersih", VNum 1200000) ].

Definition transaksi_masuk : dict :=
  [ ("jenis", VStr "pemasukan"); ("nominal", VNum 1000000) ].

Definition transaksi_keluar : dict :=
  [ ("jenis", VStr "pengeluaran"); ("nominal", VNum 250000) ].

Definition db_summary : database :=
  {| collections :=
       [ ("santri", [santri_putra; santri_putra2]);
         ("pembayaransyariah", [bayar_lunas; bayar_belum]);
         ("gajipegawai", [gaji_dibayar; gaji_belum; gaji_tanpa_status]);
         ("transaksi", [transaksi_masuk; transaksi_keluar]) ];
     default_database := true;
     oid_counter := 0 |}.

(** A payment whose [santri_id] is the literal ["__none__"], in a store
    where no santri is a "Putri". *)
Definition bayar_yatim : dict :=
  [ ("santri_id", VStr "__none__"); ("bulan", VStr "Mei"); ("tahun", VNum 2024);
    ("nominal", VNum 300000); ("status", VStr "Belum") ].

Definition db_sentinel : database :=
  {| collections :=
       [ ("santri", [santri_putra]);
         ("pembayaransyariah", [bayar_yatim]) ];
     default_database := true;
     oid_counter := 0 |}.

(** A second configuration, with a secret of its own. *)
Definition env1 : environ :=
  {| env_JWT_SECRET := Some "s3cret";
     env_ACCESS_EXPIRES_MIN := None;
     env_REFRESH_EXPIRES_DAYS := None |}.

(** The users of [db_users] behind a client whose URI names no default
    database. *)
Definition db_no_default : database :=
  {| collections := [("user", [user_str; user_oid])];
     default_database := false;
     oid_counter := 0 |}.

(** Tokens under the default secret: one without [uid], and one whose
    [uid] is nobody's [_id] while its [username] is a stored one. *)
Definition token_without_uid : value :=
  VJws [ ("username", VStr "admin"); ("exp", VNum 999999) ] (JWT_SECRET env0).

Definition stale_access_token : value :=
  VJws [ ("uid", VStr "gone"); ("username", VStr "kasir"); ("exp", VNum 999999) ]
       (JWT_SECRET env0).

(** A stand-in for passlib's hash that [sample_verify] verifies. *)
Definition sample_hash (password : string) : string := "$2b$" ++ password.

(** A stand-in for the server's matcher: the pattern "(" is refused; any
    other pattern is looked for as it stands, letters compared without
    case, in a string value. *)
Definition lower_ascii (c : ascii) : ascii :=
  let n := nat_of_ascii c in
  if Nat.leb 65 n && Nat.leb n 90 then ascii_of_nat (n + 32) else c.

Fixpoint lower (s : string) : string :=
  match s with
  | EmptyString => EmptyString
  | String c s' => String (lower_ascii c) (lower s')
  end.

Definition sample_regex (pat : string) : option (value -> bool) :=
  if String.eqb pat "(" then None
  else
    Some (fun v =>
            match v with
            | VStr s =>
                match String.index 0 (lower pat) (lower s) with
                | Some _ => true
                | None => false
                end
            | _ => false
            end).

(** Two pegawai and a store for the payroll listing. *)
Definition pegawai_guru : dict :=
  [ ("_id", VStr "p1"); ("nama", VStr "Hasan"); ("role", VStr "Guru");
    ("department", VStr "Pendidikan"); ("aktif", VBool true) ].

Definition pegawai_dapur : dict :=
  [ ("_id", VStr "p2"); ("nama", VStr "Siti"); ("role", VStr "Juru masak");
    ("department", VStr "Dapur"); ("aktif", VBool true) ].

Definition db_gaji : database :=
  {| collections :=
       [ ("pegawai", [pegawai_guru; pegawai_dapur]);
         ("gajipegawai", [gaji_dibayar; gaji_belum; gaji_tanpa_status]) ];
     default_database := true;
     oid_counter := 0 |}.

(** A store in which two santri share a [nis]. *)
Definition santri_kembar : dict :=
  [ ("_id", VOid "65f0000000000000000000a3"); ("nis", VStr "1001");
    ("nama", VStr "Ahmad Fauzi"); ("kelas", VStr "1B"); ("asrama", VStr "Al-Fatih");
    ("gender", VStr "Putra"); ("aktif", VBool true) ].

Definition db_kembar : database :=
  {| collections := [("santri", [santri_putra; santri_kembar])];
     default_database := true;
     oid_counter := 0 |}.

(** The states of the application: [db_summary] before the startup and
    with the unique index on [nis], and [db_kembar] before the startup. *)
Definition app_fresh : app := {| app_db := Some db_summary; app_indexes := [] |}.

Definition app_indexed : app :=
  {| app_db := Some db_summary; app_indexes := [nis_index] |}.

Definition app_kembar : app := {| app_db := Some db_kembar; app_indexes := [] |}.

(** Two bodies of [POST /santri]: a new [nis], and the [nis] of
    [santri_putra]. *)
Definition santri_baru : Schemas.Santri :=
  {| Schemas.nis := "1003"; Schemas.nama := "Citra"; Schemas.kelas := "1A";
     Schemas.asrama := "Az-Zahra"; Schemas.kobong := "K1";
     Schemas.gender := Schemas.Putri; Schemas.alamat := None;
     Schemas.kabupaten := Some "Garut"; Schemas.aktif := true |}.

Definition santri_ganda : Schemas.Santri :=
  {| Schemas.nis := "1001"; Schemas.nama := "Dodi"; Schemas.kelas := "2A";
     Schemas.asrama := "Al-Fatih"; Schemas.kobong := "K2";
     Schemas.gender := Schemas.Putra; Schemas.alamat := None;
     Schemas.kabupaten := None; Schemas.aktif := false |}.

(* ================================================================== *)
(** ** Basic facts *)

Lemma value_eqb_refl : forall v, value_eqb v v = true.
Proof.
  induction v using value_nested_ind; simpl;
    try reflexivity;
    try apply Z.eqb_refl; try apply String.eqb_refl.
  - destruct b; reflexivity.
  - rewrite String.eqb_refl. simpl.
    induction H as [|[f v] l Hv _ IH]; [reflexivity|].
    simpl in Hv. rewrite String.eqb_refl, Hv. simpl. exact IH.
Qed.

Lemma value_eqb_eq : forall a b, value_eqb a b = true -> a = b.
Proof.
  induction a using value_nested_ind; intros [] E; simpl in E;
    try discriminate; try reflexivity.
  - apply Bool.eqb_prop in E. congruence.
  - apply Z.eqb_eq in E. congruence.
  - apply String.eqb_eq in E. congruence.
  - apply String.eqb_eq in E. congruence.
  - apply Z.eqb_eq in E. congruence.
  - apply andb_true_iff in E. destruct E as [Ek El].
    apply String.eqb_eq in Ek. subst key. f_equal.
    revert payload El.
    induction H as [|[f v] l Hv _ IH]; intros [|[g w] m] El;
      try discriminate; [reflexivity|].
    apply andb_true_iff in El. destruct El as [El Et].
    apply andb_true_iff in El. destruct El as [Ef Ev].
    apply String.eqb_eq in Ef. simpl in Hv. apply Hv in Ev.
    subst. f_equal. apply IH. exact Et.
Qed.

Lemma value_eqb_neq : forall a b, a <> b -> value_eqb a b = false.
Proof.
  intros a b N. destruct (value_eqb a b) eqn:E; [|reflexivity].
  apply value_eqb_eq in E. contradiction.
Qed.

Lemma find_one_first :
  forall q c u,
    In u c -> matches q u = true ->
    (forall u', In u' c -> matches q u' = true -> u' = u) ->
    find_one q c = Some u.
Proof.
  intros q c u Hin Hm Hu. unfold find_one.
  destruct (List.find (matches q) c) as [u'|] eqn:F.
  - apply find_some in F. destruct F as [Hin' Hm'].
    f_equal. apply Hu; assumption.
  - apply (find_none _ _ F) in Hin. congruence.
Qed.

Lemma find_one_absent :
  forall q c, (forall u, In u c -> matches q u = false) -> find_one q c = None.
Proof.
  intros q c H. unfold find_one.
  destruct (List.find (matches q) c) as [u|] eqn:F; [|reflexivity].
  apply find_some in F. destruct F as [Hin Hm].
  rewrite (H _ Hin) in Hm. discriminate.
Qed.

Lemma matches_get :
  forall q d k c, matches q d = true -> get q k = Some c ->
                  cond_match c (get d k) = true.
Proof.
  induction q as [|[k' c'] q IH]; intros d k c Hm Hg; [discriminate|].
  simpl in Hm, Hg. apply andb_true_iff in Hm. destruct Hm as [Hc Hq].
  destruct (String.eqb k' k) eqn:E.
  - apply String.eqb_eq in E. inversion Hg. subst. exact Hc.
  - eapply IH; eassumption.
Qed.

Lemma matches_eq_field :
  forall q p k v,
    v <> VNone -> matches q p = true -> get q k = Some (Eq v) -> get p k = Some v.
Proof.
  intros q p k v Hv Hm Hg. pose proof (matches_get _ _ _ _ Hm Hg) as Hc.
  cbn [cond_match] in Hc. destruct (get p k) as [x|].
  - apply value_eqb_eq in Hc. congruence.
  - apply value_eqb_eq in Hc. congruence.
Qed.

Lemma py_add_none : forall xs, fold_left py_add xs None = None.
Proof. induction xs; simpl; auto. Qed.

Lemma py_sum_acc :
  forall xs a,
    fold_left py_add xs (Some a) =
    if forallb numeric xs then Some (a + total xs) else None.
Proof.
  induction xs as [|x xs IH]; intros a; simpl.
  - f_equal. lia.
  - destruct x; simpl; try apply py_add_none;
      rewrite IH; destruct (forallb numeric xs); try reflexivity; f_equal; lia.
Qed.

Lemma py_sum_total :
  forall xs, py_sum xs = if forallb numeric xs then Some (total xs) else None.
Proof. intros xs. unfold py_sum. rewrite py_sum_acc. reflexivity. Qed.

(** Evaluation of the monad. *)
Lemma bind_ret :
  forall (A B : Type) (a : A) (k : A -> M B) w, bind (ret a) k w = k a w.
Proof. reflexivity. Qed.

Lemma bind_raise :
  forall (A B : Type) (e : error) (k : A -> M B) w,
    bind (raise e) k w = (Err e, w).
Proof. reflexivity. Qed.

Lemma bind_lift_ok :
  forall (A B : Type) (a : A) (k : A -> M B) w, bind (lift (Ok a)) k w = k a w.
Proof. reflexivity. Qed.

Lemma bind_lift_err :
  forall (A B : Type) (e : error) (k : A -> M B) w,
    bind (lift (Err e)) k w = (Err e, w).
Proof. reflexivity. Qed.

Lemma bind_assoc :
  forall (A B C : Type) (m : M A) (f : A -> M B) (g : B -> M C) w,
    bind (bind m f) g w = bind m (fun x => bind (f x) g) w.
Proof.
  intros A B C m f g w. unfold bind. destruct (m w) as [[a|e] w1]; reflexivity.
Qed.

Lemma bind_collection :
  forall (B : Type) name (k : list dict -> M B) d,
    bind (collection name) k (Some d) = k (coll d name) (Some d).
Proof. reflexivity. Qed.

Create Rewrite HintDb handler.
#[local] Hint Rewrite bind_ret bind_raise bind_lift_ok bind_lift_err bind_collection
  : handler.

(* ================================================================== *)
(** ** The token service *)

Section TokenService.

Variable env : environ.

Lemma decode_token_inv :
  forall token now payload,
    decode_token env token now = Ok payload ->
    token = VJws payload (JWT_SECRET env)
    /\ forallb (fun kv => json_ok (snd kv)) payload = true
    /\ (forall e, get payload "exp" = Some (VNum e) -> now < e).
Proof.
  intros token now payload H. unfold decode_token in H.
  destruct token; simpl in H; try discriminate.
  destruct (String.eqb key (JWT_SECRET env)) eqn:Ek; simpl in H; [|discriminate].
  apply String.eqb_eq in Ek. subst key.
  destruct (forallb (fun kv => json_ok (snd kv)) payload0) eqn:Ej;
    simpl in H; [|discriminate].
  destruct (get payload0 "exp") as [[]|] eqn:Ee; try discriminate.
  - destruct (n <=? now) eqn:En; [discriminate|].
    destruct (audience_ok payload0); [|discriminate].
    inversion H; subst. repeat split; auto.
    intros e He. rewrite Ee in He. inversion He; subst.
    apply Z.leb_gt in En. exact En.
  - destruct (audience_ok payload0); [|discriminate].
    inversion H; subst. repeat split; auto.
    intros e He. rewrite Ee in He. discriminate.
Qed.

Lemma decode_token_audience :
  forall token now payload,
    decode_token env token now = Ok payload -> audience_ok payload = true.
Proof.
  intros token now payload H.
  destruct (decode_token_inv _ _ _ H) as [-> [Hj _]].
  unfold decode_token in H. simpl in H.
  rewrite String.eqb_refl, Hj in H. simpl in H.
  destruct (get payload "exp") as [[]|]; try discriminate;
    try (destruct (n <=? now); [discriminate|]);
    destruct (audience_ok payload); try discriminate; reflexivity.
Qed.

(** A token that decoded once decodes to the same payload at any instant
    before its own [exp]. *)
Lemma decode_token_until_expiry :
  forall token now payload now',
    decode_token env token now = Ok payload ->
    (forall e, get payload "exp" = Some (VNum e) -> now' < e) ->
    decode_token env token now' = Ok payload.
Proof.
  intros token now payload now' H Hexp.
  pose proof (decode_token_audience _ _ _ H) as Ha.
  destruct (decode_token_inv _ _ _ H) as [-> [Hj _]].
  unfold decode_token in *. simpl in *.
  rewrite String.eqb_refl in *. rewrite Hj in *. simpl in *. rewrite Ha in *.
  destruct (get payload "exp") as [[]|] eqn:Ee; try discriminate; auto.
  specialize (Hexp _ eq_refl). apply Z.leb_gt in Hexp. rewrite Hexp.
  reflexivity.
Qed.

Lemma json_ok_py_get :
  forall payload k,
    forallb (fun kv => json_ok (snd kv)) payload = true ->
    json_ok (py_get payload k) = true.
Proof.
  unfold py_get, get_default.
  induction payload as [|[k' v] p IH]; intros k H; simpl in *; [reflexivity|].
  apply andb_true_iff in H. destruct H as [Hv Hp].
  destruct (String.eqb k' k); [exact Hv|]. apply IH. exact Hp.
Qed.

(** The refresh path mints a token holding [uid] and [exp] only. *)
Lemma create_token_uid :
  forall uid delta now,
    json_ok uid = true ->
    create_token env [("uid", uid)] delta now =
    Ok (VJws [("uid", uid); ("exp", VNum (now + delta))] (JWT_SECRET env)).
Proof.
  intros uid delta now H. unfold create_token, jwt_encode. simpl.
  destruct uid; simpl in *; try discriminate; reflexivity.
Qed.

Lemma refresh_token_frame :
  forall token now w, snd (refresh_token env token now w) = w.
Proof.
  intros token now w. unfold refresh_token, bind, lift, raise, ret, collection.
  destruct (decode_token env token now) as [p|e]; [|reflexivity].
  destruct (negb (value_eqb (py_get p "type") (VStr "refresh"))); [reflexivity|].
  destruct w as [d|]; [|reflexivity].
  destruct (negb (doc_truthy (find_one [("token", Eq token)] (coll d "refreshtoken"))));
    [reflexivity|].
  destruct (create_token env [("uid", py_get p "uid")]
              (minutes (ACCESS_EXPIRES_MIN env)) now); reflexivity.
Qed.

(** What a successful refresh went through. *)
Lemma refresh_token_ok_inv :
  forall token now w a w',
    refresh_token env token now w = (Ok a, w') ->
    exists payload d,
      decode_token env token now = Ok payload
      /\ py_get payload "type" = VStr "refresh"
      /\ w = Some d /\ w' = w
      /\ doc_truthy (find_one [("token", Eq token)] (coll d "refreshtoken")) = true
      /\ a = VJws [("uid", py_get payload "uid");
                   ("exp", VNum (now + minutes (ACCESS_EXPIRES_MIN env)))]
               (JWT_SECRET env).
Proof.
  intros token now w a w' H.
  unfold refresh_token, bind, lift, raise, ret, collection in H.
  destruct (decode_token env token now) as [p|e] eqn:Hd; [|discriminate].
  destruct (value_eqb (py_get p "type") (VStr "refresh")) eqn:Ht;
    simpl in H; [|discriminate].
  destruct w as [d|]; [|discriminate].
  destruct (doc_truthy (find_one [("token", Eq token)] (coll d "refreshtoken")))
    eqn:Hf; simpl in H; [|discriminate].
  destruct (decode_token_inv _ _ _ Hd) as [_ [Hj _]].
  rewrite create_token_uid in H by (apply json_ok_py_get; exact Hj).
  inversion H; subst.
  exists p, d. repeat split; auto.
  apply value_eqb_eq. exact Ht.
Qed.

(** Whatever refresh token is presented, the access token minted on
    success holds no [username] and no [role]: its claims are [uid], copied
    from the refresh token, and [exp]. *)
Lemma refreshed_token_claims :
  forall token now w a w',
    refresh_token env token now w = (Ok a, w') ->
    exists claims,
      a = VJws claims (JWT_SECRET env)
      /\ map fst claims = ["uid"; "exp"]
      /\ get claims "username" = None
      /\ get claims "role" = None
      /\ get claims "exp" = Some (VNum (now + minutes (ACCESS_EXPIRES_MIN env))).
Proof.
  intros token now w a w' H.
  destruct (refresh_token_ok_inv _ _ _ _ _ H) as (p & d & _ & _ & _ & _ & _ & ->).
  eexists. split; [reflexivity|]. repeat split.
Qed.

(** C4.  [refresh_token] answers 400 "Invalid refresh token" (the
    [InvalidToken] kind) when the decoded claim [type] is not ["refresh"];
    it answers 401 "Refresh token not recognized" ([TokenNotRecognized])
    when the token decodes as a refresh token but no stored record carries
    that very token string; and a token that decodes only to claims
    without [type = "refresh"] never obtains an access token. *)
Theorem refresh_token_rejections :
  forall (token : value) (now : Z) (w : option database),
    (forall payload,
        decode_token env token now = Ok payload ->
        py_get payload "type" <> VStr "refresh" ->
        refresh_token env token now w
        = (Err (HTTPException 400 "Invalid refresh token"), w)
        /\ kind_of (HTTPException 400 "Invalid refresh token") = InvalidToken)
    /\ (forall payload d,
           decode_token env token now = Ok payload ->
           py_get payload "type" = VStr "refresh" ->
           w = Some d ->
           (forall doc, In doc (coll d "refreshtoken") ->
                        get doc "token" <> Some token) ->
           refresh_token env token now w
           = (Err (HTTPException 401 "Refresh token not recognized"), w)
           /\ kind_of (HTTPException 401 "Refresh token not recognized")
              = TokenNotRecognized)
    /\ ((forall payload,
            decode_token env token now = Ok payload ->
            py_get payload "type" <> VStr "refresh") ->
        forall a w', refresh_token env token now w <> (Ok a, w')).
Proof.
  intros token now w. split; [|split].
  - intros payload Hd Ht. split; [|reflexivity].
    unfold refresh_token, bind, lift, raise. rewrite Hd.
    rewrite (value_eqb_neq _ _ Ht). reflexivity.
  - intros payload d Hd Ht -> Habsent. split; [|reflexivity].
    unfold refresh_token, bind, lift, raise, collection. rewrite Hd, Ht.
    simpl.
    rewrite find_one_absent; [reflexivity|].
    intros doc Hin. specialize (Habsent doc Hin).
    unfold matches. simpl. rewrite andb_true_r.
    destruct (decode_token_inv _ _ _ Hd) as [-> _].
    destruct (get doc "token") as [x|]; [|reflexivity].
    apply value_eqb_neq. congruence.
  - intros Hacc a w' H.
    destruct (refresh_token_ok_inv _ _ _ _ _ H) as (p & d & Hd & Ht & _).
    exact (Hacc p Hd Ht).
Qed.

(** C8.  A successful refresh leaves the store as it found it, the stored
    refresh-token records included; hence the same token is accepted again
    at every later instant that precedes its own [exp]. *)
Theorem refresh_token_no_rotation :
  forall (token : value) (now : Z) (w w' : option database) (a : value),
    refresh_token env token now w = (Ok a, w') ->
    w' = w
    /\ exists payload,
        decode_token env token now = Ok payload
        /\ forall now',
            (forall e, get payload "exp" = Some (VNum e) -> now' < e) ->
            exists a', refresh_token env token now' w' = (Ok a', w').
Proof.
  intros token now w w' a H.
  destruct (refresh_token_ok_inv _ _ _ _ _ H)
    as (p & d & Hd & Ht & -> & -> & Hf & _).
  split; [reflexivity|]. exists p. split; [exact Hd|].
  intros now' Hexp.
  pose proof (decode_token_until_expiry _ _ _ _ Hd Hexp) as Hd'.
  destruct (decode_token_inv _ _ _ Hd) as [_ [Hj _]].
  eexists. unfold refresh_token, bind, lift, raise, ret, collection.
  rewrite Hd', Ht. simpl. rewrite Hf. simpl.
  rewrite create_token_uid by (apply json_ok_py_get; exact Hj).
  reflexivity.
Qed.

End TokenService.

(* ================================================================== *)
(** ** Credentials and the auth middleware *)

Lemma update_absent :
  forall (A : Type) (d : list (string * A)) k v,
    get d k = None -> update d k v = (d ++ [(k, v)])%list.
Proof.
  induction d as [|[k' v'] d IH]; intros k v H; simpl in *; [reflexivity|].
  destruct (String.eqb k' k); [discriminate|]. rewrite IH by exact H. reflexivity.
Qed.

Lemma get_update :
  forall (A : Type) (d : list (string * A)) k v k',
    get (update d k v) k' = if String.eqb k k' then Some v else get d k'.
Proof.
  induction d as [|[k0 v0] d IH]; intros k v k'; simpl.
  - reflexivity.
  - destruct (String.eqb k0 k) eqn:E0; simpl.
    + apply String.eqb_eq in E0. subst k0.
      destruct (String.eqb k k'); reflexivity.
    + rewrite IH. destruct (String.eqb k k') eqn:E1; [|reflexivity].
      apply String.eqb_eq in E1. subst k'. rewrite E0. reflexivity.
Qed.

(** A document found under an equality on a string is not the empty dict. *)
Lemma matches_str_nonempty :
  forall k s q u, matches ((k, Eq (VStr s)) :: q) u = true -> doc_truthy (Some u) = true.
Proof.
  intros k s q [|f u] H; [|reflexivity].
  unfold matches in H. simpl in H. discriminate.
Qed.

Lemma py_str_json_ok : forall v, json_ok (py_str v) = true.
Proof. intros []; try reflexivity. destruct b; reflexivity. Qed.

Lemma truthy_str :
  forall s, s <> "" -> truthy (VStr s) = true.
Proof.
  intros s H. simpl. destruct (String.eqb s "") eqn:E; [|reflexivity].
  apply String.eqb_eq in E. contradiction.
Qed.

Section Auth.

Variable env : environ.
Variable pwd_context_verify : string -> value -> option bool.

Lemma create_token_plain :
  forall payload delta now,
    forallb (fun kv => negb (is_time_claim (fst kv))) payload = true ->
    create_token env payload delta now =
    if forallb (fun kv => json_ok (snd kv)) payload
    then Ok (VJws (payload ++ [("exp", VNum (now + delta))])%list (JWT_SECRET env))
    else Err (Uncaught "TypeError").
Proof.
  intros payload delta now H. unfold create_token, jwt_encode.
  assert (Hexp : get payload "exp" = None).
  { induction payload as [|[k v] p IH]; [reflexivity|].
    simpl in *. apply andb_true_iff in H. destruct H as [Hk Hp].
    destruct (String.eqb k "exp") eqn:E.
    - apply String.eqb_eq in E. subst k. discriminate.
    - apply IH. exact Hp. }
  rewrite update_absent by exact Hexp. rewrite map_app. simpl.
  assert (Hmap :
    map (fun kv : string * value =>
           match snd kv with
           | VTime t => if is_time_claim (fst kv) then (fst kv, VNum t) else kv
           | _ => kv
           end) payload = payload).
  { clear Hexp. induction payload as [|[k v] p IH]; [reflexivity|].
    simpl in *. apply andb_true_iff in H. destruct H as [Hk Hp].
    rewrite IH by exact Hp. apply negb_true_iff in Hk.
    destruct v; try reflexivity. rewrite Hk. reflexivity. }
  rewrite Hmap. rewrite forallb_app. simpl. rewrite andb_true_r. reflexivity.
Qed.

Lemma login_query_shape :
  forall username email,
    (str_supplied username = true \/ str_supplied email = true) ->
    exists k s, login_query username email = [(k, Eq (VStr s))].
Proof.
  intros username email H. unfold login_query, str_supplied in *.
  destruct (supplied_str username) as [u|] eqn:Eu; [eauto|].
  destruct email as [e|]; [simpl; eauto|].
  simpl in H. destruct H; discriminate.
Qed.

(** [login] as decided by what the lookup finds and by what passlib says. *)
Lemma login_found :
  forall username email password now d u,
    (str_supplied username = true \/ str_supplied email = true) ->
    find_one (login_query username email) (coll d "user") = Some u ->
    login env pwd_context_verify username email password now (Some d) =
    match pwd_context_verify password (get_default u "password_hash" (VStr "")) with
    | None => (Err (Uncaught "UnknownHashError"), Some d)
    | Some false => (Err (HTTPException 401 "Invalid credentials"), Some d)
    | Some true =>
        if json_ok (py_get u "username") && json_ok (get_default u "role" (VStr "admin"))
        then (Ok (login_response env u now), Some (after_login env d u now))
        else (Err (Uncaught "TypeError"), Some d)
    end.
Proof.
  intros username email password now d u Hs Hf.
  destruct (login_query_shape _ _ Hs) as (k & s & Hq).
  assert (Hne : exists f u', u = f :: u').
  { apply find_some in Hf. destruct Hf as [_ Hm]. rewrite Hq in Hm.
    apply matches_str_nonempty in Hm. destruct u; [discriminate|eauto]. }
  destruct Hne as (f & u' & ->).
  unfold login.
  assert (Hsup : negb (str_supplied username) && negb (str_supplied email) = false).
  { destruct Hs as [-> | ->]; simpl; auto using andb_false_r. }
  rewrite Hsup. rewrite bind_collection. cbv zeta. rewrite Hf.
  unfold verify_password.
  destruct (pwd_context_verify password
              (get_default (f :: u') "password_hash" (VStr ""))) as [[|]|];
    [ rewrite bind_ret | rewrite bind_ret; reflexivity | rewrite bind_raise; reflexivity ].
  cbn [negb].
  rewrite create_token_plain by reflexivity.
  cbn [forallb snd]. rewrite py_str_json_ok, andb_true_r. cbn [andb].
  destruct (json_ok (py_get (f :: u') "username")
            && json_ok (get_default (f :: u') "role" (VStr "admin")));
    [|rewrite bind_lift_err; reflexivity].
  rewrite bind_lift_ok.
  rewrite create_token_plain by reflexivity.
  cbn [forallb snd]. rewrite py_str_json_ok. cbn [json_ok andb].
  rewrite bind_lift_ok.
  reflexivity.
Qed.

Lemma login_not_found :
  forall username email password now d,
    (str_supplied username = true \/ str_supplied email = true) ->
    find_one (login_query username email) (coll d "user") = None ->
    login env pwd_context_verify username email password now (Some d) =
    (Err (HTTPException 401 "Invalid credentials"), Some d).
Proof.
  intros username email password now d Hs Hf.
  unfold login.
  assert (Hsup : negb (str_supplied username) && negb (str_supplied email) = false).
  { destruct Hs as [-> | ->]; simpl; auto using andb_false_r. }
  rewrite Hsup. rewrite bind_collection. cbv zeta. rewrite Hf. reflexivity.
Qed.

Lemma bind_get_default_database :
  forall (B : Type) (k : unit -> M B) d,
    default_database d = true ->
    bind get_default_database k (Some d) = k tt (Some d).
Proof.
  intros B k d H. unfold bind, get_default_database. rewrite H. reflexivity.
Qed.

Lemma coll_after_login_user :
  forall d u now, coll (after_login env d u now) "user" = coll d "user".
Proof.
  intros d u now. unfold after_login, coll. simpl. rewrite get_update. reflexivity.
Qed.


(** The middleware on a token whose [uid] is the string [_id] of a stored
    user: the lookup on [_id] finds that user.  No other claim is read. *)
Lemma get_current_user_by_id :
  forall token payload now d s u,
    decode_token env token now = Ok payload ->
    py_get payload "uid" = VStr s -> s <> "" ->
    default_database d = true ->
    In u (coll d "user") -> get u "_id" = Some (VStr s) ->
    (forall u', In u' (coll d "user") -> get u' "_id" = Some (VStr s) -> u' = u) ->
    get_current_user env (Some token) now (Some d) = (Ok u, Some d).
Proof.
  intros token payload now d s u Hdec Huid Hs Hdb Hin Hid Huniq.
  unfold get_current_user. rewrite Hdec, bind_lift_ok. cbv zeta.
  rewrite Huid, (truthy_str s Hs). cbn [negb].
  rewrite bind_collection, (bind_get_default_database _ _ d Hdb), bind_collection.
  assert (Hfind : find_one [("_id", Eq (VStr s))] (coll d "user") = Some u).
  { apply find_one_first; [exact Hin| |].
    - unfold matches. simpl. rewrite Hid. simpl. rewrite String.eqb_refl. reflexivity.
    - intros u' Hin' Hm'. apply Huniq; [exact Hin'|].
      eapply matches_eq_field; [discriminate|exact Hm'|reflexivity]. }
  rewrite Hfind. destruct u as [|f u0]; [discriminate|]. reflexivity.
Qed.

(** The middleware on a token whose [uid] is nobody's [_id]: the user is
    looked up by the [username] claim. *)
Lemma get_current_user_by_username :
  forall token payload now d s n u,
    decode_token env token now = Ok payload ->
    py_get payload "uid" = VStr s -> s <> "" ->
    py_get payload "username" = VStr n -> n <> "" ->
    default_database d = true ->
    (forall u', In u' (coll d "user") -> get u' "_id" <> Some (VStr s)) ->
    In u (coll d "user") -> get u "username" = Some (VStr n) ->
    (forall u', In u' (coll d "user") -> get u' "username" = Some (VStr n) -> u' = u) ->
    get_current_user env (Some token) now (Some d) = (Ok u, Some d).
Proof.
  intros token payload now d s n u Hdec Huid Hs Husr Hn Hdb Hnoid Hin Hname Huniq.
  unfold get_current_user. rewrite Hdec, bind_lift_ok. cbv zeta.
  rewrite Huid, (truthy_str s Hs). cbn [negb].
  rewrite bind_collection, (bind_get_default_database _ _ d Hdb), bind_collection.
  assert (Hfind : find_one [("_id", Eq (VStr s))] (coll d "user") = None).
  { apply find_one_absent. intros u' Hin'.
    destruct (matches [("_id", Eq (VStr s))] u') eqn:Hm; [|reflexivity].
    exfalso. apply (Hnoid u' Hin').
    eapply matches_eq_field; [discriminate|exact Hm|reflexivity]. }
  rewrite Hfind. cbn [doc_truthy negb].
  rewrite Husr, (truthy_str n Hn).
  rewrite bind_assoc, bind_collection, bind_ret.
  assert (Hfind' : find_one [("username", Eq (VStr n))] (coll d "user") = Some u).
  { apply find_one_first; [exact Hin| |].
    - unfold matches. simpl. rewrite Hname. simpl. rewrite String.eqb_refl. reflexivity.
    - intros u' Hin' Hm'. apply Huniq; [exact Hin'|].
      eapply matches_eq_field; [discriminate|exact Hm'|reflexivity]. }
  rewrite Hfind'. destruct u as [|f u0]; [discriminate|]. reflexivity.
Qed.

Lemma decode_access_token :
  forall u now now',
    json_ok (py_get u "username") = true ->
    json_ok (get_default u "role" (VStr "admin")) = true ->
    now' < now + minutes (ACCESS_EXPIRES_MIN env) ->
    decode_token env (VJws (access_claims env u now) (JWT_SECRET env)) now'
    = Ok (access_claims env u now).
Proof.
  intros u now now' Hju Hjr Hexp.
  unfold decode_token, jwt_decode. rewrite String.eqb_refl.
  unfold access_claims. cbn [forallb snd negb]. rewrite py_str_json_ok, Hju, Hjr.
  cbn [andb json_ok negb get String.eqb Ascii.eqb Bool.eqb].
  apply Z.leb_gt in Hexp. rewrite Hexp. reflexivity.
Qed.

Lemma decode_refresh_token :
  forall u now now',
    now' < now + days (REFRESH_EXPIRES_DAYS env) ->
    decode_token env (VJws (refresh_claims env u now) (JWT_SECRET env)) now'
    = Ok (refresh_claims env u now).
Proof.
  intros u now now' Hexp.
  unfold decode_token, jwt_decode. rewrite String.eqb_refl.
  unfold refresh_claims. cbn [forallb snd negb]. rewrite py_str_json_ok.
  cbn [andb json_ok negb get String.eqb Ascii.eqb Bool.eqb].
  apply Z.leb_gt in Hexp. rewrite Hexp. reflexivity.
Qed.

(** What a login that returned went through. *)
Lemma login_ok_inv :
  forall username email password now d r w',
    login env pwd_context_verify username email password now (Some d) = (Ok r, w') ->
    exists u,
      find_one (login_query username email) (coll d "user") = Some u
      /\ pwd_context_verify password (get_default u "password_hash" (VStr ""))
         = Some true
      /\ json_ok (py_get u "username") = true
      /\ json_ok (get_default u "role" (VStr "admin")) = true
      /\ r = login_response env u now
      /\ w' = Some (after_login env d u now).
Proof.
  intros username email password now d r w' H.
  assert (Hs : str_supplied username = true \/ str_supplied email = true).
  { unfold login in H.
    destruct (str_supplied username); [auto|].
    destruct (str_supplied email); [auto|]. discriminate. }
  destruct (find_one (login_query username email) (coll d "user")) as [u|] eqn:Hf.
  - rewrite (login_found _ _ _ _ _ u Hs Hf) in H.
    destruct (pwd_context_verify password (get_default u "password_hash" (VStr "")))
      as [[|]|] eqn:Hp; try discriminate.
    destruct (json_ok (py_get u "username")) eqn:Hju; [|discriminate].
    destruct (json_ok (get_default u "role" (VStr "admin"))) eqn:Hjr; [|discriminate].
    simpl in H. inversion H. exists u. repeat split; auto.
  - rewrite (login_not_found _ _ _ _ _ Hs Hf) in H. discriminate.
Qed.

(** The refresh token of a login, presented as a bearer credential, is
    resolved to the user whenever the user is stored under a string [_id]:
    nothing in the middleware tells it from an access token. *)
Lemma refresh_token_authenticates :
  forall username email password now now' d r w' u s,
    login env pwd_context_verify username email password now (Some d) = (Ok r, w') ->
    find_one (login_query username email) (coll d "user") = Some u ->
    default_database d = true ->
    get u "_id" = Some (VStr s) -> s <> "" ->
    (forall u', In u' (coll d "user") -> get u' "_id" = Some (VStr s) -> u' = u) ->
    now' < now + days (REFRESH_EXPIRES_DAYS env) ->
    py_get (refresh_claims env u now) "type" = VStr "refresh"
    /\ decode_token env (refresh_token_ r) now' = Ok (refresh_claims env u now)
    /\ get_current_user env (Some (refresh_token_ r)) now' w' = (Ok u, w').
Proof.
  intros username email password now now' d r w' u s Hlogin Hf Hdb Hid Hs Huniq Hexp.
  destruct (login_ok_inv _ _ _ _ _ _ _ Hlogin) as (u0 & Hf0 & _ & _ & _ & -> & ->).
  rewrite Hf in Hf0. inversion Hf0; subst u0. clear Hf0.
  pose proof (find_some _ _ Hf) as [Hin _].
  split; [reflexivity|]. split; [apply decode_refresh_token; exact Hexp|].
  cbn [refresh_token_ login_response].
  apply (get_current_user_by_id _ (refresh_claims env u now) _ _ s).
  - apply decode_refresh_token. exact Hexp.
  - unfold refresh_claims, py_get, get_default. simpl.
    unfold py_get, get_default. rewrite Hid. reflexivity.
  - exact Hs.
  - exact Hdb.
  - rewrite coll_after_login_user. exact Hin.
  - exact Hid.
  - rewrite coll_after_login_user. exact Huniq.
Qed.

(** The round trip where it holds: in a store that obeys the user data
    model, behind a client whose connection string names a default
    database, the access token that login issues for a user [u] with a
    valid stored id is resolved by [get_current_user], at any instant
    before the token expires, to [u] itself. *)
Theorem access_token_round_trip :
  forall (username email : option string) (password : string) (now now' : Z)
         (d : database) (u : dict) (r : LoginResponse) (w' : option database),
    users_wf (coll d "user") ->
    default_database d = true ->
    valid_stored_id u ->
    find_one (login_query username email) (coll d "user") = Some u ->
    login env pwd_context_verify username email password now (Some d) = (Ok r, w') ->
    now' < now + minutes (ACCESS_EXPIRES_MIN env) ->
    get_current_user env (Some (access_token r)) now' w' = (Ok u, w').
Proof.
  intros username email password now now' d u r w'
         (Hid & Hname & Hschema & Hclash) Hdb Hvalid Hf Hlogin Hexp.
  destruct (login_ok_inv _ _ _ _ _ _ _ Hlogin) as (u0 & Hf0 & _ & Hju & Hjr & -> & ->).
  rewrite Hf in Hf0. inversion Hf0; subst u0. clear Hf0.
  pose proof (find_some _ _ Hf) as [Hin _].
  pose proof (decode_access_token u now now' Hju Hjr Hexp) as Hdec.
  cbn [access_token login_response].
  destruct Hvalid as [(s & Hs_id & Hs_ne) | (h & Hh_id & Hh_ne)].
  - (* found by [_id] *)
    apply (get_current_user_by_id _ _ _ _ s u Hdec); auto.
    + unfold access_claims, py_get, get_default. simpl.
      unfold py_get, get_default. rewrite Hs_id. reflexivity.
    + rewrite coll_after_login_user. exact Hin.
    + rewrite coll_after_login_user. intros u' Hin' E.
      symmetry. apply (Hid u u' Hin Hin'). congruence.
  - (* found by [username] *)
    destruct (Hschema u Hin) as (n & Hn & Hlen).
    assert (Hnn : n <> "") by (intros ->; simpl in Hlen; lia).
    apply (get_current_user_by_username _ _ _ _ h n u Hdec); auto.
    + unfold access_claims, py_get, get_default. simpl.
      unfold py_get, get_default. rewrite Hh_id. reflexivity.
    + unfold access_claims, py_get, get_default. simpl.
      unfold py_get, get_default. rewrite Hn. reflexivity.
    + rewrite coll_after_login_user. intros u' Hin'.
      apply (Hclash u u' h Hin Hin' Hh_id).
    + rewrite coll_after_login_user. exact Hin.
    + rewrite coll_after_login_user. intros u' Hin' E.
      symmetry. apply (Hname u u' Hin Hin'). congruence.
Qed.

End Auth.

(* ================================================================== *)
(** ** The summary engine *)

Lemma month_name_ok : forall m, month_name m = Ok (month_string m).
Proof.
  intros m. unfold month_name, month_string.
  destruct ((1 <=? m) && (m <=? 12)) eqn:E; [|reflexivity].
  apply andb_true_iff in E. destruct E as [E1 E2].
  apply Z.leb_le in E1. apply Z.leb_le in E2.
  assert (H : m = 1 \/ m = 2 \/ m = 3 \/ m = 4 \/ m = 5 \/ m = 6 \/ m = 7
              \/ m = 8 \/ m = 9 \/ m = 10 \/ m = 11 \/ m = 12) by lia.
  repeat (destruct H as [-> | H]; [reflexivity|]). subst m. reflexivity.
Qed.

Lemma matches_eq_str :
  forall k s x, matches [(k, Eq (VStr s))] x = value_eqb (py_get x k) (VStr s).
Proof.
  intros k s x. unfold matches, py_get, get_default. simpl.
  rewrite andb_true_r. destruct (get x k); reflexivity.
Qed.


Lemma bind_sum_of :
  forall (B : Type) xs (k : Z -> M B) w,
    bind (sum_of xs) k w =
    match py_sum xs with
    | Some s => k s w
    | None => (Err (Uncaught "TypeError"), w)
    end.
Proof. intros B xs k w. unfold sum_of. destruct (py_sum xs); reflexivity. Qed.

(** The payment filter is always built, and building it writes nothing. *)
Lemma summary_sy_filt_defined :
  forall tahun bulan asrama kelas gender d,
    exists q, summary_sy_filt tahun bulan asrama kelas gender (Some d) = (Ok q, Some d).
Proof.
  intros tahun bulan asrama kelas gender d. unfold summary_sy_filt.
  destruct (supplied_int bulan) as [b|];
    [rewrite bind_assoc, month_name_ok|];
    autorewrite with handler;
    destruct (str_supplied gender || str_supplied asrama || str_supplied kelas);
    autorewrite with handler; eexists; reflexivity.
Qed.

Lemma forallb_numeric_find :
  forall (f : dict -> value) q c,
    forallb (fun x => numeric (f x)) c = true ->
    forallb numeric (map f (find q c)) = true.
Proof.
  intros f q c H. unfold find. rewrite forallb_forall in *.
  intros v Hv. apply in_map_iff in Hv. destruct Hv as (x & <- & Hx).
  apply filter_In in Hx. apply H. tauto.
Qed.

Lemma forallb_numeric_filter :
  forall (f : dict -> value) p c,
    forallb numeric (map f c) = true ->
    forallb numeric (map f (filter p c)) = true.
Proof.
  intros f p c H. rewrite forallb_forall in *.
  intros v Hv. apply in_map_iff in Hv. destruct Hv as (x & <- & Hx).
  apply filter_In in Hx. apply H. apply in_map. tauto.
Qed.

(** The figures of a report that [summary] returned. *)
Lemma summary_ok_inv :
  forall tahun bulan asrama kelas gender w w' r,
    summary tahun bulan asrama kelas gender w = (Ok r, w') ->
    exists d sy_filt,
      w = Some d /\ w' = w
      /\ summary_sy_filt tahun bulan asrama kelas gender w = (Ok sy_filt, w)
      /\ total_santri_aktif r
         = count_documents [("aktif", Eq (VBool true))] (coll d "santri")
      /\ py_sum (map nominal (find [("jenis", Eq (VStr "pemasukan"))] (coll d "transaksi")))
         = Some (total_pemasukan r)
      /\ py_sum (map nominal (find [("jenis", Eq (VStr "pengeluaran"))] (coll d "transaksi")))
         = Some (total_pengeluaran r)
      /\ pembayaran_syariah_lunas r
         = Z.of_nat (List.length (filter (status_is "Lunas")
                                    (find sy_filt (coll d "pembayaransyariah"))))
      /\ pembayaran_syariah_belum r
         = Z.of_nat (List.length (filter (fun p => negb (status_is "Lunas" p))
                                    (find sy_filt (coll d "pembayaransyariah"))))
      /\ py_sum (map nominal (filter (fun p => negb (status_is "Lunas" p))
                                (find sy_filt (coll d "pembayaransyariah"))))
         = Some (jumlah_tunggakan r)
      /\ py_sum (map total_bersih
                   (filter (status_is "Dibayar")
                      (find (summary_gaji_filt tahun bulan) (coll d "gajipegawai"))))
         = Some (total_gaji_bulan_ini r)
      /\ py_sum (map total_bersih
                   (filter (fun g => negb (status_is "Dibayar" g))
                      (find (summary_gaji_filt tahun bulan) (coll d "gajipegawai"))))
         = Some (total_gaji_tertunda r).
Proof.
  intros tahun bulan asrama kelas gender w w' r H.
  destruct w as [d|]; [|discriminate].
  destruct (summary_sy_filt_defined tahun bulan asrama kelas gender d) as [q Hq].
  unfold summary in H. rewrite bind_collection in H. cbv zeta in H.
  unfold bind at 1 in H. rewrite Hq in H.
  rewrite bind_collection, bind_sum_of in H.
  destruct (py_sum (map nominal (find [("jenis", Eq (VStr "pemasukan"))]
                                   (coll d "transaksi")))) as [s1|] eqn:E1;
    [|discriminate].
  rewrite bind_collection, bind_sum_of in H.
  destruct (py_sum (map nominal (find [("jenis", Eq (VStr "pengeluaran"))]
                                   (coll d "transaksi")))) as [s2|] eqn:E2;
    [|discriminate].
  rewrite bind_collection in H. cbv zeta in H.
  rewrite bind_collection in H. cbv zeta in H.
  rewrite bind_sum_of in H.
  destruct (py_sum (map total_bersih
                      (filter (status_is "Dibayar")
                         (find (summary_gaji_filt tahun bulan) (coll d "gajipegawai")))))
    as [s3|] eqn:E3; [|discriminate].
  rewrite bind_sum_of in H.
  destruct (py_sum (map total_bersih
                      (filter (fun g => negb (status_is "Dibayar" g))
                         (find (summary_gaji_filt tahun bulan) (coll d "gajipegawai")))))
    as [s4|] eqn:E4; [|discriminate].
  rewrite bind_sum_of in H.
  destruct (py_sum (map nominal (filter (fun p => negb (status_is "Lunas" p))
                                   (find q (coll d "pembayaransyariah")))))
    as [s5|] eqn:E5; [|discriminate].
  unfold ret in H. inversion H; subst r. clear H.
  exists d, q. cbn. repeat split; auto.
Qed.

(** With numbers in every amount, [summary] returns a report. *)
Lemma summary_defined :
  forall tahun bulan asrama kelas gender d,
    amounts_numeric d = true ->
    exists r, summary tahun bulan asrama kelas gender (Some d) = (Ok r, Some d).
Proof.
  intros tahun bulan asrama kelas gender d Hn.
  unfold amounts_numeric in Hn.
  apply andb_true_iff in Hn. destruct Hn as [Hn Hg].
  apply andb_true_iff in Hn. destruct Hn as [Ht Hp].
  destruct (summary_sy_filt_defined tahun bulan asrama kelas gender d) as [q Hq].
  unfold summary. rewrite bind_collection. cbv zeta.
  unfold bind at 1. rewrite Hq.
  rewrite bind_collection, bind_sum_of, py_sum_total.
  rewrite (forallb_numeric_find nominal _ _ Ht).
  rewrite bind_collection, bind_sum_of, py_sum_total.
  rewrite (forallb_numeric_find nominal _ _ Ht).
  rewrite bind_collection. cbv zeta. rewrite bind_collection. cbv zeta.
  rewrite bind_sum_of, py_sum_total.
  rewrite (forallb_numeric_filter total_bersih _ _
             (forallb_numeric_find total_bersih _ _ Hg)).
  rewrite bind_sum_of, py_sum_total.
  rewrite (forallb_numeric_filter total_bersih _ _
             (forallb_numeric_find total_bersih _ _ Hg)).
  rewrite bind_sum_of, py_sum_total.
  rewrite (forallb_numeric_filter nominal _ _
             (forallb_numeric_find nominal _ _ Hp)).
  eexists. reflexivity.
Qed.





(** The payment filter once a gender, dormitory or class is supplied: the
    payments of the santri found, or, when none is found, the payments whose
    [santri_id] is the literal ["__none__"]. *)
Lemma sy_filt_restricts_to_ids :
  forall tahun bulan asrama kelas gender d q w',
    str_supplied gender || str_supplied asrama || str_supplied kelas = true ->
    summary_sy_filt tahun bulan asrama kelas gender (Some d) = (Ok q, w') ->
    let ids := santri_ids (summary_s_filt asrama kelas gender) (coll d "santri") in
    forall p,
      matches q p = true ->
      (ids <> [] -> In (py_get p "santri_id") ids)
      /\ (ids = [] -> py_get p "santri_id" = VStr "__none__").
Proof.
  intros tahun bulan asrama kelas gender d q w' Hs H ids p Hm.
  assert (Hq : get q "santri_id"
               = Some (match ids with [] => Eq (VStr "__none__") | _ :: _ => In_ ids end)).
  { unfold summary_sy_filt in H. rewrite Hs in H.
    destruct (supplied_int bulan) as [b|].
    - rewrite bind_assoc, month_name_ok, bind_lift_ok, bind_ret, bind_collection in H.
      inversion H. rewrite get_update. reflexivity.
    - rewrite bind_ret, bind_collection in H.
      inversion H. rewrite get_update. reflexivity. }
  pose proof (matches_get _ _ _ _ Hm Hq) as Hc.
  unfold py_get, get_default. split.
  - intros Hne. destruct ids as [|i ids']; [contradiction|].
    cbn [cond_match] in Hc.
    destruct (get p "santri_id") as [x|];
      apply existsb_exists in Hc; destruct Hc as (y & Hy & E);
      apply value_eqb_eq in E; subst; exact Hy.
  - intros He. rewrite He in Hc. cbn [cond_match] in Hc.
    destruct (get p "santri_id") as [x|]; [|discriminate].
    apply value_eqb_eq in Hc. exact Hc.
Qed.





(* ================================================================== *)
(** ** The properties on the sample stores *)

Ltac in_cases H :=
  simpl in H; repeat (destruct H as [<- | H]); try contradiction.

Lemma db_users_wf : users_wf (coll db_users "user").
Proof.
  unfold users_wf. repeat split.
  - intros u u' Hu Hu' E. in_cases Hu; in_cases Hu';
      try reflexivity; vm_compute in E; discriminate.
  - intros u u' Hu Hu' E. in_cases Hu; in_cases Hu';
      try reflexivity; vm_compute in E; discriminate.
  - intros u Hu. in_cases Hu; eexists; (split; [reflexivity | simpl; lia]).
  - intros u u' h Hu Hu' E C. in_cases Hu; in_cases Hu';
      vm_compute in E; vm_compute in C; congruence.
Qed.

Lemma refresh_token_rejections_witness :
  refresh_token env0 sample_access_token 1001 (Some db_after_login)
  = (Err (HTTPException 400 "Invalid refresh token"), Some db_after_login)
  /\ refresh_token env0 forged_refresh_token 1001 (Some db_after_login)
     = (Err (HTTPException 401 "Refresh token not recognized"), Some db_after_login)
  /\ refresh_token env0 sample_access_token 1001 (Some db_after_login)
     <> (Ok sample_access_token, Some db_after_login).
Proof.
  destruct (refresh_token_rejections env0 sample_access_token 1001
              (Some db_after_login)) as (Htype & _ & Hnever).
  destruct (refresh_token_rejections env0 forged_refresh_token 1001
              (Some db_after_login)) as (_ & Hunknown & _).
  split; [|split].
  - refine (proj1 (Htype (access_claims env0 user_str 1000) eq_refl _)).
    discriminate.
  - refine (proj1 (Hunknown
                     [ ("uid", VStr "u1"); ("type", VStr "refresh");
                       ("exp", VNum 999999) ]
                     db_after_login eq_refl eq_refl eq_refl _)).
    intros doc Hin C. in_cases Hin. vm_compute in C. discriminate.
  - apply Hnever. intros payload Hd. vm_compute in Hd. inversion Hd. discriminate.
Defined.

Lemma refresh_token_no_rotation_witness :
  refresh_token env0 sample_refresh_token 1001 (Some db_after_login)
  = (Ok (VJws [("uid", VStr "u1"); ("exp", VNum 2801)] (JWT_SECRET env0)),
     Some db_after_login)
  /\ exists a', refresh_token env0 sample_refresh_token 600000 (Some db_after_login)
                = (Ok a', Some db_after_login).
Proof.
  assert (H : refresh_token env0 sample_refresh_token 1001 (Some db_after_login)
              = (Ok (VJws [("uid", VStr "u1"); ("exp", VNum 2801)] (JWT_SECRET env0)),
                 Some db_after_login)) by reflexivity.
  split; [exact H|].
  destruct (refresh_token_no_rotation env0 _ _ _ _ _ H) as (_ & p & Hd & Hlater).
  apply Hlater. intros e He.
  vm_compute in Hd. inversion Hd; subst p. vm_compute in He. inversion He. lia.
Defined.


Lemma access_token_round_trip_witness :
  exists r w',
    login env0 sample_verify None (Some "kasir@example.org") "rahasia" 1000
      (Some db_users) = (Ok r, w')
    /\ get_current_user env0 (Some (access_token r)) 1001 w' = (Ok user_oid, w').
Proof.
  eexists. eexists. split.
  - vm_compute. reflexivity.
  - apply (access_token_round_trip env0 sample_verify None (Some "kasir@example.org")
             "rahasia" 1000 1001 db_users user_oid).
    + exact db_users_wf.
    + reflexivity.
    + right. eexists. split; [reflexivity|discriminate].
    + reflexivity.
    + vm_compute. reflexivity.
    + vm_compute. reflexivity.
Defined.




(** C1, where the code departs from it.  The refresh token that login
    issues to a user stored under a string [_id] carries [type = "refresh"],
    and [get_current_user] nevertheless resolves it to that user: the
    middleware never reads the [type] claim.  (The other half of C1, that
    [refresh_token] turns away every token without [type = "refresh"],
    holds; it is proved with C4.) *)
Theorem refresh_token_passes_get_current_user :
  exists r w',
    login env0 sample_verify (Some "admin") None "bendahara" 1000 (Some db_users)
    = (Ok r, w')
    /\ (exists payload,
           decode_token env0 (refresh_token_ r) 1001 = Ok payload
           /\ py_get payload "type" = VStr "refresh")
    /\ get_current_user env0 (Some (refresh_token_ r)) 1001 w' = (Ok user_str, w').
Proof.
  eexists. eexists. split; [vm_compute; reflexivity|]. split.
  - eexists. split; vm_compute; reflexivity.
  - vm_compute. reflexivity.
Qed.

(** C3, where the code departs from it.  The access token minted by
    [refresh_token] carries [uid] and [exp] only, neither [username] nor
    [role]; for a user stored under an ObjectId the middleware then finds
    nobody, whereas the access token minted by login for the same user
    resolves to it. *)
Theorem refreshed_access_token_lacks_claims :
  exists r w' a,
    login env0 sample_verify (Some "kasir") None "rahasia" 1000 (Some db_users)
    = (Ok r, w')
    /\ decode_token env0 (access_token r) 1002
       = Ok [ ("uid", VStr "65f000000000000000000001"); ("username", VStr "kasir");
              ("role", VStr "staff"); ("exp", VNum (1000 + 60 * 30)) ]
    /\ refresh_token env0 (refresh_token_ r) 1001 w' = (Ok a, w')
    /\ decode_token env0 a 1002
       = Ok [ ("uid", VStr "65f000000000000000000001");
              ("exp", VNum (1001 + 60 * 30)) ]
    /\ get_current_user env0 (Some a) 1002 w'
       = (Err (HTTPException 401 "User not found"), w')
    /\ get_current_user env0 (Some (access_token r)) 1002 w' = (Ok user_oid, w').
Proof.
  eexists. eexists. eexists. split; [vm_compute; reflexivity|].
  split; [vm_compute; reflexivity|].
  split; [vm_compute; reflexivity|].
  repeat split; vm_compute; reflexivity.
Qed.

(** C7, where the code departs from it.  [user_str] is stored in
    [db_no_default] with a valid id, login issues it an access token and
    the token decodes to its claims; [get_current_user] nevertheless
    resolves the token to nobody.  The placeholder lookup of line 74 asks
    the client for its default database, and raises [ConfigurationError]
    when the connection string names none, before any user is looked up:
    behind such a client no token ever authenticates. *)
Theorem access_token_needs_default_database :
  exists r w',
    In user_str (coll db_no_default "user")
    /\ valid_stored_id user_str
    /\ login env0 sample_verify (Some "admin") None "bendahara" 1000
         (Some db_no_default) = (Ok r, w')
    /\ decode_token env0 (access_token r) 1001 = Ok (access_claims env0 user_str 1000)
    /\ get_current_user env0 (Some (access_token r)) 1001 w'
       = (Err (Uncaught "ConfigurationError"), w')
    /\ get_current_user env0 (Some (access_token r)) 1001 w' <> (Ok user_str, w').
Proof.
  eexists. eexists. split; [left; reflexivity|]. split.
  { left. exists "u1". split; [reflexivity|discriminate]. }
  split; [vm_compute; reflexivity|].
  split; [vm_compute; reflexivity|].
  split; [vm_compute; reflexivity|].
  vm_compute. discriminate.
Qed.

(** C6, where the code departs from it.  No santri of [db_sentinel] is a
    "Putri", so the id set resolved for [gender = "Putri"] is empty; yet the
    payment whose [santri_id] is the literal ["__none__"] matches the
    resulting filter and is counted in the report. *)
Theorem sentinel_matches_a_payment :
  santri_ids (summary_s_filt None None (Some "Putri")) (coll db_sentinel "santri") = []
  /\ summary_sy_filt None None None None (Some "Putri") (Some db_sentinel)
     = (Ok [("santri_id", Eq (VStr "__none__"))], Some db_sentinel)
  /\ find [("santri_id", Eq (VStr "__none__"))] (coll db_sentinel "pembayaransyariah")
     = [bayar_yatim]
  /\ exists r,
      summary None None None None (Some "Putri") (Some db_sentinel)
      = (Ok r, Some db_sentinel)
      /\ pembayaran_syariah_belum r = 1
      /\ jumlah_tunggakan r = 300000.
Proof.
  repeat split; try (vm_compute; reflexivity).
  eexists. split; [vm_compute; reflexivity|]. split; reflexivity.
Qed.

(* ================================================================== *)
(** ** Further properties of the token service and the middleware *)

Lemma get_jwt_claims :
  forall (d : dict) k,
    get (map (fun kv : string * value =>
                match snd kv with
                | VTime t => if is_time_claim (fst kv) then (fst kv, VNum t) else kv
                | _ => kv
                end) d) k
    = match get d k with
      | Some (VTime t) => if is_time_claim k then Some (VNum t) else Some (VTime t)
      | o => o
      end.
Proof.
  induction d as [|[k' v] d IH]; intros k; simpl; [reflexivity|].
  destruct (String.eqb k' k) eqn:E.
  - apply String.eqb_eq in E. subst k'.
    destruct v; simpl; try rewrite String.eqb_refl; try reflexivity.
    destruct (is_time_claim k); simpl; rewrite String.eqb_refl; reflexivity.
  - destruct v; simpl; try rewrite E; try apply IH.
    destruct (is_time_claim k'); simpl; rewrite E; apply IH.
Qed.

(** What [create_token] hands out when it returns. *)
Lemma create_token_ok_inv :
  forall env payload delta now token,
    create_token env payload delta now = Ok token ->
    exists claims,
      token = VJws claims (JWT_SECRET env)
      /\ forallb (fun kv => json_ok (snd kv)) claims = true
      /\ get claims "exp" = Some (VNum (now + delta))
      /\ forall k, is_time_claim k = false -> get claims k = get payload k.
Proof.
  intros env payload delta now token H.
  unfold create_token, jwt_encode in H.
  match type of H with
  | (if forallb _ ?p then _ else _) = _ =>
      destruct (forallb (fun kv => json_ok (snd kv)) p) eqn:Hj; [|discriminate];
      exists p
  end.
  inversion H. split; [reflexivity|]. split; [exact Hj|]. split.
  - rewrite get_jwt_claims, get_update. reflexivity.
  - intros k Hk. rewrite get_jwt_claims, get_update.
    destruct (String.eqb "exp" k) eqn:E.
    + apply String.eqb_eq in E. subst k. discriminate.
    + rewrite Hk. destruct (get payload k) as [[]|]; reflexivity.
Qed.

Lemma plain_claims_audience :
  forall env payload delta now claims,
    plain_claims payload = true ->
    create_token env payload delta now = Ok (VJws claims (JWT_SECRET env)) ->
    audience_ok claims = true.
Proof.
  intros env payload delta now claims Hp H.
  destruct (create_token_ok_inv _ _ _ _ _ H) as (claims' & E & _ & _ & Hkeep).
  inversion E; subst claims'. clear E.
  unfold audience_ok, py_get, get_default. rewrite (Hkeep "aud" eq_refl).
  unfold plain_claims, registered_claims in Hp. cbn [forallb] in Hp.
  destruct (get payload "iat"); [discriminate|].
  destruct (get payload "nbf"); [discriminate|].
  destruct (get payload "aud"); [discriminate|]. reflexivity.
Qed.

(** X1.  A token that [create_token] issued for claims among which there
    is no registered one decodes, at every instant before [now +
    expires_delta], to claims that hold [exp = now + expires_delta] and,
    under every key that is not a time claim, exactly what the payload
    held. *)
Theorem token_round_trip :
  forall (env : environ) (payload : dict) (delta now now' : Z) (token : value),
    plain_claims payload = true ->
    create_token env payload delta now = Ok token ->
    now' < now + delta ->
    exists claims,
      decode_token env token now' = Ok claims
      /\ get claims "exp" = Some (VNum (now + delta))
      /\ forall k, is_time_claim k = false -> get claims k = get payload k.
Proof.
  intros env payload delta now now' token Hp H Hlt.
  destruct (create_token_ok_inv _ _ _ _ _ H) as (claims & -> & Hj & Hexp & Hkeep).
  exists claims. split; [|split; assumption].
  unfold decode_token, jwt_decode.
  rewrite String.eqb_refl, Hj, Hexp. simpl.
  apply Z.leb_gt in Hlt. rewrite Hlt.
  rewrite (plain_claims_audience _ _ _ _ _ Hp H). reflexivity.
Qed.

(** X2.  From the instant [now + expires_delta] on, a token that
    [create_token] issued for claims among which there is no registered one
    is answered 401 "Token expired"; under any other secret it is answered
    401 "Invalid token", expired or not. *)
Theorem token_expired_or_foreign :
  forall (env env' : environ) (payload : dict) (delta now now' : Z) (token : value),
    plain_claims payload = true ->
    create_token env payload delta now = Ok token ->
    (now + delta <= now' ->
     decode_token env token now' = Err (HTTPException 401 "Token expired"))
    /\ (JWT_SECRET env' <> JWT_SECRET env ->
        decode_token env' token now' = Err (HTTPException 401 "Invalid token")).
Proof.
  intros env env' payload delta now now' token Hp H.
  destruct (create_token_ok_inv _ _ _ _ _ H) as (claims & -> & Hj & Hexp & _).
  split.
  - intros Hle. unfold decode_token, jwt_decode.
    rewrite String.eqb_refl, Hj, Hexp. simpl.
    apply Z.leb_le in Hle. rewrite Hle. reflexivity.
  - intros Hne. unfold decode_token, jwt_decode.
    destruct (String.eqb (JWT_SECRET env) (JWT_SECRET env')) eqn:E.
    + apply String.eqb_eq in E. congruence.
    + reflexivity.
Qed.

Lemma matches_eq_truthy :
  forall k v u,
    truthy v = true -> matches [(k, Eq v)] u = true -> get u k = Some v.
Proof.
  intros k v u Hv Hm.
  eapply matches_eq_field;
    [|exact Hm|simpl; rewrite String.eqb_refl; reflexivity].
  intros ->. discriminate.
Qed.

(** What a request that the middleware let through went through. *)
Lemma get_current_user_ok_inv :
  forall (env : environ) (credentials : option value) (now : Z)
         (w w' : option database) (u : dict),
    get_current_user env credentials now w = (Ok u, w') ->
    w' = w
    /\ exists token payload d,
        credentials = Some token
        /\ decode_token env token now = Ok payload
        /\ w = Some d
        /\ truthy (py_get payload "uid") = true
        /\ In u (coll d "user")
        /\ (get u "_id" = Some (py_get payload "uid")
            \/ ((forall u', In u' (coll d "user") ->
                            get u' "_id" <> Some (py_get payload "uid"))
                /\ truthy (py_get payload "username") = true
                /\ get u "username" = Some (py_get payload "username"))).
Proof.
  intros env credentials now w w' u H.
  unfold get_current_user in H.
  destruct credentials as [token|]; [|discriminate].
  destruct (decode_token env token now) as [payload|e] eqn:Hd; [|discriminate].
  rewrite bind_lift_ok in H. cbv zeta in H.
  destruct (truthy (py_get payload "uid")) eqn:Huid; [|discriminate].
  cbn [negb] in H.
  destruct w as [d|]; [|discriminate].
  rewrite bind_collection in H.
  destruct (default_database d) eqn:Hdb.
  2:{ unfold bind, get_default_database in H. rewrite Hdb in H. discriminate. }
  rewrite (bind_get_default_database _ _ d Hdb), bind_collection in H.
  destruct (find_one [("_id", Eq (py_get payload "uid"))] (coll d "user"))
    as [u1|] eqn:F1.
  - pose proof (find_some _ _ F1) as [Hin1 Hm1].
    pose proof (matches_eq_truthy _ _ _ Huid Hm1) as Hid.
    destruct u1 as [|f u1]; [discriminate|].
    cbn [doc_truthy negb] in H. rewrite bind_ret in H.
    inversion H; subst. split; [reflexivity|].
    exists token, payload, d. repeat split; auto.
  - cbn [doc_truthy negb] in H.
    assert (Hnone : forall u', In u' (coll d "user") ->
                               get u' "_id" <> Some (py_get payload "uid")).
    { intros u' Hin' E.
      assert (Hm : matches [("_id", Eq (py_get payload "uid"))] u' = true).
      { unfold matches. simpl. rewrite E, value_eqb_refl. reflexivity. }
      unfold find_one in F1. rewrite (find_none _ _ F1 _ Hin') in Hm. discriminate. }
    destruct (truthy (py_get payload "username")) eqn:Husr.
    + rewrite bind_assoc, bind_collection, bind_ret in H.
      destruct (find_one [("username", Eq (py_get payload "username"))] (coll d "user"))
        as [[|f u2]|] eqn:F2; try discriminate.
      pose proof (find_some _ _ F2) as [Hin2 Hm2].
      pose proof (matches_eq_truthy _ _ _ Husr Hm2) as Hname.
      inversion H; subst. split; [reflexivity|].
      exists token, payload, d. repeat split; auto.
    + rewrite bind_ret in H. discriminate.
Qed.

(** X3.  For a token whose [uid] claim is a string and whose [username]
    claim is a string or absent: whatever [get_current_user] returns is a
    stored user that the token designates, its [_id] being the token's
    [uid], or nobody having that [_id] and its [username] being the token's
    non-empty [username] claim.  The store is left as it was. *)
Theorem get_current_user_sound :
  forall (env : environ) (token : value) (payload : dict) (s : string) (now : Z)
         (w w' : option database) (u : dict),
    decode_token env token now = Ok payload ->
    py_get payload "uid" = VStr s ->
    (py_get payload "username" = VNone
     \/ exists n, py_get payload "username" = VStr n) ->
    get_current_user env (Some token) now w = (Ok u, w') ->
    w' = w
    /\ exists d,
        w = Some d
        /\ s <> ""
        /\ In u (coll d "user")
        /\ (get u "_id" = Some (VStr s)
            \/ ((forall u', In u' (coll d "user") -> get u' "_id" <> Some (VStr s))
                /\ exists n,
                    py_get payload "username" = VStr n /\ n <> ""
                    /\ get u "username" = Some (VStr n))).
Proof.
  intros env token payload s now w w' u Hdec Huid Husr H.
  destruct (get_current_user_ok_inv _ _ _ _ _ _ H)
    as (-> & token' & payload' & d & Ht & Hdec' & -> & Htr & Hin & Hcase).
  inversion Ht; subst token'. clear Ht.
  rewrite Hdec in Hdec'. inversion Hdec'; subst payload'. clear Hdec'.
  rewrite Huid in *.
  split; [reflexivity|]. exists d. split; [reflexivity|]. split.
  { intros ->. discriminate. }
  split; [exact Hin|].
  destruct Hcase as [Hid|(Hnone & Htn & Hname)]; [left; exact Hid|].
  right. split; [exact Hnone|].
  destruct Husr as [E|(n & E)]; rewrite E in Htn, Hname; [discriminate|].
  exists n. split; [exact E|]. split; [|exact Hname].
  intros ->. discriminate.
Qed.

(** X4.  The middleware turns a request away before it reads the store
    when there is no credential (401 "Not authenticated"), when the token
    does not decode (the 401 of [decode_token]) and when the claims hold no
    [uid] (401 "Invalid token payload"): the answer is the same with and
    without a database.  A token that passes these tests is answered 500
    "Database not available" without a database, and an uncaught
    [ConfigurationError] when the client has no default database, whoever
    is stored. *)
Theorem get_current_user_error_ladder :
  forall (env : environ) (token : value) (now : Z) (w : option database),
    get_current_user env None now w
    = (Err (HTTPException 401 "Not authenticated"), w)
    /\ (forall e, decode_token env token now = Err e ->
                  get_current_user env (Some token) now w = (Err e, w)
                  /\ (e = HTTPException 401 "Token expired"
                      \/ e = HTTPException 401 "Invalid token"))
    /\ (forall payload,
           decode_token env token now = Ok payload ->
           truthy (py_get payload "uid") = false ->
           get_current_user env (Some token) now w
           = (Err (HTTPException 401 "Invalid token payload"), w))
    /\ (forall payload,
           decode_token env token now = Ok payload ->
           truthy (py_get payload "uid") = true ->
           (w = None ->
            get_current_user env (Some token) now w
            = (Err (HTTPException 500 "Database not available"), w))
           /\ (forall d, w = Some d -> default_database d = false ->
                         get_current_user env (Some token) now w
                         = (Err (Uncaught "ConfigurationError"), w))).
Proof.
  intros env token now w. split; [reflexivity|]. split; [|split].
  - intros e Hd. split.
    + unfold get_current_user. rewrite Hd. reflexivity.
    + unfold decode_token in Hd.
      destruct (jwt_decode token (JWT_SECRET env) now); inversion Hd; auto.
  - intros payload Hd Hu. unfold get_current_user.
    rewrite Hd, bind_lift_ok. cbv zeta. rewrite Hu. reflexivity.
  - intros payload Hd Hu. split.
    + intros ->. unfold get_current_user.
      rewrite Hd, bind_lift_ok. cbv zeta. rewrite Hu. reflexivity.
    + intros d -> Hdb. unfold get_current_user.
      rewrite Hd, bind_lift_ok. cbv zeta. rewrite Hu. cbn [negb].
      rewrite bind_collection. unfold bind, get_default_database.
      rewrite Hdb. reflexivity.
Qed.

(** X5.  The fallback of the middleware: a token whose [uid] claim is a
    string that is nobody's [_id] still authenticates as the one stored
    user who bears the string that is the token's [username] claim,
    whatever its other claims; and it authenticates as nobody (401 "User
    not found") when nobody bears that username. *)
Theorem get_current_user_username_fallback :
  forall (env : environ) (token : value) (payload : dict) (now : Z)
         (d : database) (s n : string),
    decode_token env token now = Ok payload ->
    py_get payload "uid" = VStr s -> s <> "" ->
    (forall u', In u' (coll d "user") -> get u' "_id" <> Some (VStr s)) ->
    py_get payload "username" = VStr n -> n <> "" ->
    default_database d = true ->
    (forall u,
        In u (coll d "user") -> get u "username" = Some (VStr n) ->
        (forall u', In u' (coll d "user") -> get u' "username" = Some (VStr n) ->
                    u' = u) ->
        get_current_user env (Some token) now (Some d) = (Ok u, Some d))
    /\ ((forall u', In u' (coll d "user") -> get u' "username" <> Some (VStr n)) ->
        get_current_user env (Some token) now (Some d)
        = (Err (HTTPException 401 "User not found"), Some d)).
Proof.
  intros env token payload now d s n Hdec Hs Hs0 Hnoid Husr Hn Hdb.
  assert (Huid : truthy (py_get payload "uid") = true)
    by (rewrite Hs; apply truthy_str; exact Hs0).
  rewrite <- Hs in Hnoid.
  assert (Hfind : find_one [("_id", Eq (py_get payload "uid"))] (coll d "user") = None).
  { apply find_one_absent. intros u' Hin'.
    destruct (matches [("_id", Eq (py_get payload "uid"))] u') eqn:Hm; [|reflexivity].
    exfalso. apply (Hnoid u' Hin'). apply matches_eq_truthy; assumption. }
  split.
  2:{ intros Hnobody. unfold get_current_user. rewrite Hdec, bind_lift_ok. cbv zeta.
      rewrite Huid. cbn [negb].
      rewrite bind_collection, (bind_get_default_database _ _ d Hdb), bind_collection.
      rewrite Hfind. cbn [doc_truthy negb].
      rewrite Husr, (truthy_str n Hn).
      rewrite bind_assoc, bind_collection, bind_ret.
      assert (Hf : find_one [("username", Eq (VStr n))] (coll d "user") = None).
      { apply find_one_absent. intros u' Hin'.
        destruct (matches [("username", Eq (VStr n))] u') eqn:Hm; [|reflexivity].
        exfalso. apply (Hnobody u' Hin').
        eapply matches_eq_field; [discriminate|exact Hm|reflexivity]. }
      rewrite Hf. reflexivity. }
  intros u Hin Hname Huniq.
  unfold get_current_user. rewrite Hdec, bind_lift_ok. cbv zeta.
  rewrite Huid. cbn [negb].
  rewrite bind_collection, (bind_get_default_database _ _ d Hdb), bind_collection.
  rewrite Hfind. cbn [doc_truthy negb].
  rewrite Husr, (truthy_str n Hn).
  rewrite bind_assoc, bind_collection, bind_ret.
  assert (Hfind' : find_one [("username", Eq (VStr n))] (coll d "user") = Some u).
  { apply find_one_first; [exact Hin| |].
    - unfold matches. simpl. rewrite Hname. simpl. rewrite String.eqb_refl. reflexivity.
    - intros u' Hin' Hm'. apply Huniq; [exact Hin'|].
      eapply matches_eq_field; [discriminate|exact Hm'|reflexivity]. }
  rewrite Hfind'. destruct u as [|f u0]; [discriminate|]. reflexivity.
Qed.

(* ================================================================== *)
(** ** Further properties of login, refresh and [/me] *)

Lemma coll_after_login :
  forall env d u now name,
    coll (after_login env d u now) name
    = if String.eqb "refreshtoken" name
      then (coll d "refreshtoken"
              ++ [refresh_record env u now
                    ++ [("_id", VOid (fresh_oid d "refreshtoken"))]])%list
      else coll d name.
Proof.
  intros env d u now name. unfold coll, after_login. cbn [collections].
  rewrite get_update. destruct (String.eqb "refreshtoken" name); reflexivity.
Qed.

Lemma find_one_app :
  forall q c c' y, find_one q c = Some y -> find_one q (c ++ c')%list = Some y.
Proof.
  unfold find_one. induction c as [|x c IH]; intros c' y H; simpl in *; [discriminate|].
  destruct (matches q x); [exact H|]. apply IH. exact H.
Qed.

Lemma find_one_exists :
  forall q c x,
    In x c -> matches q x = true ->
    exists y, find_one q c = Some y /\ matches q y = true.
Proof.
  intros q c x Hin Hm. unfold find_one.
  destruct (List.find (matches q) c) as [y|] eqn:F.
  - exists y. split; [reflexivity|]. apply (find_some _ _ F).
  - rewrite (find_none _ _ F _ Hin) in Hm. discriminate.
Qed.

(** A stored record found under a token is not the empty dict. *)
Lemma token_doc_truthy :
  forall p k c y,
    find_one [("token", Eq (VJws p k))] c = Some y -> doc_truthy (Some y) = true.
Proof.
  intros p k c [|f y] F; [|reflexivity].
  apply find_some in F. destruct F as [_ Hm]. discriminate.
Qed.

(** [login] never changes the store when it raises. *)
Lemma login_err_frame :
  forall env pwd username email password now w e w',
    login env pwd username email password now w = (Err e, w') -> w' = w.
Proof.
  intros env pwd username email password now w e w' H.
  destruct (str_supplied username || str_supplied email) eqn:Hs.
  - apply orb_true_iff in Hs.
    destruct w as [d|].
    + destruct (find_one (login_query username email) (coll d "user")) as [u|] eqn:F.
      * rewrite (login_found env pwd _ _ _ _ _ u Hs F) in H.
        destruct (pwd password (get_default u "password_hash" (VStr ""))) as [[|]|];
          try (inversion H; reflexivity).
        destruct (json_ok (py_get u "username")
                  && json_ok (get_default u "role" (VStr "admin")));
          inversion H; reflexivity.
      * rewrite (login_not_found env pwd _ _ _ _ _ Hs F) in H.
        inversion H; reflexivity.
    + unfold login in H.
      destruct (negb (str_supplied username) && negb (str_supplied email));
        inversion H; reflexivity.
  - apply orb_false_iff in Hs. destruct Hs as [Hu He].
    unfold login in H. rewrite Hu, He in H. inversion H; reflexivity.
Qed.

(** X6.  Login touches the store in one way: it appends one record to
    [refreshtoken], holding the refresh token it returns, the printed [_id]
    of a stored user and the expiry; every other collection is as before.
    A login that raises changes nothing. *)
Theorem login_store_effect :
  forall (env : environ) (pwd : string -> value -> option bool)
         (username email : option string) (password : string) (now : Z)
         (w w' : option database) (res : result LoginResponse),
    login env pwd username email password now w = (res, w') ->
    match res with
    | Err _ => w' = w
    | Ok r =>
        exists d d' record u,
          w = Some d /\ w' = Some d'
          /\ coll d' "refreshtoken" = (coll d "refreshtoken" ++ [record])%list
          /\ get record "token" = Some (refresh_token_ r)
          /\ In u (coll d "user")
          /\ get record "user_id" = Some (py_str (py_get u "_id"))
          /\ get record "expires_at"
             = Some (VTime (now + days (REFRESH_EXPIRES_DAYS env)))
          /\ (forall name, name <> "refreshtoken" -> coll d' name = coll d name)
          /\ default_database d' = default_database d
    end.
Proof.
  intros env pwd username email password now w w' res H.
  destruct res as [r|e]; [|exact (login_err_frame _ _ _ _ _ _ _ _ _ H)].
  destruct w as [d|].
  2:{ unfold login in H.
      destruct (negb (str_supplied username) && negb (str_supplied email));
        discriminate. }
  destruct (login_ok_inv _ _ _ _ _ _ _ _ _ H) as (u & Hf & _ & _ & _ & -> & ->).
  exists d, (after_login env d u now),
    (refresh_record env u now ++ [("_id", VOid (fresh_oid d "refreshtoken"))])%list, u.
  split; [reflexivity|]. split; [reflexivity|]. split.
  { rewrite coll_after_login. reflexivity. }
  split; [reflexivity|]. split; [apply (find_some _ _ Hf)|].
  split; [reflexivity|]. split; [reflexivity|]. split; [|reflexivity].
  intros name Hn. rewrite coll_after_login.
  destruct (String.eqb "refreshtoken" name) eqn:E; [|reflexivity].
  apply String.eqb_eq in E. congruence.
Qed.

(** X7.  The refresh token that login returns is accepted by
    [refresh_token] from that moment until its own expiry, and buys an
    access token bound to the same user id, good for the configured number
    of minutes. *)
Theorem login_then_refresh :
  forall (env : environ) (pwd : string -> value -> option bool)
         (username email : option string) (password : string) (now now' : Z)
         (d : database) (r : LoginResponse) (w' : option database),
    login env pwd username email password now (Some d) = (Ok r, w') ->
    now' < now + days (REFRESH_EXPIRES_DAYS env) ->
    exists u,
      find_one (login_query username email) (coll d "user") = Some u
      /\ refresh_token env (refresh_token_ r) now' w'
         = (Ok (VJws [ ("uid", py_str (py_get u "_id"));
                       ("exp", VNum (now' + minutes (ACCESS_EXPIRES_MIN env))) ]
                  (JWT_SECRET env)), w').
Proof.
  intros env pwd username email password now now' d r w' H Hexp.
  destruct (login_ok_inv _ _ _ _ _ _ _ _ _ H) as (u & Hf & _ & _ & _ & -> & ->).
  exists u. split; [exact Hf|].
  cbn [refresh_token_ login_response].
  unfold refresh_token.
  rewrite (decode_refresh_token env u now now' Hexp), bind_lift_ok.
  assert (Ht : py_get (refresh_claims env u now) "type" = VStr "refresh") by reflexivity.
  rewrite Ht, value_eqb_refl. cbn [negb].
  rewrite bind_collection, coll_after_login.
  change (String.eqb "refreshtoken" "refreshtoken") with true. cbv iota.
  destruct (find_one_exists
              [("token", Eq (VJws (refresh_claims env u now) (JWT_SECRET env)))]
              (coll d "refreshtoken"
                 ++ [refresh_record env u now
                       ++ [("_id", VOid (fresh_oid d "refreshtoken"))]])%list
              (refresh_record env u now ++ [("_id", VOid (fresh_oid d "refreshtoken"))])%list)
    as (y & Hy & _).
  { apply in_or_app. right. left. reflexivity. }
  { unfold matches. simpl. rewrite String.eqb_refl.
    assert (E := value_eqb_refl (VJws (refresh_claims env u now) "")).
    simpl in E. rewrite E. reflexivity. }
  rewrite Hy, (token_doc_truthy _ _ _ _ Hy). cbn [negb]. cbv zeta.
  assert (Hu : py_get (refresh_claims env u now) "uid" = py_str (py_get u "_id"))
    by reflexivity.
  rewrite Hu, create_token_uid by apply py_str_json_ok.
  reflexivity.
Qed.

(** X8.  Without a username and without an email (absent or empty) login
    answers 400 "Provide username or email" before it looks at anything,
    database or no database; and when a username is supplied the email plays
    no part: the answer is the same whatever email comes with it. *)
Theorem login_identifier :
  forall (env : environ) (pwd : string -> value -> option bool)
         (username email email' : option string) (password : string) (now : Z)
         (w : option database),
    (str_supplied username = false -> str_supplied email = false ->
     login env pwd username email password now w
     = (Err (HTTPException 400 "Provide username or email"), w))
    /\ (str_supplied username = true ->
        login env pwd username email password now w
        = login env pwd username email' password now w).
Proof.
  intros env pwd username email email' password now w. split.
  - intros Hu He. unfold login. rewrite Hu, He. reflexivity.
  - intros Hu. unfold login, login_query. rewrite Hu. simpl.
    unfold str_supplied in Hu.
    destruct (supplied_str username); [reflexivity|discriminate].
Qed.

(** X9.  Login revokes nothing: a refresh token that [refresh_token]
    accepts keeps being accepted, with the same answer, after any later
    successful login. *)
Theorem refresh_survives_login :
  forall (env : environ) (pwd : string -> value -> option bool)
         (token : value) (now : Z) (d : database) (a : value)
         (username email : option string) (password : string) (now1 : Z)
         (r : LoginResponse) (w1 : option database),
    refresh_token env token now (Some d) = (Ok a, Some d) ->
    login env pwd username email password now1 (Some d) = (Ok r, w1) ->
    refresh_token env token now w1 = (Ok a, w1).
Proof.
  intros env pwd token now d a username email password now1 r w1 Hr Hl.
  destruct (login_ok_inv _ _ _ _ _ _ _ _ _ Hl) as (u & _ & _ & _ & _ & _ & ->).
  destruct (refresh_token_ok_inv _ _ _ _ _ _ Hr)
    as (p & d0 & Hd & Ht & Hd0 & _ & Hf & ->).
  inversion Hd0; subst d0. clear Hd0.
  destruct (decode_token_inv _ _ _ _ Hd) as [Htok [Hj _]].
  unfold refresh_token. rewrite Hd, bind_lift_ok, Ht, value_eqb_refl.
  cbn [negb]. rewrite bind_collection, coll_after_login.
  change (String.eqb "refreshtoken" "refreshtoken") with true. cbv iota.
  destruct (find_one [("token", Eq token)] (coll d "refreshtoken")) as [y|] eqn:F;
    [|discriminate].
  rewrite (find_one_app _ _ _ _ F), Hf. cbn [negb]. cbv zeta.
  rewrite create_token_uid by (apply json_ok_py_get; exact Hj).
  reflexivity.
Qed.

(** The access token of a login resolves to the user it was issued for, in
    any store with the same users. *)
Lemma access_claims_resolve :
  forall env u now now' d,
    users_wf (coll d "user") ->
    default_database d = true ->
    valid_stored_id u ->
    In u (coll d "user") ->
    json_ok (py_get u "username") = true ->
    json_ok (get_default u "role" (VStr "admin")) = true ->
    now' < now + minutes (ACCESS_EXPIRES_MIN env) ->
    get_current_user env (Some (VJws (access_claims env u now) (JWT_SECRET env)))
      now' (Some d) = (Ok u, Some d).
Proof.
  intros env u now now' d (Hid & Hname & Hschema & Hclash) Hdb Hvalid Hin Hju Hjr Hexp.
  pose proof (decode_access_token env u now now' Hju Hjr Hexp) as Hdec.
  destruct Hvalid as [(s & Hs_id & Hs_ne) | (h & Hh_id & Hh_ne)].
  - apply (get_current_user_by_id env _ _ _ _ s u Hdec); auto.
    + unfold access_claims, py_get, get_default. simpl.
      unfold py_get, get_default. rewrite Hs_id. reflexivity.
    + intros u' Hin' E. symmetry. apply (Hid u u' Hin Hin'). congruence.
  - destruct (Hschema u Hin) as (n & Hn & Hlen).
    assert (Hnn : n <> "") by (intros ->; simpl in Hlen; lia).
    apply (get_current_user_by_username env _ _ _ _ h n u Hdec); auto.
    + unfold access_claims, py_get, get_default. simpl.
      unfold py_get, get_default. rewrite Hh_id. reflexivity.
    + unfold access_claims, py_get, get_default. simpl.
      unfold py_get, get_default. rewrite Hn. reflexivity.
    + intros u' Hin'. apply (Hclash u u' h Hin Hin' Hh_id).
    + intros u' Hin' E. symmetry. apply (Hname u u' Hin Hin'). congruence.
Qed.

(** X10.  [GET /me] with the access token of a login answers, while the
    token lasts, the very user summary that the login returned: username,
    email and role, and nothing else of the stored user. *)
Theorem me_after_login :
  forall (env : environ) (pwd : string -> value -> option bool)
         (username email : option string) (password : string) (now now' : Z)
         (d : database) (u : dict) (r : LoginResponse) (w' : option database),
    users_wf (coll d "user") ->
    default_database d = true ->
    valid_stored_id u ->
    find_one (login_query username email) (coll d "user") = Some u ->
    login env pwd username email password now (Some d) = (Ok r, w') ->
    now' < now + minutes (ACCESS_EXPIRES_MIN env) ->
    me_route env (Some (access_token r)) now' w' = (Ok (user_summary r), w')
    /\ map fst (user_summary r) = ["username"; "email"; "role"].
Proof.
  intros env pwd username email password now now' d u r w' Hwf Hdb Hvalid Hf Hl Hexp.
  destruct (login_ok_inv _ _ _ _ _ _ _ _ _ Hl) as (u0 & Hf0 & _ & Hju & Hjr & -> & ->).
  rewrite Hf in Hf0. inversion Hf0; subst u0. clear Hf0.
  pose proof (find_some _ _ Hf) as [Hin _].
  split; [|reflexivity].
  unfold me_route, bind. cbn [access_token login_response].
  rewrite (access_claims_resolve env u now now' (after_login env d u now)); auto.
  - rewrite coll_after_login. exact Hwf.
  - rewrite coll_after_login. exact Hin.
Qed.

(* ================================================================== *)
(** ** Further properties of the summary *)

Lemma matches_cons :
  forall k c q p, matches ((k, c) :: q) p = cond_match c (get p k) && matches q p.
Proof. reflexivity. Qed.

Lemma cond_eq_spec :
  forall v f, v <> VNone -> (cond_match (Eq v) f = true <-> f = Some v).
Proof.
  intros v f Hv. destruct f as [x|]; cbn [cond_match].
  - split; intros H.
    + apply value_eqb_eq in H. congruence.
    + inversion H. apply value_eqb_refl.
  - split; intros H; [|discriminate].
    apply (value_eqb_eq VNone v) in H. congruence.
Qed.

Lemma cond_in_spec :
  forall vs f,
    ~ In VNone vs ->
    (cond_match (In_ vs) f = true <-> exists x, f = Some x /\ In x vs).
Proof.
  intros vs f Hn. destruct f as [x|]; cbn [cond_match].
  - split.
    + intros H. apply existsb_exists in H. destruct H as (y & Hy & E).
      apply value_eqb_eq in E. subst y. eauto.
    + intros (y & E & Hy). inversion E; subst y.
      apply existsb_exists. exists x. split; [exact Hy|apply value_eqb_refl].
  - split.
    + intros H. apply existsb_exists in H. destruct H as (y & Hy & E).
      apply value_eqb_eq in E. subst y. contradiction.
    + intros (y & E & _). discriminate.
Qed.

Lemma py_str_not_none : forall v, py_str v <> VNone.
Proof. intros []; try discriminate. destruct b; discriminate. Qed.

Lemma py_get_project_id : forall s, py_get (project_id s) "_id" = py_get s "_id".
Proof.
  intros s. unfold project_id, py_get, get_default.
  destruct (get s "_id"); reflexivity.
Qed.

Lemma printed_ids_spec :
  forall q c x,
    In x (map (fun s => py_str (py_get s "_id")) (map project_id (find q c)))
    <-> exists s, In s c /\ matches q s = true /\ x = py_str (py_get s "_id").
Proof.
  intros q c x. rewrite map_map. rewrite in_map_iff. split.
  - intros (s & E & Hs). apply filter_In in Hs. destruct Hs as [Hin Hm].
    exists s. rewrite py_get_project_id in E. auto.
  - intros (s & Hin & Hm & ->). exists s. split.
    + rewrite py_get_project_id. reflexivity.
    + apply filter_In. auto.
Qed.

Lemma printed_ids_no_none :
  forall q c, ~ In VNone (map (fun s => py_str (py_get s "_id")) (map project_id (find q c))).
Proof.
  intros q c H. apply printed_ids_spec in H. destruct H as (s & _ & _ & E).
  symmetry in E. exact (py_str_not_none _ E).
Qed.


(* ================================================================== *)
(** ** Properties of the list routes *)

Lemma page_of_ok :
  forall found page n,
    0 <= (page - 1) * n ->
    page_of found page n
    = Ok (cursor_limit n (skipn (Z.to_nat ((page - 1) * n)) found)).
Proof.
  intros found page n H. unfold page_of, cursor_skip.
  destruct ((page - 1) * n <? 0) eqn:E; [|reflexivity].
  apply Z.ltb_lt in E. lia.
Qed.

Lemma list_syariah_eval :
  forall santri_id tahun bulan status page page_size d,
    list_syariah santri_id tahun bulan status page page_size (Some d)
    = match page_of (find (list_syariah_filt santri_id tahun bulan status)
                       (coll d "pembayaransyariah")) page page_size with
      | Ok items =>
          (Ok {| pg_items := items; pg_page := page; pg_page_size := page_size;
                 pg_total := count_documents
                               (list_syariah_filt santri_id tahun bulan status)
                               (coll d "pembayaransyariah") |},
           Some d)
      | Err e => (Err e, Some d)
      end.
Proof.
  intros. unfold list_syariah. cbv zeta. rewrite !bind_collection.
  destruct (page_of _ page page_size); reflexivity.
Qed.

Lemma firstn_plus :
  forall (A : Type) (a b : nat) (l : list A),
    firstn (a + b) l = (firstn a l ++ firstn b (skipn a l))%list.
Proof.
  induction a as [|a IH]; intros b l; [reflexivity|].
  destruct l as [|x l]; simpl.
  - rewrite firstn_nil. reflexivity.
  - rewrite IH. reflexivity.
Qed.

(** Consecutive windows of width [n] tile a list. *)
Lemma windows_tile :
  forall (A : Type) (l : list A) (n k : nat),
    List.concat (map (fun i => firstn n (skipn ((i - 1) * n) l)) (seq 1 k))
    = firstn (k * n) l.
Proof.
  intros A l n k. induction k as [|k IH]; [reflexivity|].
  rewrite seq_S, map_app, concat_app, IH. simpl.
  rewrite app_nil_r, Nat.sub_0_r.
  replace (n + k * n)%nat with (k * n + n)%nat by lia.
  symmetry. apply firstn_plus.
Qed.

Lemma in_cursor_limit :
  forall l s (c : list dict) x, In x (cursor_limit l (skipn s c)) -> In x c.
Proof.
  intros l s c x H. unfold cursor_limit in H.
  destruct (l =? 0).
  - rewrite <- (firstn_skipn s c). apply in_or_app. right. exact H.
  - rewrite <- (firstn_skipn s c). apply in_or_app. right.
    rewrite <- (firstn_skipn (Z.to_nat (Z.abs l)) (skipn s c)).
    apply in_or_app. left. exact H.
Qed.

(** X13.  [list_syariah] pages the matching payments in their stored
    order: with a positive [page_size], page [p >= 1] holds the matches
    number [(p-1) * page_size] onwards, at most [page_size] of them, and
    [total] is the number of all matches on every page; the pages 1..k laid
    end to end are the first [k * page_size] matches, none lost and none
    repeated. *)
Theorem list_syariah_pages :
  forall (santri_id : option string) (tahun : option Z) (bulan status : option string)
         (page_size : Z) (d : database),
    0 < page_size ->
    let found := find (list_syariah_filt santri_id tahun bulan status)
                   (coll d "pembayaransyariah") in
    (forall page,
        1 <= page ->
        exists pg,
          list_syariah santri_id tahun bulan status page page_size (Some d)
          = (Ok pg, Some d)
          /\ pg_total pg = Z.of_nat (List.length found)
          /\ pg_items pg
             = firstn (Z.to_nat page_size)
                 (skipn (Z.to_nat ((page - 1) * page_size)) found)
          /\ (List.length (pg_items pg) <= Z.to_nat page_size)%nat)
    /\ (forall k,
           List.concat (map (fun i =>
                          answered_items
                            (list_syariah santri_id tahun bulan status
                               (Z.of_nat i) page_size (Some d)))
                     (seq 1 k))
           = firstn (k * Z.to_nat page_size) found).
Proof.
  intros santri_id tahun bulan status page_size d Hn found.
  assert (Hpage : forall page,
             1 <= page ->
             list_syariah santri_id tahun bulan status page page_size (Some d)
             = (Ok {| pg_items := firstn (Z.to_nat page_size)
                                    (skipn (Z.to_nat ((page - 1) * page_size)) found);
                      pg_page := page; pg_page_size := page_size;
                      pg_total := Z.of_nat (List.length found) |}, Some d)).
  { intros page Hp. rewrite list_syariah_eval.
    rewrite page_of_ok by nia. unfold cursor_limit.
    destruct (page_size =? 0) eqn:E; [apply Z.eqb_eq in E; lia|].
    rewrite Z.abs_eq by lia. reflexivity. }
  split.
  - intros page Hp. eexists. split; [apply Hpage; exact Hp|].
    cbn [pg_total pg_items]. repeat split. apply firstn_le_length.
  - intros k. rewrite <- windows_tile. f_equal.
    apply map_ext_in. intros i Hi. apply in_seq in Hi.
    rewrite Hpage by lia. unfold answered_items. cbn [fst pg_items].
    do 2 f_equal. nia.
Qed.

(** X14.  The edges of the paging: with [page_size = 0] every page, even
    page 0 or a negative one, holds all the matches; with a positive
    [page_size], a page number below 1 raises an uncaught [ValueError]
    instead of a page; and a page past the end is empty while [total] still
    counts all the matches. *)
Theorem list_syariah_page_edges :
  forall (santri_id : option string) (tahun : option Z) (bulan status : option string)
         (page page_size : Z) (d : database),
    let found := find (list_syariah_filt santri_id tahun bulan status)
                   (coll d "pembayaransyariah") in
    (page_size = 0 ->
     exists pg,
       list_syariah santri_id tahun bulan status page page_size (Some d)
       = (Ok pg, Some d)
       /\ pg_items pg = found)
    /\ (page <= 0 -> 0 < page_size ->
        list_syariah santri_id tahun bulan status page page_size (Some d)
        = (Err (Uncaught "ValueError"), Some d))
    /\ (0 < page_size -> Z.of_nat (List.length found) <= (page - 1) * page_size ->
        exists pg,
          list_syariah santri_id tahun bulan status page page_size (Some d)
          = (Ok pg, Some d)
          /\ pg_items pg = []
          /\ pg_total pg = Z.of_nat (List.length found)).
Proof.
  intros santri_id tahun bulan status page page_size d found.
  split; [|split].
  - intros ->. rewrite list_syariah_eval, page_of_ok by lia.
    eexists. split; [reflexivity|]. cbn [pg_items].
    replace ((page - 1) * 0) with 0 by lia. reflexivity.
  - intros Hp Hn. rewrite list_syariah_eval. unfold page_of, cursor_skip.
    assert (E : ((page - 1) * page_size <? 0) = true) by (apply Z.ltb_lt; nia).
    rewrite E. reflexivity.
  - intros Hn Hlen. rewrite list_syariah_eval, page_of_ok by lia.
    eexists. split; [reflexivity|]. cbn [pg_items pg_total]. split; [|reflexivity].
    rewrite skipn_all2 by (fold found; lia).
    unfold cursor_limit. destruct (page_size =? 0); [reflexivity|apply firstn_nil].
Qed.

Lemma find_ext :
  forall q1 q2 c, (forall p, matches q1 p = matches q2 p) -> find q1 c = find q2 c.
Proof. intros q1 q2 c H. unfold find. apply filter_ext. exact H. Qed.

(** [filt] of [list_gaji] once a department or a role is supplied. *)
Lemma list_gaji_filt_joined :
  forall pegawai_id department role tahun bulan status d,
    str_supplied department || str_supplied role = true ->
    exists base,
      list_gaji_filt pegawai_id department role tahun bulan status (Some d)
      = (Ok (update base "pegawai_id"
               (match pegawai_ids (list_gaji_p_filt department role) (coll d "pegawai")
                with
                | [] => Eq (VStr "__none__")
                | _ :: _ =>
                    In_ (pegawai_ids (list_gaji_p_filt department role)
                           (coll d "pegawai"))
                end)), Some d)
      /\ forall c p,
          matches (update base "pegawai_id" c) p
          = cond_match c (get p "pegawai_id")
            && cond_match (match supplied_int tahun with
                           | Some t => Eq (VNum t) | None => In_ [py_get p "tahun"]
                           end) (Some (py_get p "tahun"))
            && cond_match (match supplied_int bulan with
                           | Some b => Eq (VNum b) | None => In_ [py_get p "bulan"]
                           end) (Some (py_get p "bulan"))
            && cond_match (match supplied_str status with
                           | Some s => Eq (VStr s) | None => In_ [py_get p "status"]
                           end) (Some (py_get p "status")).
Proof.
  intros pegawai_id department role tahun bulan status d Hs.
  unfold list_gaji_filt. rewrite Hs. rewrite bind_collection.
  eexists. split; [reflexivity|].
  intros c p.
  assert (Hget : forall k v, cond_match (Eq v) (get p k)
                             = cond_match (Eq v) (Some (py_get p k))).
  { intros k v. unfold py_get, get_default. destruct (get p k); reflexivity. }
  assert (Hself : forall v, cond_match (In_ [v]) (Some v) = true).
  { intros v. simpl. rewrite value_eqb_refl. reflexivity. }
  destruct (supplied_str pegawai_id), (supplied_int tahun), (supplied_int bulan),
    (supplied_str status);
    cbn [update String.eqb Ascii.eqb Bool.eqb];
    rewrite ?matches_cons, ?Hself;
    rewrite ?(Hget "tahun"), ?(Hget "bulan"), ?(Hget "status");
    unfold matches; cbn [forallb];
    repeat match goal with
           | |- context [cond_match ?c ?f] =>
               let b := fresh "b" in
               generalize (cond_match c f); intro b
           end;
    repeat match goal with b : bool |- _ => destruct b end; reflexivity.
Qed.

Lemma list_gaji_eval :
  forall pegawai_id department role tahun bulan status page page_size d q,
    list_gaji_filt pegawai_id department role tahun bulan status (Some d)
    = (Ok q, Some d) ->
    list_gaji pegawai_id department role tahun bulan status page page_size (Some d)
    = match page_of (find q (coll d "gajipegawai")) page page_size with
      | Ok items =>
          (Ok {| pg_items := items; pg_page := page; pg_page_size := page_size;
                 pg_total := count_documents q (coll d "gajipegawai") |}, Some d)
      | Err e => (Err e, Some d)
      end.
Proof.
  intros pegawai_id department role tahun bulan status page page_size d q H.
  unfold list_gaji. unfold bind at 1. rewrite H. cbv zeta.
  rewrite !bind_collection.
  destruct (page_of _ page page_size); reflexivity.
Qed.

(** X15.  In [list_gaji], a supplied department or role takes the place of
    the [pegawai_id] filter: the answer is the same whatever [pegawai_id]
    the caller sends along. *)
Theorem list_gaji_department_overrides_pegawai_id :
  forall (pegawai_id pegawai_id' department role : option string)
         (tahun bulan : option Z) (status : option string) (page page_size : Z)
         (w : option database),
    str_supplied department || str_supplied role = true ->
    list_gaji pegawai_id department role tahun bulan status page page_size w
    = list_gaji pegawai_id' department role tahun bulan status page page_size w.
Proof.
  intros pegawai_id pegawai_id' department role tahun bulan status page page_size
         w Hs.
  destruct w as [d|].
  - destruct (list_gaji_filt_joined pegawai_id department role tahun bulan status d Hs)
      as (b1 & E1 & M1).
    destruct (list_gaji_filt_joined pegawai_id' department role tahun bulan status d Hs)
      as (b2 & E2 & M2).
    rewrite (list_gaji_eval _ _ _ _ _ _ _ _ _ _ E1),
            (list_gaji_eval _ _ _ _ _ _ _ _ _ _ E2).
    unfold count_documents.
    rewrite (find_ext _ _ (coll d "gajipegawai")
               (fun p => eq_trans (M1 _ p) (eq_sym (M2 _ p)))).
    reflexivity.
  - unfold list_gaji, list_gaji_filt. rewrite Hs. reflexivity.
Qed.

Lemma list_pegawai_all :
  forall regex department role d,
    answered_items (list_pegawai regex None department role None 1 0 (Some d))
    = find (list_gaji_p_filt department role) (coll d "pegawai").
Proof.
  intros regex department role d.
  unfold list_pegawai, answered_items, bind, collection, lift, regex_or, ret,
    cursor_skip, cursor_limit.
  cbn [supplied_str fst pg_items]. simpl skipn.
  unfold find. apply filter_ext. intros p. reflexivity.
Qed.

(** X16.  Under a department or role filter, every payroll record that
    [list_gaji] returns has as its [pegawai_id] the printed [_id] of a
    pegawai that [list_pegawai] lists for the same department and role; the
    exception is the case where no pegawai matches at all, in which the
    records returned are those whose [pegawai_id] is the literal
    "__none__". *)
Theorem list_gaji_joins_pegawai :
  forall (regex : string -> option (value -> bool))
         (pegawai_id department role : option string) (tahun bulan : option Z)
         (status : option string) (page page_size : Z) (d : database) (pg : Page)
         (w' : option database),
    str_supplied department || str_supplied role = true ->
    list_gaji pegawai_id department role tahun bulan status page page_size (Some d)
    = (Ok pg, w') ->
    let staff :=
      answered_items (list_pegawai regex None department role None 1 0 (Some d)) in
    forall item,
      In item (pg_items pg) ->
      (exists p, In p staff
                 /\ get item "pegawai_id" = Some (py_str (py_get p "_id")))
      \/ (staff = [] /\ get item "pegawai_id" = Some (VStr "__none__")).
Proof.
  intros regex pegawai_id department role tahun bulan status page page_size d pg w'
         Hs H staff item Hin.
  subst staff. rewrite list_pegawai_all.
  destruct (list_gaji_filt_joined pegawai_id department role tahun bulan status d Hs)
    as (base & E & _).
  rewrite (list_gaji_eval _ _ _ _ _ _ _ _ _ _ E) in H.
  unfold page_of in H.
  destruct (cursor_skip ((page - 1) * page_size)) as [s|e]; [|discriminate].
  inversion H; subst pg. clear H. cbn [pg_items] in Hin.
  apply in_cursor_limit in Hin. apply filter_In in Hin. destruct Hin as [_ Hm].
  pose proof (matches_get _ _ "pegawai_id" _ Hm (eq_trans (get_update _ _ _ _ _)
                                                   ltac:(reflexivity))) as Hc.
  unfold pegawai_ids in Hc.
  destruct (map (fun p => py_str (py_get p "_id"))
              (map project_id (find (list_gaji_p_filt department role)
                                 (coll d "pegawai")))) as [|i ids] eqn:Eids.
  - right. split.
    + destruct (find (list_gaji_p_filt department role) (coll d "pegawai"));
        [reflexivity|discriminate].
    + apply cond_eq_spec in Hc; [exact Hc|discriminate].
  - left. rewrite <- Eids in Hc.
    apply cond_in_spec in Hc; [|apply printed_ids_no_none].
    destruct Hc as (x & Ex & Hx). apply printed_ids_spec in Hx.
    destruct Hx as (p & Hp & Hpm & ->).
    exists p. split; [|exact Ex]. apply filter_In. auto.
Qed.

Lemma list_santri_filt_get :
  forall kelas asrama kobong gender kabupaten aktif,
    let filt := list_santri_filt kelas asrama kobong gender kabupaten aktif in
    (forall v, supplied_str kelas = Some v -> get filt "kelas" = Some (Eq (VStr v)))
    /\ (forall v, supplied_str asrama = Some v -> get filt "asrama" = Some (Eq (VStr v)))
    /\ (forall v, supplied_str kobong = Some v -> get filt "kobong" = Some (Eq (VStr v)))
    /\ (forall v, supplied_str gender = Some v -> get filt "gender" = Some (Eq (VStr v)))
    /\ (forall v, supplied_str kabupaten = Some v ->
                  get filt "kabupaten" = Some (Eq (VStr v)))
    /\ (forall b, aktif = Some b -> get filt "aktif" = Some (Eq (VBool b))).
Proof.
  intros kelas asrama kobong gender kabupaten aktif. unfold list_santri_filt.
  destruct (supplied_str kelas), (supplied_str asrama), (supplied_str kobong),
    (supplied_str gender), (supplied_str kabupaten), aktif;
    cbv zeta; repeat split; intros v E; inversion E; subst;
    rewrite ?get_update; reflexivity.
Qed.

(** X17.  Every santri that [list_santri] returns is stored and passes
    each filter that was supplied; [aktif] is a filter as soon as it is
    given, so [aktif = false] selects the inactive santri; a supplied [q]
    selects the santri whose [nama] or [nis] passes the pattern.  [total]
    never exceeds the size of the collection. *)
Theorem list_santri_selection :
  forall (regex : string -> option (value -> bool))
         (q kelas asrama kobong gender kabupaten : option string)
         (aktif : option bool) (page page_size : Z) (d : database) (pg : Page)
         (w' : option database),
    list_santri regex q kelas asrama kobong gender kabupaten aktif page page_size
      (Some d) = (Ok pg, w') ->
    (forall item,
        In item (pg_items pg) ->
        In item (coll d "santri")
        /\ (forall b, aktif = Some b -> get item "aktif" = Some (VBool b))
        /\ (forall v, supplied_str kelas = Some v -> get item "kelas" = Some (VStr v))
        /\ (forall v, supplied_str asrama = Some v -> get item "asrama" = Some (VStr v))
        /\ (forall v, supplied_str kobong = Some v -> get item "kobong" = Some (VStr v))
        /\ (forall v, supplied_str gender = Some v -> get item "gender" = Some (VStr v))
        /\ (forall v, supplied_str kabupaten = Some v ->
                      get item "kabupaten" = Some (VStr v))
        /\ (forall pat, supplied_str q = Some pat ->
                        exists m v,
                          regex pat = Some m /\ m v = true
                          /\ (get item "nama" = Some v \/ get item "nis" = Some v)))
    /\ 0 <= pg_total pg <= Z.of_nat (List.length (coll d "santri")).
Proof.
  intros regex q kelas asrama kobong gender kabupaten aktif page page_size d pg w' H.
  unfold list_santri in H. cbv zeta in H. rewrite bind_collection in H.
  destruct (cursor_skip ((page - 1) * page_size)) as [s|e]; [|discriminate].
  rewrite bind_lift_ok in H.
  destruct (regex_or regex q ["nama"; "nis"]) as [sel|e] eqn:Hsel; [|discriminate].
  rewrite bind_lift_ok, bind_collection in H. unfold ret in H.
  inversion H; subst pg. clear H. cbn [pg_items pg_total].
  destruct (list_santri_filt_get kelas asrama kobong gender kabupaten aktif)
    as (Gk & Ga & Go & Gg & Gb & Gt).
  split.
  - intros item Hin. apply in_cursor_limit in Hin. apply filter_In in Hin.
    destruct Hin as [Hin Hm]. apply andb_true_iff in Hm. destruct Hm as [Hq Hm].
    split; [exact Hin|].
    repeat split;
      try (intros v E; eapply matches_eq_field; [discriminate|exact Hm|auto]).
    intros pat E. unfold regex_or in Hsel. rewrite E in Hsel.
    destruct (regex pat) as [m|]; [|discriminate].
    inversion Hsel; subst sel. clear Hsel. cbn [existsb] in Hq.
    rewrite orb_false_r in Hq. apply orb_true_iff in Hq.
    destruct Hq as [Hq|Hq].
    + destruct (get item "nama") as [v|]; [|discriminate]. eauto 6.
    + destruct (get item "nis") as [v|]; [|discriminate]. eauto 6.
  - split; [lia|]. apply inj_le. apply filter_length_le.
Qed.

(* ================================================================== *)
(** ** Properties of the startup seed and of [POST /santri] *)

Lemma existsb_value_eqb :
  forall v l, existsb (value_eqb v) l = true <-> In v l.
Proof.
  intros v l. rewrite existsb_exists. split.
  - intros (x & Hx & E). apply value_eqb_eq in E. subst x. exact Hx.
  - intros H. exists v. split; [exact H|apply value_eqb_refl].
Qed.

(** The digits of an ObjectId read back as the number they print. *)
Lemma pad_left_parse :
  forall k s,
    option_map N.of_hex_uint (HexadecimalString.NilEmpty.uint_of_string (pad_left k s))
    = option_map N.of_hex_uint (HexadecimalString.NilEmpty.uint_of_string s).
Proof.
  induction k as [|k IH]; intros s; [reflexivity|].
  cbn [pad_left]. destruct (String.length s <? 24)%nat; [|reflexivity].
  rewrite IH. cbn.
  destruct (HexadecimalString.NilEmpty.uint_of_string s); reflexivity.
Qed.

Lemma hex24_parse :
  forall n,
    option_map N.of_hex_uint (HexadecimalString.NilEmpty.uint_of_string (hex24 n))
    = Some n.
Proof.
  intros n. unfold hex24. rewrite pad_left_parse.
  pose proof (HexadecimalN.Unsigned.of_to n) as Hn.
  destruct (N.to_hex_uint n) as [|u|u|u|u|u|u|u|u|u|u|u|u|u|u|u|u] eqn:E;
    [cbn in *; congruence|..];
    (unfold HexadecimalString.NilZero.string_of_uint;
     rewrite HexadecimalString.NilEmpty.usu; cbn [option_map]; congruence).
Qed.

Lemma hex24_inj : forall n m, hex24 n = hex24 m -> n = m.
Proof.
  intros n m E. pose proof (hex24_parse n) as Hn. rewrite E, hex24_parse in Hn.
  congruence.
Qed.

Lemma next_oid_spec :
  forall fuel n used,
    (n <= next_oid fuel n used <= n + N.of_nat fuel)%N
    /\ (forall k, (n <= k < next_oid fuel n used)%N -> In (VOid (hex24 k)) used)
    /\ ((next_oid fuel n used < n + N.of_nat fuel)%N ->
        ~ In (VOid (hex24 (next_oid fuel n used))) used).
Proof.
  induction fuel as [|fuel IH]; intros n used.
  - cbn [next_oid]. split; [lia|]. split; intros; lia.
  - cbn [next_oid].
    destruct (existsb (value_eqb (VOid (hex24 n))) used) eqn:E.
    + apply existsb_value_eqb in E.
      destruct (IH (N.succ n) used) as (Hb & Hin & Hfree).
      split; [lia|]. split.
      * intros k Hk. destruct (N.eq_dec k n) as [->|Hne]; [exact E|].
        apply Hin. lia.
      * intros Hlt. apply Hfree. lia.
    + split; [lia|]. split; [intros; lia|].
      intros _ C. apply existsb_value_eqb in C. congruence.
Qed.

(** The id that the generator hands out is not in use. *)
Lemma next_oid_fresh :
  forall n used, ~ In (VOid (hex24 (next_oid (List.length used) n used))) used.
Proof.
  intros n used.
  destruct (next_oid_spec (List.length used) n used) as (Hb & Hin & Hfree).
  set (m := next_oid (List.length used) n used) in *.
  destruct (N.lt_ge_cases m (n + N.of_nat (List.length used))) as [Hlt|Hge];
    [exact (Hfree Hlt)|].
  assert (Hm : m = (n + N.of_nat (List.length used))%N) by lia.
  set (f := fun i : nat => VOid (hex24 (n + N.of_nat i))).
  assert (Hinj : forall i j, f i = f j -> i = j).
  { intros i j E. unfold f in E. inversion E as [E']. apply hex24_inj in E'. lia. }
  assert (Hnd : NoDup (map f (seq 0 (List.length used)))).
  { apply Finite.Injective_map_NoDup; [exact Hinj|apply seq_NoDup]. }
  assert (Hincl : incl (map f (seq 0 (List.length used))) used).
  { intros v Hv. apply in_map_iff in Hv. destruct Hv as (i & <- & Hi).
    apply in_seq in Hi. apply Hin. lia. }
  assert (Hback : incl used (map f (seq 0 (List.length used)))).
  { apply NoDup_length_incl; [exact Hnd| |exact Hincl].
    rewrite length_map, length_seq. lia. }
  intros C. apply Hback in C. apply in_map_iff in C.
  destruct C as (i & E & Hi). apply in_seq in Hi.
  unfold f in E. inversion E as [E']. apply hex24_inj in E'. lia.
Qed.

Lemma fresh_oid_fresh :
  forall d name s,
    In s (coll d name) -> get s "_id" <> Some (VOid (fresh_oid d name)).
Proof.
  intros d name s Hs C.
  apply (next_oid_fresh (oid_counter d) (stored_ids (coll d name))).
  unfold stored_ids. apply in_flat_map. exists s. split; [exact Hs|].
  rewrite C. left. reflexivity.
Qed.

Lemma insert_one_spec :
  forall name doc d,
    get doc "_id" = None ->
    exists d',
      insert_one name doc (Some d) = (Ok (VOid (fresh_oid d name)), Some d')
      /\ (forall n, coll d' n
                    = if String.eqb name n
                      then (coll d name
                              ++ [update doc "_id" (VOid (fresh_oid d name))])%list
                      else coll d n)
      /\ default_database d' = default_database d.
Proof.
  intros name doc d H. unfold insert_one. rewrite H.
  eexists. split; [reflexivity|]. split; [|reflexivity].
  intros n. unfold coll, set_coll. cbn [collections]. rewrite get_update.
  destruct (String.eqb name n); reflexivity.
Qed.

Lemma extends_refl : forall a, extends a a.
Proof. intros a. split; [reflexivity|]. exists []. symmetry. apply app_nil_r. Qed.

Lemma extends_trans : forall a b c, extends a b -> extends b c -> extends a c.
Proof.
  intros a b c [D1 (m1 & I1)] [D2 (m2 & I2)]. split; [congruence|].
  exists (m1 ++ m2)%list. rewrite I2, I1, app_assoc. reflexivity.
Qed.

Lemma find_app_some :
  forall (A : Type) (f : A -> bool) l l' x,
    List.find f l = Some x -> List.find f (l ++ l') = Some x.
Proof.
  induction l as [|y l IH]; intros l' x H; simpl in *; [discriminate|].
  destruct (f y); [exact H|]. apply IH. exact H.
Qed.

Lemma find_app_none :
  forall (A : Type) (f : A -> bool) l l',
    List.find f l = None -> List.find f (l ++ l') = List.find f l'.
Proof.
  induction l as [|y l IH]; intros l' H; simpl in *; [reflexivity|].
  destruct (f y); [discriminate|]. apply IH. exact H.
Qed.

Lemma same_index_keys_refl :
  forall name keys u,
    same_index_keys name keys
      {| ix_collection := name; ix_keys := keys; ix_unique := u |} = true.
Proof.
  intros name keys u. unfold same_index_keys. cbn [ix_collection ix_keys].
  rewrite String.eqb_refl. destruct (list_eq_dec string_dec keys keys); [reflexivity|].
  contradiction.
Qed.

(** [create_index] either fails and changes nothing, or leaves an
    extension in which it has nothing left to do. *)
Lemma create_index_cases :
  forall name keys u a,
    (exists e, create_index name keys u a = (Err e, a))
    \/ (exists a', create_index name keys u a = (Ok tt, a')
                   /\ extends a a'
                   /\ forall b, extends a' b -> create_index name keys u b = (Ok tt, b)).
Proof.
  intros name keys u a. unfold create_index at 1 2.
  destruct (app_db a) as [d|] eqn:Hd; [|left; eauto].
  destruct (List.find (same_index_keys name keys) (app_indexes a)) as [old|] eqn:F.
  - destruct (Bool.eqb (ix_unique old) u) eqn:E; [|left; eauto].
    right. exists a. split; [reflexivity|]. split; [apply extends_refl|].
    intros b [Db (more & Ib)]. unfold create_index.
    rewrite Db, Hd, Ib, (find_app_some _ _ _ more _ F), E. reflexivity.
  - destruct (u && has_dup keys (coll d name)) eqn:Hdup; [left; eauto|].
    right. eexists. split; [reflexivity|]. split.
    + split; [cbn [app_db]; congruence|]. eexists. reflexivity.
    + intros b [Db (more & Ib)]. unfold create_index.
      cbn [app_db app_indexes] in Db, Ib.
      rewrite Db, ?Hd, Ib, <- app_assoc.
      rewrite (find_app_none _ _ _ _ F). cbn [List.find List.app].
      rewrite same_index_keys_refl. cbn [ix_unique].
      rewrite Bool.eqb_reflx. reflexivity.
Qed.

Lemma try_pass_extends :
  forall specs a, extends a (try_pass (index_steps specs) a).
Proof.
  induction specs as [|[[n k] u] specs IH]; intros a; [apply extends_refl|].
  cbn [index_steps map try_pass fst snd].
  destruct (create_index_cases n k u a) as [(e & E)|(a' & E & Hext & _)];
    rewrite E.
  - apply extends_refl.
  - eapply extends_trans; [exact Hext|apply IH].
Qed.

Lemma try_pass_done :
  forall done a,
    (forall s, In s done ->
               create_index (fst (fst s)) (snd (fst s)) (snd s) a = (Ok tt, a)) ->
    forall rest, try_pass (index_steps (done ++ rest)) a = try_pass (index_steps rest) a.
Proof.
  induction done as [|s done IH]; intros a H rest; [reflexivity|].
  cbn [List.app index_steps map try_pass]. rewrite (H s (or_introl eq_refl)).
  apply IH. intros s' Hs'. apply H. right. exact Hs'.
Qed.

Lemma try_pass_again :
  forall specs done a,
    (forall s, In s done ->
               forall b, extends a b ->
                         create_index (fst (fst s)) (snd (fst s)) (snd s) b = (Ok tt, b)) ->
    try_pass (index_steps (done ++ specs)) (try_pass (index_steps specs) a)
    = try_pass (index_steps specs) a.
Proof.
  induction specs as [|[[n k] u] specs IH]; intros done a Hdone.
  - rewrite app_nil_r. cbn [index_steps map try_pass].
    rewrite <- (app_nil_r done), try_pass_done; [reflexivity|].
    intros s Hs. apply Hdone; [exact Hs|apply extends_refl].
  - cbn [index_steps map try_pass fst snd].
    destruct (create_index_cases n k u a) as [(e & E)|(a' & E & Hext & Hagain)];
      rewrite E.
    + rewrite try_pass_done.
      * cbn [index_steps map try_pass fst snd]. rewrite E. reflexivity.
      * intros s Hs. apply Hdone; [exact Hs|apply extends_refl].
    + replace (done ++ (n, k, u) :: specs)%list
        with ((done ++ [(n, k, u)]) ++ specs)%list
        by (rewrite <- app_assoc; reflexivity).
      apply IH. intros s Hs b Hb. apply in_app_or in Hs. destruct Hs as [Hs|[<-|[]]].
      * apply Hdone; [exact Hs|]. eapply extends_trans; eassumption.
      * apply Hagain. exact Hb.
Qed.

Lemma try_pass_idempotent :
  forall specs a,
    try_pass (index_steps specs) (try_pass (index_steps specs) a)
    = try_pass (index_steps specs) a.
Proof. intros specs a. apply (try_pass_again specs [] a). intros s []. Qed.

Lemma insert_one_indexed_cases :
  forall name doc a d,
    app_db a = Some d ->
    get doc "_id" = None ->
    (violates (app_indexes a) name doc (coll d name) = true
     /\ insert_one_indexed name doc a = (Err (Uncaught "DuplicateKeyError"), a))
    \/ (violates (app_indexes a) name doc (coll d name) = false
        /\ exists d',
            insert_one_indexed name doc a
            = (Ok (VOid (fresh_oid d name)),
               {| app_db := Some d'; app_indexes := app_indexes a |})
            /\ (forall n, coll d' n
                          = if String.eqb name n
                            then (coll d name
                                    ++ [update doc "_id"
                                          (VOid (fresh_oid d name))])%list
                            else coll d n)
            /\ default_database d' = default_database d).
Proof.
  intros name doc a d Hd Hid. unfold insert_one_indexed. rewrite Hd.
  destruct (violates (app_indexes a) name doc (coll d name)); [left; auto|].
  right. split; [reflexivity|].
  destruct (insert_one_spec name doc d Hid) as (d' & E & Hc & Hdb).
  exists d'. rewrite E. auto.
Qed.

Lemma find_one_or_truthy :
  forall c y, find_one_or admin_queries c = Some y -> doc_truthy (Some y) = true.
Proof.
  intros c [|f y] H; [|reflexivity].
  apply find_some in H. destruct H as [_ H]. discriminate.
Qed.

Lemma seed_admin_eval :
  forall hash now a d,
    app_db a = Some d ->
    seed_admin hash now a
    = if doc_truthy (find_one_or admin_queries (coll d "user"))
      then (Ok tt, try_pass (index_steps startup_indexes) a)
      else
        match insert_one_indexed "user"
                (admin_doc (hash_password hash "bendahara") now) a with
        | (Ok _, a') =>
            match create_index "refreshtoken" ["user_id"] false a' with
            | (Ok _, a'') => (Ok tt, try_pass (index_steps startup_indexes) a'')
            | (Err e, a'') => (Err e, a'')
            end
        | (Err e, a') => (Err e, a')
        end.
Proof.
  intros hash now a d Hd. unfold seed_admin. rewrite Hd.
  change (find_one_or [[("username", Eq (VStr "admin"))];
                       [("email", Eq (VStr "bendahara@gmail.com"))]])
    with (find_one_or admin_queries).
  destruct (doc_truthy (find_one_or admin_queries (coll d "user")));
    cbn [negb]; [reflexivity|].
  cbv zeta.
  change [("username", VStr "admin"); ("email", VStr "bendahara@gmail.com");
          ("password_hash", hash_password hash "bendahara");
          ("role", VStr "admin"); ("created_at", VTime now)]
    with (admin_doc (hash_password hash "bendahara") now).
  destruct (insert_one_indexed "user" (admin_doc (hash_password hash "bendahara") now) a)
    as [[id|e] a']; [|reflexivity].
  destruct (create_index "refreshtoken" ["user_id"] false a') as [[[]|e] a''];
    reflexivity.
Qed.

(** After a seed that got through, somebody answers to "admin" or to the
    admin's email. *)
Lemma seed_admin_leaves_admin :
  forall hash now a a1 d,
    app_db a = Some d ->
    seed_admin hash now a = (Ok tt, a1) ->
    exists d1,
      app_db a1 = Some d1
      /\ doc_truthy (find_one_or admin_queries (coll d1 "user")) = true
      /\ a1 = try_pass (index_steps startup_indexes)
                (if doc_truthy (find_one_or admin_queries (coll d "user"))
                 then a
                 else
                   snd (create_index "refreshtoken" ["user_id"] false
                          (snd (insert_one_indexed "user"
                                  (admin_doc (hash_password hash "bendahara") now) a))))
      /\ (forall name, name <> "user" -> coll d1 name = coll d name)
      /\ (if doc_truthy (find_one_or admin_queries (coll d "user"))
          then coll d1 "user" = coll d "user"
          else coll d1 "user"
               = (coll d "user"
                    ++ [update (admin_doc (hash_password hash "bendahara") now) "_id"
                          (VOid (fresh_oid d "user"))])%list).
Proof.
  intros hash now a a1 d Hd H. rewrite (seed_admin_eval _ _ _ _ Hd) in H.
  destruct (doc_truthy (find_one_or admin_queries (coll d "user"))) eqn:Ht.
  - apply (f_equal snd) in H. cbn [snd] in H. subst a1.
    destruct (try_pass_extends startup_indexes a) as [Db _].
    exists d. rewrite Db, Hd. repeat split; auto.
  - destruct (insert_one_indexed_cases "user"
                (admin_doc (hash_password hash "bendahara") now) a d Hd eq_refl)
      as [[_ E]|[_ (d' & E & Hc & _)]]; rewrite E in H; [discriminate|].
    rewrite E. cbn [snd].
    destruct (create_index_cases "refreshtoken" ["user_id"] false
                {| app_db := Some d'; app_indexes := app_indexes a |})
      as [(e & E2)|(a'' & E2 & [Db2 _] & _)]; rewrite E2 in H; [discriminate|].
    rewrite E2. cbn [snd]. apply (f_equal snd) in H. cbn [snd] in H. subst a1.
    destruct (try_pass_extends startup_indexes a'') as [Db _].
    exists d'. rewrite Db, Db2. cbn [app_db]. repeat split.
    + rewrite Hc. change (String.eqb "user" "user") with true. cbv iota.
      unfold find_one_or. 
      destruct (List.find (fun d0 => existsb (fun q => matches q d0) admin_queries)
                  (coll d "user")) as [y|] eqn:F.
      * rewrite (find_app_some _ _ _ _ _ F).
        exact (find_one_or_truthy _ _ F).
      * rewrite (find_app_none _ _ _ _ F). reflexivity.
    + intros name Hn. rewrite Hc.
      destruct (String.eqb "user" name) eqn:En; [|reflexivity].
      apply String.eqb_eq in En. congruence.
    + rewrite Hc. reflexivity.
Qed.

(** Nobody answers to "admin" or to the admin's email: the [$or] lookup
    finds nothing. *)
Lemma admin_absent :
  forall c,
    (forall u, In u c ->
               get u "username" <> Some (VStr "admin")
               /\ get u "email" <> Some (VStr "bendahara@gmail.com")) ->
    find_one_or admin_queries c = None.
Proof.
  intros c Hnone. unfold find_one_or.
  destruct (List.find (fun d0 => existsb (fun q => matches q d0) admin_queries) c)
    as [y|] eqn:F; [|reflexivity].
  apply find_some in F. destruct F as [Hin Hm].
  destruct (Hnone y Hin) as [Nu Ne].
  unfold admin_queries in Hm. cbn [existsb] in Hm.
  rewrite orb_false_r in Hm. apply orb_true_iff in Hm.
  destruct Hm as [Hm|Hm];
    (apply matches_eq_truthy in Hm; [contradiction|reflexivity]).
Qed.

(** X18.  The startup seed is idempotent: run again on the state it left
    (at any later time), it returns without changing the database or the
    indexes. *)
Theorem seed_admin_idempotent :
  forall (hash : string -> string) (now now' : Z) (a a1 : app),
    seed_admin hash now a = (Ok tt, a1) ->
    seed_admin hash now' a1 = (Ok tt, a1).
Proof.
  intros hash now now' a a1 H.
  destruct (app_db a) as [d|] eqn:Hd.
  - destruct (seed_admin_leaves_admin _ _ _ _ _ Hd H) as (d1 & Hd1 & Ht & -> & _).
    rewrite (seed_admin_eval _ _ _ _ Hd1), Ht.
    rewrite try_pass_idempotent. reflexivity.
  - unfold seed_admin in *. rewrite Hd in H. inversion H; subst a1.
    rewrite Hd. reflexivity.
Qed.

(** X19.  The seed never touches what is stored: the users present are
    kept as they are, every other collection is unchanged, and nothing at
    all is inserted when somebody already bears the username "admin" or the
    email "bendahara@gmail.com"; otherwise exactly one user is appended,
    the admin with role "admin" and the hash of "bendahara", under an [_id]
    that no stored user has. *)
Theorem seed_admin_effect :
  forall (hash : string -> string) (now : Z) (a a1 : app) (d : database),
    app_db a = Some d ->
    seed_admin hash now a = (Ok tt, a1) ->
    exists d1,
      app_db a1 = Some d1
      /\ (forall name, name <> "user" -> coll d1 name = coll d name)
      /\ ((exists u, In u (coll d "user")
                     /\ (get u "username" = Some (VStr "admin")
                         \/ get u "email" = Some (VStr "bendahara@gmail.com"))) ->
          coll d1 "user" = coll d "user")
      /\ ((forall u, In u (coll d "user") ->
                     get u "username" <> Some (VStr "admin")
                     /\ get u "email" <> Some (VStr "bendahara@gmail.com")) ->
          exists id,
            coll d1 "user"
            = (coll d "user"
                 ++ [[ ("username", VStr "admin");
                       ("email", VStr "bendahara@gmail.com");
                       ("password_hash", VStr (hash "bendahara"));
                       ("role", VStr "admin");
                       ("created_at", VTime now);
                       ("_id", id) ]])%list
            /\ forall u, In u (coll d "user") -> get u "_id" <> Some id).
Proof.
  intros hash now a a1 d Hd H.
  destruct (seed_admin_leaves_admin _ _ _ _ _ Hd H) as (d1 & Hd1 & _ & _ & Hoth & Husr).
  exists d1. split; [exact Hd1|]. split; [exact Hoth|]. split.
  - intros (u & Hin & Hu).
    assert (Hm : existsb (fun q => matches q u) admin_queries = true).
    { unfold admin_queries. cbn [existsb]. rewrite !matches_eq_str.
      unfold py_get, get_default.
      destruct Hu as [E|E]; rewrite E; cbn [value_eqb];
        rewrite String.eqb_refl; [reflexivity|apply orb_true_r]. }
    destruct (find_one_or admin_queries (coll d "user")) as [y|] eqn:F.
    + rewrite (find_one_or_truthy _ _ F) in Husr. exact Husr.
    + unfold find_one_or in F. rewrite (find_none _ _ F _ Hin) in Hm. discriminate.
  - intros Hnone.
    rewrite (admin_absent _ Hnone) in Husr. cbn [doc_truthy] in Husr.
    exists (VOid (fresh_oid d "user")). split; [rewrite Husr; reflexivity|].
    intros u Hu. apply fresh_oid_fresh. exact Hu.
Qed.

(** X20.  On a database where nobody answers to "admin" or to the admin's
    email, a seed that got through lets the admin log in with the password
    "bendahara", by username as well as by email, as soon as passlib
    verifies that password against the hash it produced. *)
Theorem seed_admin_then_login :
  forall (hash : string -> string) (pwd : string -> value -> option bool)
         (env : environ) (now now1 : Z) (a a1 : app) (d : database),
    app_db a = Some d ->
    (forall u, In u (coll d "user") ->
               get u "username" <> Some (VStr "admin")
               /\ get u "email" <> Some (VStr "bendahara@gmail.com")) ->
    seed_admin hash now a = (Ok tt, a1) ->
    pwd "bendahara" (VStr (hash "bendahara")) = Some true ->
    exists r r' w w',
      login env pwd (Some "admin") None "bendahara" now1 (app_db a1) = (Ok r, w)
      /\ login env pwd None (Some "bendahara@gmail.com") "bendahara" now1 (app_db a1)
         = (Ok r', w')
      /\ user_summary r = [ ("username", VStr "admin");
                            ("email", VStr "bendahara@gmail.com");
                            ("role", VStr "admin") ]
      /\ user_summary r' = user_summary r.
Proof.
  intros hash pwd env now now1 a a1 d Hd Hnone H Hpwd.
  destruct (seed_admin_leaves_admin _ _ _ _ _ Hd H) as (d1 & Hd1 & _ & _ & _ & Husers).
  rewrite (admin_absent _ Hnone) in Husers. cbn [doc_truthy] in Husers.
  set (id := VOid (fresh_oid d "user")) in *.
  change (update (admin_doc (hash_password hash "bendahara") now) "_id" id)
    with [ ("username", VStr "admin"); ("email", VStr "bendahara@gmail.com");
           ("password_hash", VStr (hash "bendahara")); ("role", VStr "admin");
           ("created_at", VTime now); ("_id", id) ] in Husers.
  set (doc := [ ("username", VStr "admin"); ("email", VStr "bendahara@gmail.com");
                ("password_hash", VStr (hash "bendahara")); ("role", VStr "admin");
                ("created_at", VTime now); ("_id", id) ]) in *.
  assert (Hfu : find_one (login_query (Some "admin") None) (coll d1 "user") = Some doc).
  { rewrite Husers. unfold find_one. rewrite find_app_none; [reflexivity|].
    apply find_one_absent. intros u Hin. destruct (Hnone u Hin) as [Nu _].
    destruct (matches (login_query (Some "admin") None) u) eqn:Hm; [|reflexivity].
    apply matches_eq_truthy in Hm; [contradiction|reflexivity]. }
  assert (Hfe : find_one (login_query None (Some "bendahara@gmail.com"))
                  (coll d1 "user") = Some doc).
  { rewrite Husers. unfold find_one. rewrite find_app_none; [reflexivity|].
    apply find_one_absent. intros u Hin. destruct (Hnone u Hin) as [_ Ne].
    destruct (matches (login_query None (Some "bendahara@gmail.com")) u) eqn:Hm;
      [|reflexivity].
    apply matches_eq_truthy in Hm; [contradiction|reflexivity]. }
  rewrite Hd1.
  exists (login_response env doc now1), (login_response env doc now1).
  eexists. eexists.
  rewrite (login_found env pwd (Some "admin") None "bendahara" now1 d1 doc
             (or_introl eq_refl) Hfu).
  rewrite (login_found env pwd None (Some "bendahara@gmail.com") "bendahara" now1 d1 doc
             (or_intror eq_refl) Hfe).
  change (get_default doc "password_hash" (VStr "")) with (VStr (hash "bendahara")).
  rewrite Hpwd. cbn. repeat split.
Qed.

Lemma create_santri_cases :
  forall payload now a d,
    app_db a = Some d ->
    (violates (app_indexes a) "santri" (santri_new payload now) (coll d "santri") = true
     /\ create_santri payload now a = (Err (Uncaught "DuplicateKeyError"), a))
    \/ (violates (app_indexes a) "santri" (santri_new payload now) (coll d "santri")
        = false
        /\ exists d',
            create_santri payload now a
            = (Ok [("id", VStr (fresh_oid d "santri"))],
               {| app_db := Some d'; app_indexes := app_indexes a |})
            /\ coll d' "santri"
               = (coll d "santri"
                    ++ [santri_doc payload now (VOid (fresh_oid d "santri"))])%list
            /\ (forall n, n <> "santri" -> coll d' n = coll d n)
            /\ default_database d' = default_database d).
Proof.
  intros payload now a d Hd. unfold create_santri.
  change (update (update (model_dump payload) "created_at" (VTime now))
            "updated_at" (VTime now)) with (santri_new payload now).
  destruct (insert_one_indexed_cases "santri" (santri_new payload now) a d Hd eq_refl)
    as [[V E]|[V (d' & E & Hc & Hdb)]]; rewrite E.
  - left. split; [exact V|reflexivity].
  - right. split; [exact V|]. exists d'. split; [reflexivity|]. split.
    + rewrite Hc. reflexivity.
    + split; [|exact Hdb]. intros n Hn. rewrite Hc.
      destruct (String.eqb "santri" n) eqn:En; [|reflexivity].
      apply String.eqb_eq in En. congruence.
Qed.

Lemma santri_new_nis :
  forall payload now, py_get (santri_new payload now) "nis" = VStr (Schemas.nis payload).
Proof. intros payload now. reflexivity. Qed.

(** Under the unique index on [nis], and no other unique index on the
    collection, a new santri is refused exactly when its [nis] is stored. *)
Lemma violates_nis :
  forall ixs payload now c,
    In nis_index ixs ->
    (forall ix, In ix ixs -> ix_unique ix = true -> ix_collection ix = "santri" ->
                ix_keys ix = ["nis"]) ->
    violates ixs "santri" (santri_new payload now) c = true
    <-> exists s, In s c /\ py_get s "nis" = VStr (Schemas.nis payload).
Proof.
  intros ixs payload now c Hin Honly. unfold violates. rewrite existsb_exists. split.
  - intros (ix & Hix & H).
    apply andb_true_iff in H. destruct H as [H Hex].
    apply andb_true_iff in H. destruct H as [Hu Hc].
    apply String.eqb_eq in Hc. rewrite (Honly ix Hix Hu Hc) in Hex.
    apply existsb_exists in Hex. destruct Hex as (s & Hs & Hk).
    exists s. split; [exact Hs|].
    unfold same_keys in Hk. cbn [forallb] in Hk. rewrite andb_true_r in Hk.
    apply value_eqb_eq in Hk. rewrite santri_new_nis in Hk. congruence.
  - intros (s & Hs & E). exists nis_index. split; [exact Hin|].
    cbn [nis_index ix_unique ix_collection ix_keys andb].
    change (String.eqb "santri" "santri") with true. cbv iota.
    apply existsb_exists. exists s. split; [exact Hs|].
    unfold same_keys. cbn [forallb]. rewrite santri_new_nis, E, value_eqb_refl.
    reflexivity.
Qed.

(** X21.  With the unique index on [santri.nis] in place, [POST /santri]
    answers an uncaught [DuplicateKeyError], and stores nothing, when a
    santri with the payload's [nis] is stored; otherwise it appends one
    document, the payload's fields with the two timestamps and an [_id]
    that no stored santri has, answers that [_id] printed, and leaves the
    other collections and the indexes alone. *)
Theorem create_santri_unique_nis :
  forall (payload : Schemas.Santri) (now : Z) (a : app) (d : database),
    app_db a = Some d ->
    In nis_index (app_indexes a) ->
    (forall ix, In ix (app_indexes a) -> ix_unique ix = true ->
                ix_collection ix = "santri" -> ix_keys ix = ["nis"]) ->
    ((exists s, In s (coll d "santri")
                /\ py_get s "nis" = VStr (Schemas.nis payload)) ->
     create_santri payload now a = (Err (Uncaught "DuplicateKeyError"), a))
    /\ ((forall s, In s (coll d "santri") ->
                   py_get s "nis" <> VStr (Schemas.nis payload)) ->
        exists d' id,
          create_santri payload now a
          = (Ok [("id", VStr id)], {| app_db := Some d'; app_indexes := app_indexes a |})
          /\ coll d' "santri"
             = (coll d "santri"
                  ++ [(model_dump payload
                         ++ [ ("created_at", VTime now); ("updated_at", VTime now);
                              ("_id", VOid id) ])%list])%list
          /\ (forall s, In s (coll d "santri") -> get s "_id" <> Some (VOid id))
          /\ (forall n, n <> "santri" -> coll d' n = coll d n)).
Proof.
  intros payload now a d Hd Hin Honly.
  pose proof (violates_nis _ payload now (coll d "santri") Hin Honly) as Hv.
  destruct (create_santri_cases payload now a d Hd)
    as [[V E]|[V (d' & E & Hc & Hoth & _)]]; split.
  - intros _. exact E.
  - intros Hnone. apply Hv in V. destruct V as (s & Hs & Es).
    destruct (Hnone s Hs Es).
  - intros Hex. apply Hv in Hex. congruence.
  - intros _. exists d', (fresh_oid d "santri").
    split; [exact E|]. split; [exact Hc|]. split; [|exact Hoth].
    intros s Hs. apply fresh_oid_fresh. exact Hs.
Qed.

Lemma violates_not_unique :
  forall ixs name doc c,
    (forall ix, In ix ixs -> ix_unique ix = false) ->
    violates ixs name doc c = false.
Proof.
  intros ixs name doc c H. unfold violates.
  destruct (existsb _ ixs) eqn:E; [|reflexivity].
  apply existsb_exists in E. destruct E as (ix & Hix & Hb).
  rewrite (H ix Hix) in Hb. discriminate.
Qed.

(** On a database without indexes, the seed gets through; when two stored
    santri share a [nis] it leaves at most the index on [refreshtoken]. *)
Lemma seed_admin_duplicates :
  forall hash now a d,
    app_db a = Some d ->
    app_indexes a = [] ->
    has_dup ["nis"] (coll d "santri") = true ->
    exists a1 d1,
      seed_admin hash now a = (Ok tt, a1)
      /\ app_db a1 = Some d1
      /\ coll d1 "santri" = coll d "santri"
      /\ (app_indexes a1 = []
          \/ app_indexes a1
             = [ {| ix_collection := "refreshtoken"; ix_keys := ["user_id"];
                    ix_unique := false |} ]).
Proof.
  intros hash now a d Hd Hix Hdup.
  rewrite (seed_admin_eval _ _ _ _ Hd).
  destruct (doc_truthy (find_one_or admin_queries (coll d "user"))).
  - exists a, d. destruct a as [db ixs]. cbn [app_db app_indexes] in *. subst db ixs.
    unfold startup_indexes, index_steps. cbn [map try_pass fst snd].
    unfold create_index at 1. cbn [app_db app_indexes List.find].
    rewrite Hdup. cbn [andb]. auto.
  - destruct (insert_one_indexed_cases "user"
                (admin_doc (hash_password hash "bendahara") now) a d Hd eq_refl)
      as [[V _]|[_ (d' & E & Hc & _)]].
    + rewrite Hix in V. discriminate.
    + rewrite E, Hix. unfold create_index at 1.
      cbn [app_db app_indexes List.find List.app].
      change (false && has_dup ["user_id"] (coll d' "refreshtoken")) with false.
      cbv iota.
      unfold startup_indexes, index_steps. cbn [map try_pass fst snd].
      unfold create_index at 1. cbn [app_db app_indexes List.find].
      change (same_index_keys "santri" ["nis"]
                {| ix_collection := "refreshtoken"; ix_keys := ["user_id"];
                   ix_unique := false |}) with false.
      cbv iota.
      assert (Hs : coll d' "santri" = coll d "santri") by (rewrite Hc; reflexivity).
      rewrite Hs, Hdup. cbn [andb].
      eexists. exists d'. split; [reflexivity|]. cbn [app_db app_indexes]. auto.
Qed.

(** X22.  When the database holds no index and two stored santri share a
    [nis], the startup gets through all the same, but the [try] block gives
    up at its first index: no index on [santri], [pembayaransyariah],
    [pegawai] or [gajipegawai] exists afterwards, and [POST /santri] accepts
    every payload, a stored [nis] included. *)
Theorem seed_admin_duplicate_nis :
  forall (hash : string -> string) (now : Z) (a : app) (d : database),
    app_db a = Some d ->
    app_indexes a = [] ->
    has_dup ["nis"] (coll d "santri") = true ->
    exists a1,
      seed_admin hash now a = (Ok tt, a1)
      /\ (forall ix, In ix (app_indexes a1) -> ix_collection ix = "refreshtoken")
      /\ forall (payload : Schemas.Santri) (now' : Z),
           exists id a2, create_santri payload now' a1 = (Ok [("id", VStr id)], a2).
Proof.
  intros hash now a d Hd Hix Hdup.
  destruct (seed_admin_duplicates hash now a d Hd Hix Hdup)
    as (a1 & d1 & E & Hd1 & _ & Hixs).
  exists a1. split; [exact E|].
  assert (Hnu : forall ix, In ix (app_indexes a1) ->
                           ix_unique ix = false /\ ix_collection ix = "refreshtoken").
  { intros ix Hin. destruct Hixs as [H|H]; rewrite H in Hin.
    - destruct Hin.
    - destruct Hin as [<-|[]]. split; reflexivity. }
  split; [intros ix Hin; apply Hnu; exact Hin|].
  intros payload now'.
  destruct (create_santri_cases payload now' a1 d1 Hd1)
    as [[V _]|[_ (d' & E' & _)]].
  - rewrite violates_not_unique in V; [discriminate|].
    intros ix Hin. apply Hnu. exact Hin.
  - eexists. eexists. exact E'.
Qed.

(** Without a class, dormitory or gender filter, the payment filter is
    built without reading the store. *)
Lemma summary_sy_filt_unfiltered :
  forall tahun bulan d d' q w,
    summary_sy_filt tahun bulan None None None (Some d) = (Ok q, w) ->
    summary_sy_filt tahun bulan None None None (Some d') = (Ok q, Some d').
Proof.
  intros tahun bulan d d' q w. unfold summary_sy_filt.
  destruct (supplied_int bulan) as [b|].
  - rewrite !bind_assoc, !month_name_ok. autorewrite with handler.
    cbn [str_supplied supplied_str orb]. unfold ret. intros H. inversion H. reflexivity.
  - autorewrite with handler.
    cbn [str_supplied supplied_str orb]. unfold ret. intros H. inversion H. reflexivity.
Qed.

Lemma count_aktif_app :
  forall c payload now id,
    count_documents [("aktif", Eq (VBool true))] (c ++ [santri_doc payload now id])
    = count_documents [("aktif", Eq (VBool true))] c + Z.b2z (Schemas.aktif payload).
Proof.
  intros c payload now id. unfold count_documents, find.
  rewrite filter_app, length_app, Nat2Z.inj_add. f_equal.
  destruct payload as [? ? ? ? ? ? ? ? []]; reflexivity.
Qed.

(** X23.  A santri that [POST /santri] stored raises [total_santri_aktif]
    of the unfiltered summary by one when it is active and by nothing when
    it is not; every other figure of the report stays as it was. *)
Theorem create_santri_then_summary :
  forall (payload : Schemas.Santri) (now : Z) (a a' : app) (d : database)
         (res : dict) (tahun bulan : option Z) (rep : SummaryReport)
         (w : option database),
    app_db a = Some d ->
    create_santri payload now a = (Ok res, a') ->
    summary tahun bulan None None None (Some d) = (Ok rep, w) ->
    summary tahun bulan None None None (app_db a')
    = (Ok {| total_santri_aktif :=
               total_santri_aktif rep + Z.b2z (Schemas.aktif payload);
             total_pemasukan := total_pemasukan rep;
             total_pengeluaran := total_pengeluaran rep;
             pembayaran_syariah_lunas := pembayaran_syariah_lunas rep;
             pembayaran_syariah_belum := pembayaran_syariah_belum rep;
             jumlah_tunggakan := jumlah_tunggakan rep;
             total_gaji_bulan_ini := total_gaji_bulan_ini rep;
             total_gaji_tertunda := total_gaji_tertunda rep |},
       app_db a').
Proof.
  intros payload now a a' d res tahun bulan rep w Hd Hc Hs.
  destruct (create_santri_cases payload now a d Hd)
    as [[_ E]|[_ (d' & E & Hsan & Hoth & _)]]; rewrite E in Hc; [discriminate|].
  inversion Hc; subst res a'. clear Hc. cbn [app_db].
  destruct (summary_ok_inv _ _ _ _ _ _ _ _ Hs)
    as (d0 & q & Hw & _ & Hq & Ha & Hin & Hout & Hl & Hb & Ht & Hg1 & Hg2).
  inversion Hw; subst d0. clear Hw.
  pose proof (summary_sy_filt_unfiltered _ _ _ d' _ _ Hq) as Hq'.
  unfold summary. rewrite bind_collection. cbv zeta.
  unfold bind at 1. rewrite Hq'.
  rewrite bind_collection, bind_sum_of.
  rewrite (Hoth "transaksi") by discriminate. rewrite Hin.
  rewrite bind_collection, bind_sum_of.
  rewrite (Hoth "transaksi") by discriminate. rewrite Hout.
  rewrite bind_collection. cbv zeta. rewrite bind_collection. cbv zeta.
  rewrite (Hoth "pembayaransyariah") by discriminate.
  rewrite (Hoth "gajipegawai") by discriminate.
  rewrite bind_sum_of, Hg1, bind_sum_of, Hg2, bind_sum_of, Ht.
  unfold ret. rewrite Hsan, count_aktif_app, <- Ha, <- Hl, <- Hb. reflexivity.
Qed.

Lemma list_santri_all :
  forall regex kelas asrama kobong gender kabupaten aktif d,
    answered_items
      (list_santri regex None kelas asrama kobong gender kabupaten aktif 1 0 (Some d))
    = find (list_santri_filt kelas asrama kobong gender kabupaten aktif)
        (coll d "santri").
Proof.
  intros regex kelas asrama kobong gender kabupaten aktif d.
  unfold list_santri, answered_items, bind, collection, lift, regex_or, ret,
    cursor_skip, cursor_limit.
  cbn [supplied_str fst pg_items]. simpl skipn.
  unfold find. apply filter_ext. intros p. reflexivity.
Qed.

(** X24.  A santri that [POST /santri] stored is listed by [GET /santri]
    after those stored before it, under every filter that it passes, and
    under its own class and activity in particular; the [id] that was
    answered is the printed [_id] of the listed document.  Under a filter
    that it does not pass the listing is as before. *)
Theorem create_santri_then_list_santri :
  forall (regex : string -> option (value -> bool))
         (payload : Schemas.Santri) (now : Z) (a a' : app) (d : database)
         (res : dict),
    app_db a = Some d ->
    create_santri payload now a = (Ok res, a') ->
    exists new,
      get res "id" = Some (py_str (py_get new "_id"))
      /\ (forall k, get (model_dump payload) k <> None ->
                    get new k = get (model_dump payload) k)
      /\ (forall kelas asrama kobong gender kabupaten aktif,
             answered_items
               (list_santri regex None kelas asrama kobong gender kabupaten aktif 1 0
                  (app_db a'))
             = (answered_items
                  (list_santri regex None kelas asrama kobong gender kabupaten aktif 1 0
                     (Some d))
                  ++ (if matches
                           (list_santri_filt kelas asrama kobong gender kabupaten aktif)
                           new
                      then [new] else []))%list)
      /\ (Schemas.kelas payload <> "" ->
          matches (list_santri_filt (Some (Schemas.kelas payload)) None None None None
                     (Some (Schemas.aktif payload))) new = true).
Proof.
  intros regex payload now a a' d res Hd Hc.
  destruct (create_santri_cases payload now a d Hd)
    as [[_ E]|[_ (d' & E & Hsan & _)]]; rewrite E in Hc; [discriminate|].
  inversion Hc; subst res a'. clear Hc. cbn [app_db].
  exists (santri_doc payload now (VOid (fresh_oid d "santri"))).
  split; [reflexivity|]. split; [|split].
  - intros k Hk. unfold santri_doc, santri_new. rewrite !get_update.
    destruct (String.eqb "_id" k) eqn:E1;
      [apply String.eqb_eq in E1; subst k; destruct Hk; reflexivity|].
    destruct (String.eqb "updated_at" k) eqn:E2;
      [apply String.eqb_eq in E2; subst k; destruct Hk; reflexivity|].
    destruct (String.eqb "created_at" k) eqn:E3;
      [apply String.eqb_eq in E3; subst k; destruct Hk; reflexivity|].
    reflexivity.
  - intros kelas asrama kobong gender kabupaten aktif.
    rewrite !list_santri_all, Hsan. unfold find. rewrite filter_app.
    cbn [filter]. reflexivity.
  - intros Hk. unfold list_santri_filt.
    destruct (Schemas.kelas payload) as [|c s] eqn:Ek; [contradiction|].
    unfold supplied_str. change (String.eqb (String c s) "") with false.
    cbv zeta iota. cbn [update].
    change (String.eqb "kelas" "aktif") with false. cbv iota. cbn [update].
    unfold matches. cbn [forallb fst snd cond_match].
    assert (G1 : get (santri_doc payload now (VOid (fresh_oid d "santri"))) "kelas"
                 = Some (VStr (String c s))).
    { rewrite <- Ek. reflexivity. }
    assert (G2 : get (santri_doc payload now (VOid (fresh_oid d "santri"))) "aktif"
                 = Some (VBool (Schemas.aktif payload))) by reflexivity.
    rewrite G1, G2, !value_eqb_refl. reflexivity.
Qed.

Lemma datetime_first_ok :
  forall y m, 1 <= y <= 9999 -> 1 <= m <= 12 -> datetime_first y m = Ok (y, m).
Proof.
  intros y m Hy Hm. unfold datetime_first, c_int.
  replace (- 2147483648 <=? y) with true by (symmetry; apply Z.leb_le; lia).
  replace (y <=? 2147483647) with true by (symmetry; apply Z.leb_le; lia).
  replace (- 2147483648 <=? m) with true by (symmetry; apply Z.leb_le; lia).
  replace (m <=? 2147483647) with true by (symmetry; apply Z.leb_le; lia).
  replace (1 <=? y) with true by (symmetry; apply Z.leb_le; lia).
  replace (y <=? 9999) with true by (symmetry; apply Z.leb_le; lia).
  replace (1 <=? m) with true by (symmetry; apply Z.leb_le; lia).
  replace (m <=? 12) with true by (symmetry; apply Z.leb_le; lia).
  reflexivity.
Qed.

Lemma datetime_first_bad_month :
  forall y m,
    c_int y = true -> c_int m = true -> m < 1 \/ 12 < m ->
    datetime_first y m = Err (Uncaught "ValueError").
Proof.
  intros y m Cy Cm Hm. unfold datetime_first. rewrite Cy, Cm. cbn [andb negb].
  destruct ((1 <=? y) && (y <=? 9999)); [|reflexivity]. cbn [andb].
  destruct (1 <=? m) eqn:E1; [|reflexivity].
  destruct (m <=? 12) eqn:E2; [|reflexivity].
  apply Z.leb_le in E1. apply Z.leb_le in E2. lia.
Qed.

Lemma datetime_first_overflow :
  forall y m,
    c_int y = false \/ c_int m = false ->
    datetime_first y m = Err (Uncaught "OverflowError").
Proof.
  intros y m H. unfold datetime_first.
  destruct H as [H|H]; rewrite H; [|rewrite andb_false_r]; reflexivity.
Qed.

Lemma supplied_int_some : forall n, n <> 0 -> supplied_int (Some n) = Some n.
Proof.
  intros n H. unfold supplied_int. destruct (n =? 0) eqn:E; [|reflexivity].
  apply Z.eqb_eq in E. contradiction.
Qed.

Lemma c_int_nonzero : forall n, c_int n = false -> n <> 0.
Proof. intros n H E. subst n. discriminate. Qed.

(** X25.  The bounds on [tanggal] in [GET /transaksi]: a year and a month
    select that month alone, December running into January of the next
    year; a year alone selects its twelve months; a month alone does not
    select that month of every year but the 1201 months from that month of
    2000 to the same month of 2100.  A month outside 1..12 raises an
    uncaught [ValueError] as long as the month and the year fit a C [int],
    and an uncaught [OverflowError] as soon as one of them does not; the
    year 9999 without a month raises [ValueError]. *)
Theorem transaksi_range_months :
  forall (tahun bulan : Z),
    (1 <= tahun <= 9998 -> 1 <= bulan <= 12 ->
     exists stop,
       transaksi_range (Some tahun) (Some bulan) = Some (Ok ((tahun, bulan), stop))
       /\ 1 <= snd stop <= 12
       /\ month_index stop = month_index (tahun, bulan) + 1)
    /\ (1 <= tahun <= 9998 ->
        transaksi_range (Some tahun) None = Some (Ok ((tahun, 1), (tahun + 1, 1))))
    /\ (1 <= bulan <= 12 ->
        exists stop,
          transaksi_range None (Some bulan) = Some (Ok ((2000, bulan), stop))
          /\ month_index stop = month_index (2000, bulan) + 1201)
    /\ (c_int tahun = true -> c_int bulan = true -> bulan < 0 \/ 12 < bulan ->
        transaksi_range (Some tahun) (Some bulan) = Some (Err (Uncaught "ValueError")))
    /\ (c_int tahun = false \/ c_int bulan = false ->
        transaksi_range (Some tahun) (Some bulan)
        = Some (Err (Uncaught "OverflowError")))
    /\ transaksi_range (Some 9999) None = Some (Err (Uncaught "ValueError")).
Proof.
  intros tahun bulan. split; [|split; [|split; [|split; [|split]]]].
  - intros Ht Hb. unfold transaksi_range, int_or.
    rewrite !supplied_int_some by lia.
    rewrite datetime_first_ok by lia.
    destruct (bulan =? 12) eqn:E.
    + apply Z.eqb_eq in E. subst bulan. rewrite datetime_first_ok by lia.
      eexists. split; [reflexivity|]. unfold month_index. cbn [fst snd]. lia.
    + apply Z.eqb_neq in E. rewrite datetime_first_ok by lia.
      eexists. split; [reflexivity|]. unfold month_index. cbn [fst snd]. lia.
  - intros Ht. unfold transaksi_range, int_or.
    rewrite !supplied_int_some by lia. cbn [supplied_int].
    rewrite !datetime_first_ok by lia. reflexivity.
  - intros Hb. unfold transaksi_range, int_or.
    rewrite !supplied_int_some by lia. cbn [supplied_int].
    rewrite datetime_first_ok by lia.
    destruct (bulan =? 12) eqn:E.
    + apply Z.eqb_eq in E. subst bulan. rewrite datetime_first_ok by lia.
      eexists. split; [reflexivity|]. unfold month_index. cbn [fst snd]. lia.
    + apply Z.eqb_neq in E. rewrite datetime_first_ok by lia.
      eexists. split; [reflexivity|]. unfold month_index. cbn [fst snd]. lia.
  - intros Ct Cb Hb. unfold transaksi_range, int_or.
    rewrite (supplied_int_some bulan) by lia.
    destruct (supplied_int (Some tahun)) as [t|] eqn:Et.
    + assert (t = tahun).
      { unfold supplied_int in Et. destruct (tahun =? 0); congruence. }
      subst t. rewrite datetime_first_bad_month by (first [assumption|lia]).
      reflexivity.
    + rewrite datetime_first_bad_month by (first [assumption|reflexivity|lia]).
      reflexivity.
  - intros Hc. unfold transaksi_range, int_or.
    destruct Hc as [Ct|Cb].
    + rewrite (supplied_int_some tahun) by (apply c_int_nonzero; exact Ct).
      rewrite datetime_first_overflow by (left; exact Ct).
      destruct (supplied_int (Some bulan)); reflexivity.
    + rewrite (supplied_int_some bulan) by (apply c_int_nonzero; exact Cb).
      rewrite datetime_first_overflow by (right; exact Cb).
      destruct (supplied_int (Some tahun)); reflexivity.
  - reflexivity.
Qed.

(** X26.  A refused search pattern together with a negative skip: [GET
    /santri], which skips its cursor before any query runs, raises the
    [ValueError] of the skip, while [GET /pegawai], which counts first,
    raises the server's [OperationFailure]; with a skip that is not
    negative both raise the [OperationFailure].  Neither writes. *)
Theorem list_error_precedence :
  forall (regex : string -> option (value -> bool))
         (q kelas asrama kobong gender kabupaten department role : option string)
         (aktif : option bool) (pat : string) (page page_size : Z) (d : database),
    supplied_str q = Some pat ->
    regex pat = None ->
    list_pegawai regex q department role aktif page page_size (Some d)
    = (Err (Uncaught "OperationFailure"), Some d)
    /\ ((page - 1) * page_size < 0 ->
        list_santri regex q kelas asrama kobong gender kabupaten aktif page page_size
          (Some d)
        = (Err (Uncaught "ValueError"), Some d))
    /\ (0 <= (page - 1) * page_size ->
        list_santri regex q kelas asrama kobong gender kabupaten aktif page page_size
          (Some d)
        = (Err (Uncaught "OperationFailure"), Some d)).
Proof.
  intros regex q kelas asrama kobong gender kabupaten department role aktif pat
    page page_size d Hq Hr.
  assert (Hsel : forall fields, regex_or regex q fields = Err (Uncaught "OperationFailure")).
  { intros fields. unfold regex_or. rewrite Hq, Hr. reflexivity. }
  split; [|split].
  - unfold list_pegawai. cbv zeta. rewrite bind_collection, Hsel.
    apply bind_lift_err.
  - intros Hneg. unfold list_santri. cbv zeta. rewrite bind_collection.
    unfold cursor_skip.
    replace ((page - 1) * page_size <? 0) with true
      by (symmetry; apply Z.ltb_lt; exact Hneg).
    apply bind_lift_err.
  - intros Hpos. unfold list_santri. cbv zeta. rewrite bind_collection.
    unfold cursor_skip.
    replace ((page - 1) * page_size <? 0) with false
      by (symmetry; apply Z.ltb_ge; exact Hpos).
    rewrite bind_lift_ok, Hsel. apply bind_lift_err.
Qed.

(* ================================================================== *)
(** ** The further properties on the sample stores *)

Lemma token_round_trip_witness :
  exists claims,
    decode_token env0 sample_access_token 2799 = Ok claims
    /\ get claims "exp" = Some (VNum (1000 + 1800))
    /\ forall k, is_time_claim k = false ->
                 get claims k
                 = get [ ("uid", VStr "u1"); ("username", VStr "admin");
                         ("role", VStr "admin") ] k.
Proof.
  apply (token_round_trip env0
           [ ("uid", VStr "u1"); ("username", VStr "admin"); ("role", VStr "admin") ]
           1800 1000 2799 sample_access_token).
  - reflexivity.
  - reflexivity.
  - lia.
Defined.

Lemma token_expired_or_foreign_witness :
  decode_token env0 sample_access_token 2800
  = Err (HTTPException 401 "Token expired")
  /\ decode_token env1 sample_access_token 1001
     = Err (HTTPException 401 "Invalid token").
Proof.
  split.
  - refine (proj1 (token_expired_or_foreign env0 env1
                     [ ("uid", VStr "u1"); ("username", VStr "admin");
                       ("role", VStr "admin") ]
                     1800 1000 2800 sample_access_token eq_refl eq_refl) _).
    lia.
  - refine (proj2 (token_expired_or_foreign env0 env1
                     [ ("uid", VStr "u1"); ("username", VStr "admin");
                       ("role", VStr "admin") ]
                     1800 1000 1001 sample_access_token eq_refl eq_refl) _).
    discriminate.
Defined.

Lemma get_current_user_sound_witness :
  Some db_users = Some db_users
  /\ exists d,
      Some db_users = Some d
      /\ "u1" <> ""
      /\ In user_str (coll d "user")
      /\ (get user_str "_id" = Some (VStr "u1")
          \/ ((forall u', In u' (coll d "user") -> get u' "_id" <> Some (VStr "u1"))
              /\ exists n,
                  py_get (access_claims env0 user_str 1000) "username" = VStr n
                  /\ n <> ""
                  /\ get user_str "username" = Some (VStr n))).
Proof.
  apply (get_current_user_sound env0 sample_access_token
           (access_claims env0 user_str 1000) "u1" 1001
           (Some db_users) (Some db_users) user_str).
  - reflexivity.
  - reflexivity.
  - right. exists "admin". reflexivity.
  - vm_compute. reflexivity.
Defined.

Lemma get_current_user_error_ladder_witness :
  get_current_user env0 None 1001 None
  = (Err (HTTPException 401 "Not authenticated"), None)
  /\ get_current_user env0 (Some sample_access_token) 5000 None
     = (Err (HTTPException 401 "Token expired"), None)
  /\ get_current_user env0 (Some token_without_uid) 1001 None
     = (Err (HTTPException 401 "Invalid token payload"), None)
  /\ get_current_user env0 (Some sample_access_token) 1001 None
     = (Err (HTTPException 500 "Database not available"), None)
  /\ get_current_user env0 (Some sample_access_token) 1001 (Some db_no_default)
     = (Err (Uncaught "ConfigurationError"), Some db_no_default).
Proof.
  split; [|split; [|split; [|split]]].
  - exact (proj1 (get_current_user_error_ladder env0 sample_access_token 1001 None)).
  - destruct (get_current_user_error_ladder env0 sample_access_token 5000 None)
      as (_ & Hdec & _).
    refine (proj1 (Hdec (HTTPException 401 "Token expired") _)). reflexivity.
  - destruct (get_current_user_error_ladder env0 token_without_uid 1001 None)
      as (_ & _ & Huid & _).
    refine (Huid [ ("username", VStr "admin"); ("exp", VNum 999999) ] _ _);
      reflexivity.
  - destruct (get_current_user_error_ladder env0 sample_access_token 1001 None)
      as (_ & _ & _ & Hdb).
    refine (proj1 (Hdb (access_claims env0 user_str 1000) _ _) _); reflexivity.
  - destruct (get_current_user_error_ladder env0 sample_access_token 1001
                (Some db_no_default)) as (_ & _ & _ & Hdb).
    refine (proj2 (Hdb (access_claims env0 user_str 1000) _ _) db_no_default _ _);
      reflexivity.
Defined.

Lemma get_current_user_username_fallback_witness :
  get_current_user env0 (Some stale_access_token) 1001 (Some db_users)
  = (Ok user_oid, Some db_users).
Proof.
  refine (proj1 (get_current_user_username_fallback env0 stale_access_token
                   [ ("uid", VStr "gone"); ("username", VStr "kasir");
                     ("exp", VNum 999999) ]
                   1001 db_users "gone" "kasir" _ _ _ _ _ _ _) user_oid _ _ _).
  - reflexivity.
  - reflexivity.
  - discriminate.
  - intros u' Hin C. in_cases Hin; vm_compute in C; discriminate.
  - reflexivity.
  - discriminate.
  - reflexivity.
  - simpl. auto.
  - reflexivity.
  - intros u' Hin Hn. in_cases Hin; [|reflexivity]. vm_compute in Hn. discriminate.
Defined.

Lemma login_store_effect_witness :
  exists d d' record u,
    Some db_users = Some d /\ Some db_after_login = Some d'
    /\ coll d' "refreshtoken" = (coll d "refreshtoken" ++ [record])%list
    /\ get record "token" = Some (refresh_token_ (login_response env0 user_str 1000))
    /\ In u (coll d "user")
    /\ get record "user_id" = Some (py_str (py_get u "_id"))
    /\ get record "expires_at" = Some (VTime (1000 + days (REFRESH_EXPIRES_DAYS env0)))
    /\ (forall name, name <> "refreshtoken" -> coll d' name = coll d name)
    /\ default_database d' = default_database d.
Proof.
  apply (login_store_effect env0 sample_verify (Some "admin") None "bendahara" 1000
           (Some db_users) (Some db_after_login)
           (Ok (login_response env0 user_str 1000))).
  vm_compute. reflexivity.
Defined.

Lemma login_then_refresh_witness :
  exists u,
    find_one (login_query (Some "admin") None) (coll db_users "user") = Some u
    /\ refresh_token env0 (refresh_token_ (login_response env0 user_str 1000)) 1001
         (Some db_after_login)
       = (Ok (VJws [ ("uid", py_str (py_get u "_id"));
                     ("exp", VNum (1001 + minutes (ACCESS_EXPIRES_MIN env0))) ]
                (JWT_SECRET env0)), Some db_after_login).
Proof.
  apply (login_then_refresh env0 sample_verify (Some "admin") None "bendahara"
           1000 1001 db_users (login_response env0 user_str 1000)
           (Some db_after_login)).
  - vm_compute. reflexivity.
  - vm_compute. reflexivity.
Defined.

Lemma login_identifier_witness :
  login env0 sample_verify None (Some "") "bendahara" 1000 None
  = (Err (HTTPException 400 "Provide username or email"), None)
  /\ login env0 sample_verify (Some "admin") (Some "kasir@example.org") "bendahara"
       1000 (Some db_users)
     = login env0 sample_verify (Some "admin") None "bendahara" 1000 (Some db_users).
Proof.
  split.
  - refine (proj1 (login_identifier env0 sample_verify None (Some "") None
                     "bendahara" 1000 None) _ _); reflexivity.
  - refine (proj2 (login_identifier env0 sample_verify (Some "admin")
                     (Some "kasir@example.org") None "bendahara" 1000
                     (Some db_users)) _); reflexivity.
Defined.

Lemma refresh_survives_login_witness :
  exists r w1,
    login env0 sample_verify None (Some "kasir@example.org") "rahasia" 1002
      (Some db_after_login) = (Ok r, w1)
    /\ refresh_token env0 sample_refresh_token 1001 w1
       = (Ok (VJws [("uid", VStr "u1"); ("exp", VNum 2801)] (JWT_SECRET env0)), w1).
Proof.
  assert (Hl : exists r w1,
             login env0 sample_verify None (Some "kasir@example.org") "rahasia" 1002
               (Some db_after_login) = (Ok r, w1)).
  { eexists. eexists. vm_compute. reflexivity. }
  destruct Hl as (r & w1 & Hl). exists r, w1. split; [exact Hl|].
  refine (refresh_survives_login env0 sample_verify sample_refresh_token 1001
            db_after_login _ None (Some "kasir@example.org") "rahasia" 1002 r w1
            _ Hl).
  vm_compute. reflexivity.
Defined.

Lemma me_after_login_witness :
  exists r w',
    login env0 sample_verify None (Some "kasir@example.org") "rahasia" 1000
      (Some db_users) = (Ok r, w')
    /\ me_route env0 (Some (access_token r)) 1001 w' = (Ok (user_summary r), w')
    /\ map fst (user_summary r) = ["username"; "email"; "role"].
Proof.
  assert (Hl : exists r w',
             login env0 sample_verify None (Some "kasir@example.org") "rahasia" 1000
               (Some db_users) = (Ok r, w')).
  { eexists. eexists. vm_compute. reflexivity. }
  destruct Hl as (r & w' & Hl). exists r, w'. split; [exact Hl|].
  apply (me_after_login env0 sample_verify None (Some "kasir@example.org") "rahasia"
           1000 1001 db_users user_oid r w').
  - exact db_users_wf.
  - reflexivity.
  - right. eexists. split; [reflexivity|discriminate].
  - reflexivity.
  - exact Hl.
  - vm_compute. reflexivity.
Defined.


Lemma list_syariah_pages_witness :
  (exists pg,
      list_syariah None None None None 2 1 (Some db_summary) = (Ok pg, Some db_summary)
      /\ pg_total pg = 2
      /\ pg_items pg = [bayar_belum])
  /\ List.concat (map (fun i =>
                         answered_items
                           (list_syariah None None None None (Z.of_nat i) 1
                              (Some db_summary)))
                    (seq 1 2))
     = [bayar_lunas; bayar_belum].
Proof.
  destruct (list_syariah_pages None None None None 1 db_summary eq_refl)
    as [Hpage Hall].
  split.
  - destruct (Hpage 2) as (pg & E & Ht & Hi & _); [lia|].
    exists pg. split; [exact E|]. split; [exact Ht | exact Hi].
  - exact (Hall 2%nat).
Defined.

Lemma list_syariah_page_edges_witness :
  (exists pg,
      list_syariah None None None None (-3) 0 (Some db_summary)
      = (Ok pg, Some db_summary)
      /\ pg_items pg = [bayar_lunas; bayar_belum])
  /\ list_syariah None None None None 0 20 (Some db_summary)
     = (Err (Uncaught "ValueError"), Some db_summary)
  /\ (exists pg,
         list_syariah None None None None 5 20 (Some db_summary)
         = (Ok pg, Some db_summary)
         /\ pg_items pg = []
         /\ pg_total pg = 2).
Proof.
  split; [|split].
  - destruct (list_syariah_page_edges None None None None (-3) 0 db_summary)
      as (Hzero & _).
    destruct (Hzero eq_refl) as (pg & E & Hi).
    exists pg. split; [exact E | exact Hi].
  - destruct (list_syariah_page_edges None None None None 0 20 db_summary)
      as (_ & Hneg & _).
    apply Hneg; lia.
  - destruct (list_syariah_page_edges None None None None 5 20 db_summary)
      as (_ & _ & Hpast).
    destruct Hpast as (pg & E & Hi & Ht); [lia | simpl; lia |].
    exists pg. split; [exact E|]. split; [exact Hi | exact Ht].
Defined.

Lemma list_gaji_department_overrides_pegawai_id_witness :
  list_gaji (Some "p2") (Some "Pendidikan") None None None None 1 20 (Some db_gaji)
  = list_gaji None (Some "Pendidikan") None None None None 1 20 (Some db_gaji).
Proof.
  apply (list_gaji_department_overrides_pegawai_id (Some "p2") None
           (Some "Pendidikan") None None None None 1 20 (Some db_gaji)).
  reflexivity.
Defined.

Lemma list_gaji_joins_pegawai_witness :
  exists pg,
    list_gaji None (Some "Pendidikan") None None None None 1 20 (Some db_gaji)
    = (Ok pg, Some db_gaji)
    /\ In gaji_dibayar (pg_items pg)
    /\ ((exists p,
            In p (answered_items
                    (list_pegawai sample_regex None (Some "Pendidikan") None None 1 0
                       (Some db_gaji)))
            /\ get gaji_dibayar "pegawai_id" = Some (py_str (py_get p "_id")))
        \/ (answered_items
              (list_pegawai sample_regex None (Some "Pendidikan") None None 1 0
                 (Some db_gaji)) = []
            /\ get gaji_dibayar "pegawai_id" = Some (VStr "__none__"))).
Proof.
  assert (Hl : exists pg,
             list_gaji None (Some "Pendidikan") None None None None 1 20 (Some db_gaji)
             = (Ok pg, Some db_gaji) /\ In gaji_dibayar (pg_items pg)).
  { eexists. split; [vm_compute; reflexivity|]. left. reflexivity. }
  destruct Hl as (pg & Hl & Hin). exists pg. split; [exact Hl|]. split; [exact Hin|].
  apply (list_gaji_joins_pegawai sample_regex None (Some "Pendidikan") None None None
           None 1 20 db_gaji pg (Some db_gaji)).
  - reflexivity.
  - exact Hl.
  - exact Hin.
Defined.

Lemma list_santri_selection_witness :
  exists pg,
    list_santri sample_regex (Some "AHM") None None None None None (Some true) 1 20
      (Some db_summary) = (Ok pg, Some db_summary)
    /\ pg_items pg = [santri_putra]
    /\ get santri_putra "aktif" = Some (VBool true)
    /\ (exists m v,
           sample_regex "AHM" = Some m /\ m v = true
           /\ (get santri_putra "nama" = Some v \/ get santri_putra "nis" = Some v))
    /\ 0 <= pg_total pg <= 2.
Proof.
  assert (Hl : exists pg,
             list_santri sample_regex (Some "AHM") None None None None None (Some true)
               1 20 (Some db_summary) = (Ok pg, Some db_summary)
             /\ pg_items pg = [santri_putra]).
  { eexists. split; vm_compute; reflexivity. }
  destruct Hl as (pg & Hl & Hi). exists pg. split; [exact Hl|]. split; [exact Hi|].
  destruct (list_santri_selection sample_regex (Some "AHM") None None None None None
              (Some true) 1 20 db_summary pg (Some db_summary) Hl) as [Hitems Htot].
  destruct (Hitems santri_putra) as (_ & Hak & _ & _ & _ & _ & _ & Hpat).
  - rewrite Hi. left. reflexivity.
  - split; [exact (Hak true eq_refl)|]. split; [exact (Hpat "AHM" eq_refl)|].
    exact Htot.
Defined.

Lemma seed_admin_idempotent_witness :
  exists a1,
    seed_admin sample_hash 5 app_fresh = (Ok tt, a1)
    /\ seed_admin sample_hash 9 a1 = (Ok tt, a1).
Proof.
  assert (H : exists a1, seed_admin sample_hash 5 app_fresh = (Ok tt, a1)).
  { eexists. vm_compute. reflexivity. }
  destruct H as (a1 & H). exists a1. split; [exact H|].
  exact (seed_admin_idempotent sample_hash 5 9 app_fresh a1 H).
Defined.

Lemma seed_admin_effect_witness :
  exists a1 d1,
    seed_admin sample_hash 5 app_fresh = (Ok tt, a1)
    /\ app_db a1 = Some d1
    /\ coll d1 "santri" = coll db_summary "santri"
    /\ exists id,
        coll d1 "user"
        = [[ ("username", VStr "admin");
             ("email", VStr "bendahara@gmail.com");
             ("password_hash", VStr "$2b$bendahara");
             ("role", VStr "admin");
             ("created_at", VTime 5);
             ("_id", id) ]]
        /\ forall u, In u (coll db_summary "user") -> get u "_id" <> Some id.
Proof.
  assert (H : exists a1, seed_admin sample_hash 5 app_fresh = (Ok tt, a1)).
  { eexists. vm_compute. reflexivity. }
  destruct H as (a1 & H).
  destruct (seed_admin_effect sample_hash 5 app_fresh a1 db_summary eq_refl H)
    as (d1 & Hd1 & Hoth & _ & Hadd).
  exists a1, d1. split; [exact H|]. split; [exact Hd1|]. split.
  - apply Hoth. discriminate.
  - apply Hadd. intros u Hin. destruct Hin.
Defined.

Lemma seed_admin_then_login_witness :
  exists a1,
    seed_admin sample_hash 5 app_fresh = (Ok tt, a1)
    /\ exists r r' w w',
        login env0 sample_verify (Some "admin") None "bendahara" 60 (app_db a1)
        = (Ok r, w)
        /\ login env0 sample_verify None (Some "bendahara@gmail.com") "bendahara" 60
             (app_db a1) = (Ok r', w')
        /\ user_summary r = [ ("username", VStr "admin");
                              ("email", VStr "bendahara@gmail.com");
                              ("role", VStr "admin") ]
        /\ user_summary r' = user_summary r.
Proof.
  assert (H : exists a1, seed_admin sample_hash 5 app_fresh = (Ok tt, a1)).
  { eexists. vm_compute. reflexivity. }
  destruct H as (a1 & H). exists a1. split; [exact H|].
  apply (seed_admin_then_login sample_hash sample_verify env0 5 60 app_fresh a1
           db_summary).
  - reflexivity.
  - intros u Hin. destruct Hin.
  - exact H.
  - reflexivity.
Defined.

Lemma create_santri_unique_nis_witness :
  create_santri santri_ganda 7 app_indexed
  = (Err (Uncaught "DuplicateKeyError"), app_indexed)
  /\ exists d' id,
      create_santri santri_baru 7 app_indexed
      = (Ok [("id", VStr id)],
         {| app_db := Some d'; app_indexes := app_indexes app_indexed |})
      /\ coll d' "santri"
         = (coll db_summary "santri"
              ++ [(model_dump santri_baru
                     ++ [ ("created_at", VTime 7); ("updated_at", VTime 7);
                          ("_id", VOid id) ])%list])%list
      /\ (forall s, In s (coll db_summary "santri") -> get s "_id" <> Some (VOid id))
      /\ (forall n, n <> "santri" -> coll d' n = coll db_summary n).
Proof.
  assert (Hin : In nis_index (app_indexes app_indexed)) by (left; reflexivity).
  assert (Honly : forall ix, In ix (app_indexes app_indexed) -> ix_unique ix = true ->
                             ix_collection ix = "santri" -> ix_keys ix = ["nis"]).
  { intros ix Hix _ _. destruct Hix as [<-|[]]. reflexivity. }
  split.
  - refine (proj1 (create_santri_unique_nis santri_ganda 7 app_indexed db_summary
                     eq_refl Hin Honly) _).
    exists santri_putra. split; [left; reflexivity | reflexivity].
  - refine (proj2 (create_santri_unique_nis santri_baru 7 app_indexed db_summary
                     eq_refl Hin Honly) _).
    intros s Hs C. in_cases Hs; vm_compute in C; discriminate.
Defined.

Lemma seed_admin_duplicate_nis_witness :
  exists a1,
    seed_admin sample_hash 5 app_kembar = (Ok tt, a1)
    /\ (forall ix, In ix (app_indexes a1) -> ix_collection ix = "refreshtoken")
    /\ forall (payload : Schemas.Santri) (now' : Z),
         exists id a2, create_santri payload now' a1 = (Ok [("id", VStr id)], a2).
Proof.
  apply (seed_admin_duplicate_nis sample_hash 5 app_kembar db_kembar).
  - reflexivity.
  - reflexivity.
  - reflexivity.
Defined.

Lemma create_santri_then_summary_witness :
  exists res a' rep,
    create_santri santri_baru 7 app_fresh = (Ok res, a')
    /\ summary None None None None None (Some db_summary) = (Ok rep, Some db_summary)
    /\ summary None None None None None (app_db a')
       = (Ok {| total_santri_aktif := total_santri_aktif rep + 1;
                total_pemasukan := total_pemasukan rep;
                total_pengeluaran := total_pengeluaran rep;
                pembayaran_syariah_lunas := pembayaran_syariah_lunas rep;
                pembayaran_syariah_belum := pembayaran_syariah_belum rep;
                jumlah_tunggakan := jumlah_tunggakan rep;
                total_gaji_bulan_ini := total_gaji_bulan_ini rep;
                total_gaji_tertunda := total_gaji_tertunda rep |},
          app_db a').
Proof.
  assert (Hc : exists res a', create_santri santri_baru 7 app_fresh = (Ok res, a')).
  { eexists. eexists. vm_compute. reflexivity. }
  destruct Hc as (res & a' & Hc).
  destruct (summary_defined None None None None None db_summary eq_refl) as [rep Hs].
  exists res, a', rep. split; [exact Hc|]. split; [exact Hs|].
  exact (create_santri_then_summary santri_baru 7 app_fresh a' db_summary res
           None None rep (Some db_summary) eq_refl Hc Hs).
Defined.

Lemma create_santri_then_list_santri_witness :
  exists res a' new,
    create_santri santri_baru 7 app_fresh = (Ok res, a')
    /\ get res "id" = Some (py_str (py_get new "_id"))
    /\ get new "nama" = Some (VStr "Citra")
    /\ answered_items
         (list_santri sample_regex None (Some "1A") None None None None (Some true) 1 0
            (app_db a'))
       = [santri_putra; new].
Proof.
  assert (Hc : exists res a', create_santri santri_baru 7 app_fresh = (Ok res, a')).
  { eexists. eexists. vm_compute. reflexivity. }
  destruct Hc as (res & a' & Hc).
  destruct (create_santri_then_list_santri sample_regex santri_baru 7 app_fresh a'
              db_summary res eq_refl Hc) as (new & Hid & Hfields & Hlist & Hown).
  exists res, a', new. split; [exact Hc|]. split; [exact Hid|]. split.
  - rewrite Hfields; [reflexivity | discriminate].
  - rewrite Hlist.
    change (Some "1A") with (Some (Schemas.kelas santri_baru)).
    change (Some true) with (Some (Schemas.aktif santri_baru)).
    rewrite Hown; [reflexivity | discriminate].
Defined.

Lemma transaksi_range_months_witness :
  (exists stop,
      transaksi_range (Some 2024) (Some 12) = Some (Ok ((2024, 12), stop))
      /\ 1 <= snd stop <= 12
      /\ month_index stop = month_index (2024, 12) + 1)
  /\ transaksi_range (Some 2024) None = Some (Ok ((2024, 1), (2024 + 1, 1)))
  /\ (exists stop,
         transaksi_range None (Some 3) = Some (Ok ((2000, 3), stop))
         /\ month_index stop = month_index (2000, 3) + 1201)
  /\ transaksi_range (Some 2024) (Some 13) = Some (Err (Uncaught "ValueError"))
  /\ transaksi_range (Some 2024) (Some 2147483648)
     = Some (Err (Uncaught "OverflowError")).
Proof.
  split; [|split; [|split; [|split]]].
  - apply (proj1 (transaksi_range_months 2024 12)); lia.
  - destruct (transaksi_range_months 2024 12) as (_ & Hyear & _). apply Hyear. lia.
  - destruct (transaksi_range_months 2024 3) as (_ & _ & Hmonth & _).
    apply Hmonth. lia.
  - destruct (transaksi_range_months 2024 13) as (_ & _ & _ & Hbad & _).
    apply Hbad; [reflexivity|reflexivity|lia].
  - destruct (transaksi_range_months 2024 2147483648) as (_ & _ & _ & _ & Hover & _).
    apply Hover. right. reflexivity.
Defined.

Lemma list_error_precedence_witness :
  list_pegawai sample_regex (Some "(") None None None 0 20 (Some db_gaji)
  = (Err (Uncaught "OperationFailure"), Some db_gaji)
  /\ list_santri sample_regex (Some "(") None None None None None None 0 20
       (Some db_summary)
     = (Err (Uncaught "ValueError"), Some db_summary)
  /\ list_santri sample_regex (Some "(") None None None None None None 1 20
       (Some db_summary)
     = (Err (Uncaught "OperationFailure"), Some db_summary).
Proof.
  split; [|split].
  - refine (proj1 (list_error_precedence sample_regex (Some "(") None None None None
                     None None None None "(" 0 20 db_gaji _ _)); reflexivity.
  - destruct (list_error_precedence sample_regex (Some "(") None None None None
                None None None None "(" 0 20 db_summary eq_refl eq_refl)
      as (_ & Hneg & _).
    apply Hneg. lia.
  - destruct (list_error_precedence sample_regex (Some "(") None None None None
                None None None None "(" 1 20 db_summary eq_refl eq_refl)
      as (_ & _ & Hpos).
    apply Hpos. lia.
Defined.
